(** * bimmer_connected: the data-normalisation layer

    A shallow embedding of [bimmer_connected/utils.py] (the timestamp
    parser) and [bimmer_connected/vehicle_status.py] (the property
    accessors over the raw [status] and [properties] payloads), together
    with the properties of that layer.

    Python values coming from the backend are JSON values; Python
    exceptions and the module loggers are made explicit by a small monad
    that threads the list of emitted log records and either returns a
    value or raises. *)

From Stdlib Require Import ZArith List String Ascii Bool Lia DecimalString.
Import ListNotations.

Local Open Scope string_scope.
Local Open Scope list_scope.

Set Warnings "-register-all".

(** ** JSON payloads *)

(** What [json.loads] produces. A Python [dict] keeps its items in
    insertion order, so a mapping is the list of its items (keys are
    unique in a [dict]; a lookup takes the first binding). Numbers are
    integers: the fields read by this layer are integral. *)
Inductive json : Type :=
| JNull
| JBool (b : bool)
| JNum (n : Z)
| JStr (s : string)
| JList (l : list json)
| JDict (d : list (string * json)).

Definition dict := list (string * json).

Fixpoint lookup (k : string) (d : dict) : option json :=
  match d with
  | [] => None
  | (k', v) :: d' => if String.eqb k k' then Some v else lookup k d'
  end.

(** ** The Python runtime: exceptions, outcomes, logging *)

Module Py.

Inductive exn_class : Type :=
| KeyError
| ValueError
| TypeError
| AttributeError
| OtherException (name : string).

(** An exception instance: its class and its message. Messages of
    exceptions raised by the interpreter itself are left empty. *)
Record exn : Type := mkExn { exn_cls : exn_class; exn_msg : string }.

Definition builtin (c : exn_class) : exn := mkExn c "".

Definition is_KeyError (e : exn) : bool :=
  match exn_cls e with KeyError => true | _ => false end.

Definition is_ValueError (e : exn) : bool :=
  match exn_cls e with ValueError => true | _ => false end.

Inductive outcome (A : Type) : Type :=
| Return (a : A)
| Raise (e : exn).
Arguments Return {A} a.
Arguments Raise {A} e.

Inductive log_level : Type := DEBUG | WARNING | ERROR.

(** One call of a [logging.Logger] method: level, format string and the
    arguments that were passed for the format's placeholders. *)
Record log_record : Type :=
  mkLog { level : log_level; template : string; args : list string }.

Definition log := list log_record.

(** A computation reads the records emitted so far and gives its outcome
    and the records emitted up to the point where it returned or raised. *)
Definition M (A : Type) : Type := log -> outcome A * log.

Definition ret {A} (a : A) : M A := fun l => (Return a, l).

Definition raise {A} (e : exn) : M A := fun l => (Raise e, l).

Definition bind {A B} (m : M A) (k : A -> M B) : M B :=
  fun l =>
    match m l with
    | (Return a, l') => k a l'
    | (Raise e, l') => (Raise e, l')
    end.

Definition lift {A} (o : outcome A) : M A := fun l => (o, l).

Definition emit (r : log_record) : M unit := fun l => (Return tt, l ++ [r]).

(** [try: m except <the classes handled by h>: ...]; a handler that does
    not handle the exception gives [None] and the exception goes on. *)
Definition try_except {A} (m : M A) (h : exn -> option (M A)) : M A :=
  fun l =>
    match m l with
    | (Return a, l') => (Return a, l')
    | (Raise e, l') =>
        match h e with
        | Some k => k l'
        | None => (Raise e, l')
        end
    end.

(** Truth value testing ([bool(v)]). *)
Definition truthy (v : json) : bool :=
  match v with
  | JNull => false
  | JBool b => b
  | JNum n => negb (Z.eqb n 0)
  | JStr s => negb (String.eqb s "")
  | JList l => match l with [] => false | _ => true end
  | JDict d => match d with [] => false | _ => true end
  end.

Definition is_None (v : json) : bool :=
  match v with JNull => true | _ => false end.

(** [v == s] and [v != s] for a string literal [s]: only a string equals
    a string. *)
Definition eq_str (v : json) (s : string) : bool :=
  match v with JStr s' => String.eqb s' s | _ => false end.

Definition ne_str (v : json) (s : string) : bool := negb (eq_str v s).

(** [v[k]] for a string key: a mapping raises [KeyError] on a missing
    key, any other value does not take string subscripts. *)
Definition getitem (v : json) (k : string) : outcome json :=
  match v with
  | JDict d =>
      match lookup k d with
      | Some x => Return x
      | None => Raise (mkExn KeyError k)
      end
  | _ => Raise (builtin TypeError)
  end.

(** [v.get(k, default)]: only mappings have the method. *)
Definition get (v : json) (k : string) (default : json) : outcome json :=
  match v with
  | JDict d =>
      match lookup k d with
      | Some x => Return x
      | None => Return default
      end
  | _ => Raise (builtin AttributeError)
  end.

(** [v.items()]. *)
Definition items (v : json) : outcome dict :=
  match v with
  | JDict d => Return d
  | _ => Raise (builtin AttributeError)
  end.

Definition is_substring (k s : string) : bool :=
  match String.index 0 k s with Some _ => true | None => false end.

(** [k in v] for a string [k]: key membership in a mapping, element
    membership in a list, substring test in a string. *)
Definition contains (k : string) (v : json) : outcome bool :=
  match v with
  | JDict d => Return (match lookup k d with Some _ => true | None => false end)
  | JList l => Return (existsb (fun x => eq_str x k) l)
  | JStr s => Return (is_substring k s)
  | _ => Raise (builtin TypeError)
  end.

Fixpoint chars (s : string) : list json :=
  match s with
  | EmptyString => []
  | String c s' => JStr (String c EmptyString) :: chars s'
  end.

(** [iter(v)]: the elements of a list, the keys of a mapping, the
    characters of a string. *)
Definition iter (v : json) : outcome (list json) :=
  match v with
  | JList l => Return l
  | JDict d => Return (map (fun kv => JStr (fst kv)) d)
  | JStr s => Return (chars s)
  | _ => Raise (builtin TypeError)
  end.

Definition upper_ascii (c : ascii) : ascii :=
  let n := nat_of_ascii c in
  if (Nat.leb 97 n && Nat.leb n 122)%bool then ascii_of_nat (n - 32) else c.

Fixpoint upper_string (s : string) : string :=
  match s with
  | EmptyString => EmptyString
  | String c s' => String (upper_ascii c) (upper_string s')
  end.

(** [v.upper()]: a [str] method (strings are ASCII text here). *)
Definition upper (v : json) : outcome json :=
  match v with
  | JStr s => Return (JStr (upper_string s))
  | _ => Raise (builtin AttributeError)
  end.

Definition as_int (v : json) : option Z :=
  match v with
  | JNum n => Some n
  | JBool b => Some (if b then 1 else 0)%Z
  | _ => None
  end.

(** [a + b]: integers (a [bool] is an [int]) add, strings and lists
    concatenate, anything else is a [TypeError]. *)
Definition add (a b : json) : outcome json :=
  match as_int a, as_int b with
  | Some x, Some y => Return (JNum (x + y))
  | _, _ =>
      match a, b with
      | JStr x, JStr y => Return (JStr (x ++ y))
      | JList x, JList y => Return (JList (x ++ y))
      | _, _ => Raise (builtin TypeError)
      end
  end.

End Py.

Import Py.

Declare Scope py_scope.
Delimit Scope py_scope with py.
Notation "x <- m ;; k" := (bind m (fun x => k))
  (at level 61, m at next level, right associativity) : py_scope.
Notation "m ;;; k" := (bind m (fun _ => k))
  (at level 61, right associativity) : py_scope.
Local Open Scope py_scope.

(** A list comprehension [[body(x) for x in xs if cond(x)]]: elements are
    visited in order, the condition is evaluated before the body, and the
    first exception ends the comprehension. *)
Fixpoint list_comp {A B} (cond : A -> M bool) (body : A -> M B)
    (xs : list A) : M (list B) :=
  match xs with
  | [] => ret []
  | x :: xs' =>
      c <- cond x ;;
      if c then
        (b <- body x ;; bs <- list_comp cond body xs' ;; ret (b :: bs))
      else list_comp cond body xs'
  end.

(** ** [datetime] values *)

(** A [datetime.datetime]: the civil fields and the [tzinfo], which is
    either [None] (a naive datetime) or a fixed-offset
    [datetime.timezone], given by its offset in microseconds. *)
Record datetime : Type :=
  mkDatetime {
    year : Z; month : Z; day : Z;
    hour : Z; minute : Z; second : Z; microsecond : Z;
    tzinfo : option Z
  }.

Definition utc : Z := 0%Z.

(** [d.replace(tzinfo=tz)]. *)
Definition replace_tzinfo (d : datetime) (tz : Z) : datetime :=
  mkDatetime (year d) (month d) (day d) (hour d) (minute d) (second d)
             (microsecond d) (Some tz).

(** A datetime is timezone-aware when its [tzinfo] is set. *)
Definition aware (d : datetime) : bool :=
  match tzinfo d with Some _ => true | None => false end.

(** *** Comparing datetimes *)

Definition is_leap_year (y : Z) : bool :=
  ((y mod 4 =? 0) && (negb (y mod 100 =? 0) || (y mod 400 =? 0)))%Z%bool.

(** [_days_before_year]: the days before January 1st of the year. *)
Definition days_before_year (year : Z) : Z :=
  let y := (year - 1)%Z in (y * 365 + y / 4 - y / 100 + y / 400)%Z.

Definition DAYS_BEFORE_MONTH : list Z :=
  [-1; 0; 31; 59; 90; 120; 151; 181; 212; 243; 273; 304; 334]%Z.

(** [_days_before_month]: the days of the year before the first day of
    the month. *)
Definition days_before_month (year month : Z) : Z :=
  (nth (Z.to_nat month) DAYS_BEFORE_MONTH 0
   + (if ((2 <? month) && is_leap_year year)%bool then 1 else 0))%Z.

(** [d.toordinal()]. *)
Definition toordinal (d : datetime) : Z :=
  (days_before_year (year d) + days_before_month (year d) (month d) + day d)%Z.

Definition civil_fields (d : datetime) : list Z :=
  [year d; month d; day d; hour d; minute d; second d; microsecond d].

Fixpoint lex_compare (a b : list Z) : comparison :=
  match a, b with
  | [], [] => Eq
  | [], _ :: _ => Lt
  | _ :: _, [] => Gt
  | x :: a', y :: b' =>
      match Z.compare x y with
      | Eq => lex_compare a' b'
      | c => c
      end
  end.

Definition offset_eqb (a b : option Z) : bool :=
  match a, b with
  | None, None => true
  | Some x, Some y => Z.eqb x y
  | _, _ => false
  end.

(** [self - other] in microseconds, the offsets left aside. *)
Definition base_difference (self other : datetime) : Z :=
  ((toordinal self - toordinal other) * 86400000000
   + ((second self + minute self * 60 + hour self * 3600)
      - (second other + minute other * 60 + hour other * 3600)) * 1000000
   + (microsecond self - microsecond other))%Z.

(** [datetime._cmp]: with equal offsets (or none on both sides) the civil
    fields are compared; a naive and an aware datetime do not compare;
    otherwise the sign of [self - other] decides. *)
Definition datetime_cmp (self other : datetime) : Py.outcome comparison :=
  if offset_eqb (tzinfo self) (tzinfo other) then
    Py.Return (lex_compare (civil_fields self) (civil_fields other))
  else
    match tzinfo self, tzinfo other with
    | Some myoff, Some otoff =>
        Py.Return (Z.compare (base_difference self other + otoff - myoff) 0)
    | _, _ => Py.Raise (Py.builtin Py.TypeError)
    end.

(** [a > b] between two values that are a datetime or [None]. *)
Definition gt (a b : option datetime) : Py.outcome bool :=
  match a, b with
  | Some x, Some y =>
      match datetime_cmp x y with
      | Py.Return Gt => Py.Return true
      | Py.Return _ => Py.Return false
      | Py.Raise e => Py.Raise e
      end
  | _, _ => Py.Raise (Py.builtin Py.TypeError)
  end.

(** [max(a, b)]: [b] when [b > a], else [a]. *)
Definition max2 (a b : option datetime) : Py.outcome (option datetime) :=
  match gt b a with
  | Py.Return true => Py.Return b
  | Py.Return false => Py.Return a
  | Py.Raise e => Py.Raise e
  end.

(** ** utils.py *)

Module Utils.

Definition date_formats : list string :=
  [ "%Y-%m-%dT%H:%M:%S.%f%z"; "%Y-%m-%dT%H:%M:%S%z";
    "%Y-%m-%dT%H:%M:%S.%fZ"; "%Y-%m-%dT%H:%M:%SZ" ].

Section ParseDatetime.

(** [datetime.datetime.strptime] applied to a string, a function of
    the Python standard library, and whether the interpreter is older
    than 3.7 ([sys.version_info < (3, 7)]). *)
Variable strptime : string -> string -> outcome datetime.
Variable python_lt_37 : bool.

(** [datetime.datetime.strptime(date_str, date_format)] for an
    arbitrary first argument: it must be a [str]. *)
Definition strptime_any (date_str : json) (date_format : string)
  : outcome datetime :=
  match date_str with
  | JStr s => strptime s date_format
  | _ => Raise (builtin TypeError)
  end.

(** The [for date_format in date_formats] loop of [parse_datetime]:
    [None] means that the loop ran to its end. *)
Fixpoint try_formats (date_str : json) (formats : list string)
  : M (option datetime) :=
  match formats with
  | [] => ret None
  | date_format :: rest =>
      try_except
        (parsed <- lift (strptime_any date_str date_format) ;;
         let parsed :=
           if python_lt_37 then replace_tzinfo parsed utc else parsed in
         ret (Some parsed))
        (fun e =>
           if is_ValueError e then Some (try_formats date_str rest)
           else None)
  end.

Definition repr_formats : string :=
  "['%Y-%m-%dT%H:%M:%S.%f%z', '%Y-%m-%dT%H:%M:%S%z', '%Y-%m-%dT%H:%M:%S.%fZ', '%Y-%m-%dT%H:%M:%SZ']".

Definition str_of (v : json) : string :=
  match v with JStr s => s | _ => "" end.

Definition parse_datetime (date_str : json) : M (option datetime) :=
  if negb (truthy date_str) then ret None
  else
    r <- try_formats date_str date_formats ;;
    match r with
    | Some parsed => ret (Some parsed)
    | None =>
        emit (mkLog ERROR "unable to parse '%s' using %s"
                    [str_of date_str; repr_formats]) ;;;
        ret None
    end.

End ParseDatetime.

(** [replacement_text] of [deprecated]: empty when no replacement (or an
    empty one) was given. *)
Definition replacement_text (replacement : option string) : string :=
  match replacement with
  | Some r =>
      if String.eqb r "" then ""
      else (" Please change to '" ++ r ++ "'.")%string
  | None => ""
  end.

(** The decorator [deprecated(replacement)]; [qualname] stands for
    [func.__qualname__], [filename] and [lineno] for the caller's frame
    taken from [traceback.extract_stack()]. *)
Definition deprecated {S A} (replacement : option string)
    (qualname filename lineno : string) (func : S -> M A) (self : S) : M A :=
  emit (mkLog WARNING "DeprecationWarning:%s:%s: '%s' is deprecated.%s"
              [filename; lineno; qualname; replacement_text replacement]) ;;;
  func self.

End Utils.

(** ** vehicle_status.py *)

Module Status.

(** *** The enumerations *)

Inductive LidState : Type := CLOSED | OPEN | OPEN_TILT | INTERMEDIATE | INVALID.

Inductive LockState : Type :=
  LOCKED | SECURED | SELECTIVE_LOCKED | UNLOCKED | UNKNOWN.

Inductive ConditionBasedServiceStatus : Type := OK | OVERDUE | PENDING.

Definition LidState_members : list LidState :=
  [CLOSED; OPEN; OPEN_TILT; INTERMEDIATE; INVALID].

Definition LidState_value (m : LidState) : string :=
  match m with
  | CLOSED => "CLOSED"
  | OPEN => "OPEN"
  | OPEN_TILT => "OPEN_TILT"
  | INTERMEDIATE => "INTERMEDIATE"
  | INVALID => "INVALID"
  end.

Definition LockState_members : list LockState :=
  [LOCKED; SECURED; SELECTIVE_LOCKED; UNLOCKED; UNKNOWN].

Definition LockState_value (m : LockState) : string :=
  match m with
  | LOCKED => "LOCKED"
  | SECURED => "SECURED"
  | SELECTIVE_LOCKED => "SELECTIVE_LOCKED"
  | UNLOCKED => "UNLOCKED"
  | UNKNOWN => "UNKNOWN"
  end.

Definition ConditionBasedServiceStatus_members
  : list ConditionBasedServiceStatus := [OK; OVERDUE; PENDING].

Definition ConditionBasedServiceStatus_value
    (m : ConditionBasedServiceStatus) : string :=
  match m with
  | OK => "OK"
  | OVERDUE => "OVERDUE"
  | PENDING => "PENDING"
  end.

(** Calling an [Enum] class on a value looks the member up by value and
    raises [ValueError] when no member has it. *)
Definition enum_call {E} (members : list E) (value_of : E -> string)
    (value : json) : outcome E :=
  match find (fun m => eq_str value (value_of m)) members with
  | Some m => Return m
  | None => Raise (builtin ValueError)
  end.

Definition LidState_call := enum_call LidState_members LidState_value.
Definition LockState_call := enum_call LockState_members LockState_value.
Definition ConditionBasedServiceStatus_call :=
  enum_call ConditionBasedServiceStatus_members
            ConditionBasedServiceStatus_value.

Definition LidState_eqb (a b : LidState) : bool :=
  String.eqb (LidState_value a) (LidState_value b).

Definition ConditionBasedServiceStatus_eqb
    (a b : ConditionBasedServiceStatus) : bool :=
  String.eqb (ConditionBasedServiceStatus_value a)
             (ConditionBasedServiceStatus_value b).

(** *** class CheckControlMessage *)

Record CheckControlMessage : Type := mkCheckControlMessage { ccm_dict : json }.

(** *** class Lid, class Window *)

Module Lid.

Record t : Type := mk { name : string; state : LidState }.

(** [Lid.__init__(self, name, state)]. *)
Definition init (name : string) (state : json) : outcome t :=
  match LidState_call state with
  | Return s => Return (mk name s)
  | Raise e => Raise e
  end.

Definition is_closed (self : t) : bool := LidState_eqb (state self) CLOSED.

End Lid.

(** [class Window(Lid)] adds nothing to [Lid]. *)
Module Window.
Definition t : Type := Lid.t.
Definition init : string -> json -> outcome t := Lid.init.
Definition is_closed : t -> bool := Lid.is_closed.
End Window.

(** *** class ConditionBasedServiceReport *)

Module ConditionBasedServiceReport.

Record t : Type :=
  mk {
    due_date : option datetime;
    state : ConditionBasedServiceStatus;
    service_type : json;
    due_distance : option (json * json);
    description : option string
  }.

Section Init.
Variable strptime : string -> string -> outcome datetime.
Variable python_lt_37 : bool.

Definition init (cbs_data : json) : M t :=
  date_time <- lift (get cbs_data "dateTime" JNull) ;;
  due_date <- Utils.parse_datetime strptime python_lt_37 date_time ;;
  raw_status <- lift (getitem cbs_data "status") ;;
  state <- lift (ConditionBasedServiceStatus_call raw_status) ;;
  service_type <- lift (getitem cbs_data "type") ;;
  has_distance <- lift (contains "distance" cbs_data) ;;
  due_distance <-
    (if has_distance then
       d <- lift (getitem cbs_data "distance") ;;
       value <- lift (getitem d "value") ;;
       d' <- lift (getitem cbs_data "distance") ;;
       units <- lift (getitem d' "units") ;;
       ret (Some (value, units))
     else ret None) ;;
  ret (mk due_date state service_type due_distance None).
End Init.

End ConditionBasedServiceReport.

(** *** class VehicleStatus *)

Record VehicleStatus : Type := mkVehicleStatus { status : json; properties : json }.

(** [VehicleStatus.__init__(self, state)]. *)
Definition VehicleStatus_init (state : json) : outcome VehicleStatus :=
  match getitem state "status" with
  | Raise e => Raise e
  | Return s =>
      match getitem state "properties" with
      | Raise e => Raise e
      | Return p => Return (mkVehicleStatus s p)
      end
  end.

(** The decorator [backend_parameter]; [func_name] stands for
    [str(func)]. A decorated function returns a value or [None]. *)
Definition backend_parameter {A} (func_name : string)
    (func : VehicleStatus -> M (option A)) (self : VehicleStatus)
  : M (option A) :=
  if (is_None (properties self) && truthy (status self))%bool then
    raise (mkExn ValueError "No data available for vehicle status!")
  else
    try_except (func self)
      (fun ex =>
         if is_KeyError ex then
           Some (emit (mkLog DEBUG "No data available for attribute %s!"
                             [func_name]) ;;;
                 ret None)
         else Some (raise ex)).

(** A pair [(value, unit_of_measurement)]. *)
Definition value_unit : Type := (json * json)%type.

Definition remaining_range_fuel : VehicleStatus -> M (option value_unit) :=
  backend_parameter "remaining_range_fuel" (fun self =>
    present <- lift (contains "combustionRange" (properties self)) ;;
    if negb present then ret (Some (JNull, JNull))
    else
      r <- lift (getitem (properties self) "combustionRange") ;;
      d <- lift (getitem r "distance") ;;
      value <- lift (getitem d "value") ;;
      r' <- lift (getitem (properties self) "combustionRange") ;;
      d' <- lift (getitem r' "distance") ;;
      units <- lift (getitem d' "units") ;;
      ret (Some (value, units))).

Definition remaining_range_electric : VehicleStatus -> M (option value_unit) :=
  backend_parameter "remaining_range_electric" (fun self =>
    present <- lift (contains "electricRange" (properties self)) ;;
    if negb present then ret (Some (JNull, JNull))
    else
      r <- lift (getitem (properties self) "electricRange") ;;
      d <- lift (getitem r "distance") ;;
      value <- lift (getitem d "value") ;;
      r' <- lift (getitem (properties self) "electricRange") ;;
      d' <- lift (getitem r' "distance") ;;
      units <- lift (getitem d' "units") ;;
      ret (Some (value, units))).

(** Truth value of what a range accessor returned: [None] is false, a
    2-tuple is true whatever it holds. *)
Definition truthy_tuple (t : option value_unit) : bool :=
  match t with Some _ => true | None => false end.

(** [(t or [0])[0]]. *)
Definition first_or_zero (t : option value_unit) : json :=
  match t with Some (value, _) => value | None => JNum 0 end.

(** [v or 0]. *)
Definition or_zero (v : json) : json := if truthy v then v else JNum 0.

Definition remaining_range_total : VehicleStatus -> M (option value_unit) :=
  backend_parameter "remaining_range_total" (fun self =>
    fuel <- remaining_range_fuel self ;;
    nothing <-
      (if negb (truthy_tuple fuel) then
         electric <- remaining_range_electric self ;;
         ret (negb (truthy_tuple electric))
       else ret false) ;;
    if nothing then ret (Some (JNull, JNull))
    else
      fuel <- remaining_range_fuel self ;;
      electric <- remaining_range_electric self ;;
      total <- lift (add (or_zero (first_or_zero fuel))
                         (or_zero (first_or_zero electric))) ;;
      fuel <- remaining_range_fuel self ;;
      source <-
        (if truthy_tuple fuel then ret fuel
         else remaining_range_electric self) ;;
      match source with
      | Some (_, units) => ret (Some (total, units))
      | None => raise (builtin TypeError)
      end).

Definition in_names (k : string) (names : list string) : bool :=
  existsb (String.eqb k) names.

Definition lids : VehicleStatus -> M (option (list Lid.t)) :=
  backend_parameter "lids" (fun self =>
    lids <- lift (getitem (properties self) "doorsAndWindows") ;;
    its <- lift (items lids) ;;
    fixed <-
      list_comp
        (fun kv => ret (in_names (fst kv) ["hood"; "trunk"]
                        && ne_str (snd kv) (LidState_value INVALID))%bool)
        (fun kv => lift (Lid.init (fst kv) (snd kv))) its ;;
    doors <- lift (getitem lids "doors") ;;
    door_items <- lift (items doors) ;;
    from_doors <-
      list_comp
        (fun kv => ret (ne_str (snd kv) (LidState_value INVALID)))
        (fun kv => lift (Lid.init (fst kv) (snd kv))) door_items ;;
    ret (Some (fixed ++ from_doors))).

(** Iterating over what a decorated property returned: [None] is not
    iterable. *)
Definition iterate {A} (v : option (list A)) : M (list A) :=
  match v with
  | Some l => ret l
  | None => raise (builtin TypeError)
  end.

Definition open_lids (self : VehicleStatus) : M (list Lid.t) :=
  v <- lids self ;;
  l <- iterate v ;;
  ret (filter (fun lid => negb (Lid.is_closed lid)) l).

Definition all_lids_closed (self : VehicleStatus) : M bool :=
  l <- open_lids self ;;
  ret (Nat.eqb (List.length l) 0).

Definition windows : VehicleStatus -> M (option (list Window.t)) :=
  backend_parameter "windows" (fun self =>
    dw <- lift (getitem (properties self) "doorsAndWindows") ;;
    w <- lift (get dw "windows" JNull) ;;
    its <- lift (items w) ;;
    result <-
      list_comp
        (fun kv => ret (ne_str (snd kv) (LidState_value INVALID)))
        (fun kv => lift (Window.init (fst kv) (snd kv))) its ;;
    ret (Some result)).

Definition open_windows (self : VehicleStatus) : M (list Window.t) :=
  v <- windows self ;;
  l <- iterate v ;;
  ret (filter (fun lid => negb (Window.is_closed lid)) l).

(** [len(v)] of what a decorated property returned. *)
Definition len {A} (v : option (list A)) : M nat :=
  match v with
  | Some l => ret (List.length l)
  | None => raise (builtin TypeError)
  end.

Definition all_windows_closed (self : VehicleStatus) : M bool :=
  l <- open_windows self ;;
  ret (Nat.eqb (List.length l) 0).

Definition door_lock_state : VehicleStatus -> M (option LockState) :=
  backend_parameter "door_lock_state" (fun self =>
    raw <- lift (getitem (status self) "doorsGeneralState") ;;
    upper_raw <- lift (upper raw) ;;
    s <- lift (LockState_call upper_raw) ;;
    ret (Some s)).

Definition last_update_reason : VehicleStatus -> M (option json) :=
  backend_parameter "last_update_reason" (fun self =>
    r <- lift (getitem (status self) "timestampMessage") ;;
    ret (Some r)).

Definition parking_lights : VehicleStatus -> M (option json) :=
  backend_parameter "parking_lights" (fun _ => ret None).

Definition check_control_messages
  : VehicleStatus -> M (option (list CheckControlMessage)) :=
  backend_parameter "check_control_messages" (fun self =>
    messages <- lift (get (status self) "checkControlMessages" (JList [])) ;;
    ms <- lift (iter messages) ;;
    result <-
      list_comp
        (fun m => st <- lift (getitem m "state") ;; ret (ne_str st "OK"))
        (fun m => ret (mkCheckControlMessage m)) ms ;;
    ret (Some result)).

Definition has_check_control_messages : VehicleStatus -> M (option bool) :=
  backend_parameter "has_check_control_messages" (fun self =>
    v <- check_control_messages self ;;
    n <- len v ;;
    ret (Some (Nat.ltb 0 n))).

Section ConditionBasedServices.
Variable strptime : string -> string -> outcome datetime.
Variable python_lt_37 : bool.

Definition condition_based_services
  : VehicleStatus -> M (option (list ConditionBasedServiceReport.t)) :=
  backend_parameter "condition_based_services" (fun self =>
    required <- lift (getitem (properties self) "serviceRequired") ;;
    ss <- lift (iter required) ;;
    result <-
      list_comp (fun _ => ret true)
        (ConditionBasedServiceReport.init strptime python_lt_37) ss ;;
    ret (Some result)).

Definition are_all_cbs_ok (self : VehicleStatus) : M bool :=
  v <- condition_based_services self ;;
  l <- iterate v ;;
  ret (forallb
         (fun cbs =>
            ConditionBasedServiceStatus_eqb
              (ConditionBasedServiceReport.state cbs) OK) l).
End ConditionBasedServices.

(** *** The remaining accessors of [VehicleStatus] *)

Module ChargingState.
Inductive t : Type :=
| CHARGING | ERROR | COMPLETE | FINISHED_FULLY_CHARGED | FINISHED_NOT_FULL
| INVALID | NOT_CHARGING | WAITING_FOR_CHARGING.

Definition members : list t :=
  [CHARGING; ERROR; COMPLETE; FINISHED_FULLY_CHARGED; FINISHED_NOT_FULL;
   INVALID; NOT_CHARGING; WAITING_FOR_CHARGING].

Definition value (m : t) : string :=
  match m with
  | CHARGING => "CHARGING"
  | ERROR => "ERROR"
  | COMPLETE => "COMPLETE"
  | FINISHED_FULLY_CHARGED => "FINISHED_FULLY_CHARGED"
  | FINISHED_NOT_FULL => "FINISHED_NOT_FULL"
  | INVALID => "INVALID"
  | NOT_CHARGING => "NOT_CHARGING"
  | WAITING_FOR_CHARGING => "WAITING_FOR_CHARGING"
  end.

Definition call : json -> outcome t := enum_call members value.
End ChargingState.

(** The properties of [CheckControlMessage]. *)
Definition description_long (self : CheckControlMessage) : outcome json :=
  get (ccm_dict self) "longDescription" JNull.

Definition description_short (self : CheckControlMessage) : outcome json :=
  get (ccm_dict self) "title" JNull.

Definition ccm_id (self : CheckControlMessage) : outcome json :=
  get (ccm_dict self) "id" JNull.

Definition ccm_state (self : CheckControlMessage) : outcome json :=
  get (ccm_dict self) "state" JNull.

Definition is_vehicle_active : VehicleStatus -> M (option json) :=
  backend_parameter "is_vehicle_active" (fun self =>
    v <- lift (getitem (properties self) "inMotion") ;;
    ret (Some v)).

Definition is_vehicle_tracking_enabled : VehicleStatus -> M (option bool) :=
  backend_parameter "is_vehicle_tracking_enabled" (fun self =>
    b <- lift (contains "vehicleLocation" (properties self)) ;;
    ret (Some b)).

(** Truth value of what [is_vehicle_tracking_enabled] and
    [is_vehicle_active] returned. *)
Definition truthy_bool (v : option bool) : bool :=
  match v with Some b => b | None => false end.

Definition truthy_value (v : option json) : bool :=
  match v with Some j => truthy j | None => false end.

Definition mileage : VehicleStatus -> M (option value_unit) :=
  backend_parameter "mileage" (fun self =>
    m <- lift (getitem (status self) "currentMileage") ;;
    value <- lift (getitem m "mileage") ;;
    m' <- lift (getitem (status self) "currentMileage") ;;
    units <- lift (getitem m' "units") ;;
    ret (Some (value, units))).

Definition remaining_fuel : VehicleStatus -> M (option value_unit) :=
  backend_parameter "remaining_fuel" (fun self =>
    f <- lift (getitem (properties self) "fuelLevel") ;;
    value <- lift (getitem f "value") ;;
    f' <- lift (getitem (properties self) "fuelLevel") ;;
    units <- lift (getitem f' "units") ;;
    ret (Some (value, units))).

(** [len(v)] of a JSON value. *)
Definition len_json (v : json) : outcome nat :=
  match v with
  | JList l => Return (List.length l)
  | JDict d => Return (List.length d)
  | JStr s => Return (String.length s)
  | _ => Raise (builtin TypeError)
  end.

Definition fuel_indicator_count : VehicleStatus -> M (option nat) :=
  backend_parameter "fuel_indicator_count" (fun self =>
    f <- lift (getitem (status self) "fuelIndicators") ;;
    n <- lift (len_json f) ;;
    ret (Some n)).

Definition last_charging_end_result : VehicleStatus -> M (option json) :=
  backend_parameter "last_charging_end_result" (fun _ => ret None).

Definition connection_status : VehicleStatus -> M (option string) :=
  backend_parameter "connection_status" (fun self =>
    present <- lift (contains "chargingState" (properties self)) ;;
    if negb present then ret None
    else
      c <- lift (getitem (properties self) "chargingState") ;;
      connected <- lift (getitem c "isChargerConnected") ;;
      ret (Some (if truthy connected then "CONNECTED" else "DISCONNECTED"))).

Definition has_parking_light_state (self : VehicleStatus) : bool := false.

Definition are_parking_lights_on (self : VehicleStatus) : option bool := None.

Definition max_range_electric : VehicleStatus -> M (option json) :=
  backend_parameter "max_range_electric" (fun _ => ret None).

Definition charging_status : VehicleStatus -> M (option ChargingState.t) :=
  backend_parameter "charging_status" (fun self =>
    present <- lift (contains "chargingState" (properties self)) ;;
    if negb present then ret None
    else
      c <- lift (getitem (properties self) "chargingState") ;;
      raw <- lift (getitem c "state") ;;
      s <- lift (ChargingState.call raw) ;;
      ret (Some s)).

Definition charging_time_remaining : VehicleStatus -> M (option json) :=
  backend_parameter "charging_time_remaining" (fun _ => ret None).

Section Timestamp.
Variable strptime : string -> string -> outcome datetime.
Variable python_lt_37 : bool.

Definition timestamp : VehicleStatus -> M (option datetime) :=
  backend_parameter "timestamp" (fun self =>
    p <- lift (getitem (properties self) "lastUpdatedAt") ;;
    a <- Utils.parse_datetime strptime python_lt_37 p ;;
    s <- lift (getitem (status self) "lastUpdatedAt") ;;
    b <- Utils.parse_datetime strptime python_lt_37 s ;;
    lift (max2 a b)).
End Timestamp.

Section Conversions.
(** The builtins [int] and [float] applied to a JSON value, and the type
    of Python floats. *)
Variable float : Type.
Variable py_float : json -> outcome float.
Variable py_int : json -> outcome Z.

Definition gps_position : VehicleStatus -> M (option (float * float)) :=
  backend_parameter "gps_position" (fun self =>
    enabled <- is_vehicle_tracking_enabled self ;;
    if negb (truthy_bool enabled) then
      emit (mkLog WARNING "Vehicle tracking is disabled" []) ;;;
      ret None
    else
      active <- is_vehicle_active self ;;
      if truthy_value active then
        emit (mkLog WARNING
                "Vehicle was moving at last update, no position available" []) ;;;
        ret None
      else
        loc <- lift (getitem (properties self) "vehicleLocation") ;;
        pos <- lift (getitem loc "coordinates") ;;
        lat_raw <- lift (getitem pos "latitude") ;;
        lat <- lift (py_float lat_raw) ;;
        lon_raw <- lift (getitem pos "longitude") ;;
        lon <- lift (py_float lon_raw) ;;
        ret (Some (lat, lon))).

Definition gps_heading : VehicleStatus -> M (option Z) :=
  backend_parameter "gps_heading" (fun self =>
    enabled <- is_vehicle_tracking_enabled self ;;
    if negb (truthy_bool enabled) then
      emit (mkLog WARNING "Vehicle tracking is disabled" []) ;;;
      ret None
    else
      active <- is_vehicle_active self ;;
      if truthy_value active then
        emit (mkLog WARNING
                "Vehicle was moving at last update, no position available" []) ;;;
        ret None
      else
        pos <- lift (getitem (properties self) "vehicleLocation") ;;
        heading <- lift (getitem pos "heading") ;;
        h <- lift (py_int heading) ;;
        ret (Some h)).

Definition charging_level_hv : VehicleStatus -> M (option Z) :=
  backend_parameter "charging_level_hv" (fun self =>
    e <- lift (getitem (properties self) "electricRangeAndStatus") ;;
    raw <- lift (getitem e "chargePercentage") ;;
    n <- lift (py_int raw) ;;
    ret (Some n)).

Definition fuel_percent : VehicleStatus -> M (option Z) :=
  backend_parameter "fuel_percent" (fun self =>
    f <- lift (getitem (properties self) "fuelPercentage") ;;
    raw <- lift (getitem f "value") ;;
    n <- lift (py_int raw) ;;
    ret (Some n)).
End Conversions.

End Status.

(** ** vehicle/vehicle.py *)

Module Vehicle.

(** What the combined data of a vehicle holds: JSON from the backend, and
    the datetime of the fetch. *)
Inductive value : Type :=
| VJson (j : json)
| VDatetime (d : datetime).

Definition data : Type := list (string * value).

Fixpoint lookup_value (k : string) (d : data) : option value :=
  match d with
  | [] => None
  | (k', v) :: d' => if String.eqb k k' then Some v else lookup_value k d'
  end.

(** [d[k] = v] on a [dict]: the value of an existing key is replaced
    where the key is, a new key goes to the end. *)
Fixpoint setitem (k : string) (v : value) (d : data) : data :=
  match d with
  | [] => [(k, v)]
  | (k', v') :: d' =>
      if String.eqb k k' then (k, v) :: d' else (k', v') :: setitem k v d'
  end.

(** [{**d, **items}]. *)
Definition update (d : data) (its : dict) : data :=
  fold_left (fun acc kv => setitem (fst kv) (VJson (snd kv)) acc) its d.

(** [x or {}] for an optional mapping. *)
Definition or_empty (x : option dict) : dict :=
  match x with Some d => d | None => [] end.

(** [data[k]]. *)
Definition data_getitem (d : data) (k : string) : outcome value :=
  match lookup_value k d with
  | Some v => Return v
  | None => Raise (mkExn KeyError k)
  end.

(** [v[k]], [v.get(k, default)] and [k in v] on a value of the data: a
    datetime has none of them. *)
Definition value_getitem (v : value) (k : string) : outcome json :=
  match v with
  | VJson j => getitem j k
  | VDatetime _ => Raise (builtin TypeError)
  end.

Definition value_get (v : value) (k : string) (default : json) : outcome json :=
  match v with
  | VJson j => get j k default
  | VDatetime _ => Raise (builtin AttributeError)
  end.

Definition value_contains (k : string) (v : value) : outcome bool :=
  match v with
  | VJson j => contains k j
  | VDatetime _ => Raise (builtin TypeError)
  end.

(** A datetime is true in a condition. *)
Definition value_truthy (v : value) : bool :=
  match v with
  | VJson j => truthy j
  | VDatetime _ => true
  end.

Definition then_ {A B} (o : outcome A) (k : A -> outcome B) : outcome B :=
  match o with
  | Return a => k a
  | Raise e => Raise e
  end.

(** [str(n)] for an integer. *)
Definition str_of_Z (n : Z) : string := NilZero.string_of_int (Z.to_int n).

Fixpoint join (sep : string) (parts : list string) : string :=
  match parts with
  | [] => ""
  | [p] => p
  | p :: rest => (p ++ sep ++ join sep rest)%string
  end.

Section Vehicle.

(** The constants of [bimmer_connected.const] and of [vehicle.const]
    that the module imports, the enumeration [DriveTrainType] with its
    two sets, and [repr] of a string. *)
Variable ATTR_ATTRIBUTES ATTR_CAPABILITIES ATTR_CHARGING_SETTINGS ATTR_STATE
  : string.
Variable DriveTrainType : Type.
Variable DriveTrainType_call : json -> outcome DriveTrainType.
Variable HV_BATTERY_DRIVE_TRAINS COMBUSTION_ENGINE_DRIVE_TRAINS
  : DriveTrainType -> bool.
Variable repr_str : string -> string.

Variable strptime : string -> string -> outcome datetime.
Variable python_lt_37 : bool.

(** [repr(v)] of a JSON value. *)
Fixpoint repr (v : json) : string :=
  match v with
  | JNull => "None"
  | JBool b => if b then "True" else "False"
  | JNum n => str_of_Z n
  | JStr s => repr_str s
  | JList l => ("[" ++ join ", " (map repr l) ++ "]")%string
  | JDict d =>
      ("{" ++ join ", "
                   (map (fun kv : string * json =>
                           let (k, x) := kv in repr_str k ++ ": " ++ repr x)
                        d)
           ++ "}")%string
  end.

(** [str(v)]. *)
Definition str (v : json) : string :=
  match v with
  | JStr s => s
  | _ => repr v
  end.

(** [MyBMWVehicle.combine_data]; [use_metric_units] is
    [account.config.use_metric_units] and [now] what
    [datetime.datetime.now(datetime.timezone.utc)] gives. *)
Definition combine_data (use_metric_units : bool) (now : datetime)
    (vehicle_base : dict) (vehicle_state charging_settings : option dict)
    (fetched_at : option datetime) : data :=
  let d := update [] vehicle_base in
  let d := update d (or_empty vehicle_state) in
  let d := setitem ATTR_CHARGING_SETTINGS
                   (VJson (JDict (or_empty charging_settings))) d in
  let d := setitem "is_metric" (VJson (JBool use_metric_units)) d in
  setitem "fetched_at"
          (VDatetime (match fetched_at with Some t => t | None => now end)) d.

Definition name (self : data) : outcome json :=
  then_ (data_getitem self ATTR_ATTRIBUTES) (fun a => value_getitem a "model").

Definition vin (self : data) : outcome value := data_getitem self "vin".

Definition drive_train (self : data) : outcome DriveTrainType :=
  then_ (data_getitem self ATTR_ATTRIBUTES) (fun a =>
  then_ (value_getitem a "driveTrain") DriveTrainType_call).

(** [ValueWithUnit(value, unit)]. *)
Definition mileage (self : data) : outcome (json * string) :=
  then_ (data_getitem self ATTR_STATE) (fun s =>
  then_ (value_get s "currentMileage" (JNum 0)) (fun m =>
  then_ (data_getitem self "is_metric") (fun metric =>
  Return (m, if value_truthy metric then "km" else "mi")))).

(** [max(timestamps)] for the one or two datetimes of [timestamp]. *)
Definition max_of (timestamps : list datetime) : outcome (option datetime) :=
  match timestamps with
  | [] => Raise (builtin ValueError)
  | [a] => Return (Some a)
  | a :: b :: _ => max2 (Some a) (Some b)
  end.

Definition some_list {A} (o : option A) : list A :=
  match o with Some a => [a] | None => [] end.

Definition timestamp (self : data) : M (option datetime) :=
  a <- lift (data_getitem self ATTR_ATTRIBUTES) ;;
  fa <- lift (value_get a "lastFetched" JNull) ;;
  ta <- Utils.parse_datetime strptime python_lt_37 (JStr (str fa)) ;;
  s <- lift (data_getitem self ATTR_STATE) ;;
  fs <- lift (value_get s "lastFetched" JNull) ;;
  ts <- Utils.parse_datetime strptime python_lt_37 (JStr (str fs)) ;;
  let timestamps := some_list ta ++ some_list ts in
  if Nat.eqb (List.length timestamps) 0 then ret None
  else lift (max_of timestamps).

Definition has_electric_drivetrain (self : data) : outcome bool :=
  then_ (drive_train self) (fun t => Return (HV_BATTERY_DRIVE_TRAINS t)).

Definition has_combustion_drivetrain (self : data) : outcome bool :=
  then_ (drive_train self) (fun t => Return (COMBUSTION_ENGINE_DRIVE_TRAINS t)).

(** [self.data[ATTR_CAPABILITIES].get(key, False)]. *)
Definition capability (key : string) (self : data) : outcome json :=
  then_ (data_getitem self ATTR_CAPABILITIES) (fun c =>
  value_get c key (JBool false)).

Definition is_charging_plan_supported := capability "isChargingPlanSupported".
Definition is_vehicle_tracking_enabled := capability "vehicleFinder".
Definition is_vehicle_active (self : data) : bool := false.
Definition is_remote_set_target_soc_enabled :=
  capability "isChargingTargetSocEnabled".
Definition is_remote_set_ac_limit_enabled :=
  capability "isChargingPowerLimitEnabled".
Definition is_remote_sendpoi_enabled := capability "sendPoi".
Definition is_remote_horn_enabled := capability "horn".
Definition is_remote_lights_enabled := capability "lights".
Definition is_remote_lock_enabled := capability "lock".
Definition is_remote_unlock_enabled := capability "unlock".
Definition is_remote_climate_start_enabled := capability "climateNow".

Definition is_lsc_enabled (self : data) : outcome json :=
  then_ (data_getitem self ATTR_STATE) (fun s =>
  value_getitem s "isLscSupported").

Definition is_remote_climate_stop_enabled (self : data) : outcome bool :=
  then_ (data_getitem self ATTR_STATE) (value_contains "climateControlState").

(** ["<command>" in caps.get("remoteChargingCommands", {})
    .get("chargingControl", [])]. *)
Definition charging_control (command : string) (self : data) : outcome bool :=
  then_ (data_getitem self ATTR_CAPABILITIES) (fun c =>
  then_ (value_get c "remoteChargingCommands" (JDict [])) (fun r =>
  then_ (get r "chargingControl" (JList [])) (contains command))).

Definition is_remote_charge_start_enabled := charging_control "START".
Definition is_remote_charge_stop_enabled := charging_control "STOP".

Definition drive_train_attributes (self : data) : outcome (list string) :=
  let result := ["remaining_range_total"; "mileage"] in
  then_ (has_electric_drivetrain self) (fun electric =>
  let result :=
    if electric then
      result ++ ["charging_time_remaining"; "charging_start_time";
                 "charging_end_time"; "charging_time_label";
                 "charging_status"; "connection_status";
                 "remaining_battery_percent"; "remaining_range_electric";
                 "last_charging_end_result"; "ac_current_limit";
                 "charging_target"; "charging_mode"; "charging_preferences";
                 "is_pre_entry_climatization_enabled"]
    else result in
  then_ (has_combustion_drivetrain self) (fun combustion =>
  Return (if combustion then
            result ++ ["remaining_fuel"; "remaining_range_fuel";
                       "remaining_fuel_percent"]
          else result))).

Definition available_attributes (self : data) : outcome (list string) :=
  let result := ["gps_position"; "vin"] in
  then_ (is_lsc_enabled self) (fun lsc =>
  if truthy lsc then
    then_ (drive_train_attributes self) (fun dta =>
    Return (result ++ dta
            ++ ["condition_based_services"; "check_control_messages";
                "door_lock_state"; "timestamp"]
            ++ ["lids"; "windows"]))
  else Return result).

End Vehicle.

End Vehicle.

(** ** The library function [datetime.datetime.strptime]

    The accessors above take [strptime] as a parameter. This module is a
    model of the function as CPython 3.11 implements it
    ([Lib/_strptime.py]), for the directives and literal characters that
    occur in the formats of [utils.py]; it is the instance at which the
    general statements are evaluated on concrete strings. Strings are
    ASCII text. Every failure of [strptime] on a string is a
    [ValueError]. *)

Module CPython.

Local Open Scope char_scope.

(** The fragment of regular expressions used by [TimeRE]. *)
Inductive re : Type :=
| Lit (c : ascii)            (* a character, compared ignoring case *)
| LitCase (c : ascii)        (* [(?-i:c)] *)
| Range (lo hi : ascii)      (* [[lo-hi]] *)
| Seq (r1 r2 : re)
| Alt (r1 r2 : re)
| Opt (r : re).              (* [r?], greedy *)

Definition in_range (lo hi c : ascii) : bool :=
  (Nat.leb (nat_of_ascii lo) (nat_of_ascii c)
   && Nat.leb (nat_of_ascii c) (nat_of_ascii hi))%bool.

(** All the ways [r] matches a prefix of [s], as the suffixes left over,
    in the order in which a backtracking matcher tries them. *)
Fixpoint rmatch (r : re) (s : string) : list string :=
  match r with
  | Lit c =>
      match s with
      | String c' s' =>
          if Ascii.eqb (upper_ascii c) (upper_ascii c') then [s'] else []
      | EmptyString => []
      end
  | LitCase c =>
      match s with
      | String c' s' => if Ascii.eqb c c' then [s'] else []
      | EmptyString => []
      end
  | Range lo hi =>
      match s with
      | String c' s' => if in_range lo hi c' then [s'] else []
      | EmptyString => []
      end
  | Seq r1 r2 => flat_map (rmatch r2) (rmatch r1 s)
  | Alt r1 r2 => rmatch r1 s ++ rmatch r2 s
  | Opt r1 => rmatch r1 s ++ [s]
  end.

Definition digit : re := Range "0" "9".

Declare Scope re_scope.
Delimit Scope re_scope with re.
Infix "·" := Seq (at level 40, left associativity) : re_scope.
Infix "|||" := Alt (at level 50, left associativity) : re_scope.
Local Open Scope re_scope.

(** The entries of [TimeRE] for the directives of the four formats. *)
Definition re_d : re :=
  Lit "3" · Range "0" "1" ||| Range "1" "2" · digit
  ||| Lit "0" · Range "1" "9" ||| Range "1" "9" ||| Lit " " · Range "1" "9".

Definition re_f : re :=
  digit · Opt (digit · Opt (digit · Opt (digit · Opt (digit · Opt digit)))).

Definition re_H : re :=
  Lit "2" · Range "0" "3" ||| Range "0" "1" · digit ||| digit.

Definition re_m : re :=
  Lit "1" · Range "0" "2" ||| Lit "0" · Range "1" "9" ||| Range "1" "9".

Definition re_M : re := Range "0" "5" · digit ||| digit.

Definition re_S : re :=
  Lit "6" · Range "0" "1" ||| Range "0" "5" · digit ||| digit.

Definition re_Y : re := digit · digit · digit · digit.

Definition re_z : re :=
  (Lit "+" ||| Lit "-") · digit · digit · Opt (Lit ":")
    · Range "0" "5" · digit
    · Opt (Opt (Lit ":") · Range "0" "5" · digit · Opt (Lit "." · re_f))
  ||| LitCase "Z".

Definition directive_re (c : ascii) : option re :=
  if Ascii.eqb c "d" then Some re_d
  else if Ascii.eqb c "f" then Some re_f
  else if Ascii.eqb c "H" then Some re_H
  else if Ascii.eqb c "m" then Some re_m
  else if Ascii.eqb c "M" then Some re_M
  else if Ascii.eqb c "S" then Some re_S
  else if Ascii.eqb c "Y" then Some re_Y
  else if Ascii.eqb c "z" then Some re_z
  else None.

(** One element of a compiled format: a named group or a literal. *)
Inductive item : Type :=
| Group (name : ascii) (r : re)
| Char (c : ascii).

(** [TimeRE.pattern]: [None] for a format that is refused (a [%] that
    is not followed by one of the directives above). *)
Fixpoint pattern (format : string) : option (list item) :=
  match format with
  | EmptyString => Some []
  | String "%" (String c rest) =>
      match directive_re c, pattern rest with
      | Some r, Some its => Some (Group c r :: its)
      | _, _ => None
      end
  | String "%" EmptyString => None
  | String c rest =>
      match pattern rest with
      | Some its => Some (Char c :: its)
      | None => None
      end
  end.

(** The text consumed when [s] was matched down to its suffix [rest]. *)
Definition consumed (s rest : string) : string :=
  substring 0 (String.length s - String.length rest) s.

Definition groups : Type := list (ascii * string).

(** All matches of a compiled format against a prefix of [s], with the
    text of each group, in the matcher's order. *)
Fixpoint match_items (its : list item) (s : string) : list (groups * string) :=
  match its with
  | [] => [([], s)]
  | Char c :: its' => flat_map (match_items its') (rmatch (Lit c) s)
  | Group n r :: its' =>
      flat_map
        (fun s' =>
           map (fun gr => ((n, consumed s s') :: fst gr, snd gr))
               (match_items its' s'))
        (rmatch r s)
  end.

Fixpoint group (n : ascii) (g : groups) : option string :=
  match g with
  | [] => None
  | (n', t) :: g' => if Ascii.eqb n n' then Some t else group n g'
  end.

Definition is_digit (c : ascii) : bool := in_range "0" "9" c.

Fixpoint digits_value (acc : Z) (s : string) : option Z :=
  match s with
  | EmptyString => Some acc
  | String c s' =>
      if is_digit c then
        digits_value (acc * 10 + Z.of_nat (nat_of_ascii c - 48)) s'
      else None
  end.

Fixpoint lstrip (s : string) : string :=
  match s with
  | String " " s' => lstrip s'
  | _ => s
  end.

(** [int(s)] on a matched text: leading blanks are skipped (the matched
    texts have no other), and what follows must be made of digits. *)
Definition int (s : string) : option Z :=
  match lstrip s with
  | EmptyString => None
  | t => digits_value 0 t
  end.

Fixpoint zeros (n : nat) : string :=
  match n with
  | O => EmptyString
  | S n' => String "0" (zeros n')
  end.

(** [s + "0" * (6 - len(s))]. *)
Definition pad6 (s : string) : string :=
  (s ++ zeros (6 - String.length s))%string.

(** [s[a:]] and [s[a:b]]. *)
Definition slice_from (a : nat) (s : string) : string :=
  substring a (String.length s) s.
Definition slice (a b : nat) (s : string) : string := substring a (b - a) s.

(** The branch of [_strptime] for the group [z]: the offset in seconds
    and its fraction in microseconds. *)
Definition gmtoff_of (z : string) : option (Z * Z) :=
  if String.eqb z "Z" then Some (0, 0)%Z
  else
    let z1 :=
      if String.eqb (slice 3 4 z) ":" then
        let z' := (slice 0 3 z ++ slice_from 4 z)%string in
        if Nat.ltb 5 (String.length z') then
          if negb (String.eqb (slice 5 6 z') ":") then None
          else Some (slice 0 5 z' ++ slice_from 6 z')%string
        else Some z'
      else Some z in
    match z1 with
    | None => None
    | Some z =>
        match int (slice 1 3 z), int (slice 3 5 z) with
        | Some hours, Some minutes =>
            let secs := slice 5 7 z in
            match (if String.eqb secs "" then Some 0%Z else int secs) with
            | Some seconds =>
                let gmtoff := (hours * 60 * 60 + minutes * 60 + seconds)%Z in
                match int (pad6 (slice_from 8 z)) with
                | Some gmtoff_fraction =>
                    if String.eqb (slice 0 1 z) "-"
                    then Some (- gmtoff, - gmtoff_fraction)%Z
                    else Some (gmtoff, gmtoff_fraction)
                | None => None
                end
            | None => None
            end
        | _, _ => None
        end
    end.

Definition is_leap (y : Z) : bool :=
  ((y mod 4 =? 0) && (negb (y mod 100 =? 0) || (y mod 400 =? 0)))%Z%bool.

Definition days_in_month (y m : Z) : Z :=
  if (m =? 2)%Z then (if is_leap y then 29 else 28)%Z
  else if ((m =? 4) || (m =? 6) || (m =? 9) || (m =? 11))%Z%bool then 30%Z
  else 31%Z.

Definition between (lo x hi : Z) : bool := ((lo <=? x) && (x <=? hi))%Z%bool.

(** What the constructors [date], [datetime] and [timezone] accept. *)
Definition valid_fields (y m d hh mm ss us : Z) : bool :=
  (between 1 y 9999 && between 1 m 12 && between 1 d (days_in_month y m)
   && between 0 hh 23 && between 0 mm 59 && between 0 ss 59
   && between 0 us 999999)%bool.

Definition day_us : Z := (24 * 60 * 60 * 1000000)%Z.

Definition valid_offset (us : Z) : bool :=
  ((- day_us <? us) && (us <? day_us))%Z%bool.

Definition field (n : ascii) (default : Z) (g : groups) : option Z :=
  match group n g with
  | Some t => int t
  | None => Some default
  end.

(** [_strptime_datetime]: [None] stands for the [ValueError]. *)
Definition strptime_opt (data_string format : string) : option datetime :=
  match pattern format with
  | None => None
  | Some its =>
      match match_items its data_string with
      | [] => None
      | (g, rest) :: _ =>
          if negb (String.eqb rest "") then None
          else
            match field "Y" 1900 g, field "m" 1 g, field "d" 1 g,
                  field "H" 0 g, field "M" 0 g, field "S" 0 g with
            | Some y, Some m, Some d, Some hh, Some mm, Some ss =>
                match (match group "f" g with
                       | Some t => int (pad6 t)
                       | None => Some 0%Z
                       end) with
                | None => None
                | Some us =>
                    if negb (valid_fields y m d hh mm ss us) then None
                    else
                      match group "z" g with
                      | None => Some (mkDatetime y m d hh mm ss us None)
                      | Some z =>
                          match gmtoff_of z with
                          | None => None
                          | Some (gmtoff, gmtoff_fraction) =>
                              let off :=
                                (gmtoff * 1000000 + gmtoff_fraction)%Z in
                              if valid_offset off
                              then Some (mkDatetime y m d hh mm ss us (Some off))
                              else None
                          end
                      end
                end
            | _, _, _, _, _, _ => None
            end
      end
  end.

Definition strptime (data_string format : string) : outcome datetime :=
  match strptime_opt data_string format with
  | Some d => Return d
  | None => Raise (builtin ValueError)
  end.

End CPython.

(** ** Vocabulary of the statements *)

(** The contract of [strptime] on a string: it returns a datetime or
    raises [ValueError]. *)
Definition only_ValueError (strptime : string -> string -> outcome datetime)
  : Prop :=
  forall s f e, strptime s f = Raise e -> is_ValueError e = true.

(** The inputs [parse_datetime] is declared for: [None] or a [str]. *)
Definition optional_str (v : json) : bool :=
  match v with JNull | JStr _ => true | _ => false end.

(** [xs] turned into [B]s one after the other; the first failure ends it. *)
Fixpoint traverse {A B} (f : A -> outcome B) (xs : list A) : outcome (list B) :=
  match xs with
  | [] => Return []
  | x :: xs' =>
      match f x with
      | Raise e => Raise e
      | Return b =>
          match traverse f xs' with
          | Raise e => Raise e
          | Return bs => Return (b :: bs)
          end
      end
  end.

(** The value is none of the values of the enumeration. *)
Definition unrecognized {E} (members : list E) (value_of : E -> string)
    (value : json) : bool :=
  forallb (fun m => negb (eq_str value (value_of m))) members.

Definition LidState_eq_dec (a b : Status.LidState) : {a = b} + {a <> b}.
Proof. decide equality. Defined.

(** The raw entry a lid was built from: its name and its state code. *)
Definition lid_entry (lid : Status.Lid.t) : string * json :=
  (Status.Lid.name lid, JStr (Status.LidState_value (Status.Lid.state lid))).

(** The entries of the two raw sources of the lids that are kept: the
    hood and trunk entries of [doorsAndWindows], then the entries of its
    [doors] mapping, without those whose state is the invalid sentinel. *)
Definition kept_lid_entries (doors_and_windows doors : dict) : dict :=
  filter (fun kv => (Status.in_names (fst kv) ["hood"; "trunk"]
                     && negb (eq_str (snd kv) "INVALID"))%bool)
         doors_and_windows
  ++ filter (fun kv => negb (eq_str (snd kv) "INVALID")) doors.

(** The raw state of a check-control entry differs from ["OK"]. *)
Definition state_differs_from_OK (m : json) : bool :=
  match getitem m "state" with
  | Return st => negb (eq_str st "OK")
  | Raise _ => false
  end.

Definition has_state (m : json) : Prop :=
  exists st, getitem m "state" = Return st.

(** The record the wrapper logs when it turns a [KeyError] into [None]. *)
Definition debug_record (func_name : string) : log_record :=
  mkLog DEBUG "No data available for attribute %s!" [func_name].

(** The record [parse_datetime] logs for a string it cannot parse. *)
Definition parse_error_record (s : string) : log_record :=
  mkLog ERROR "unable to parse '%s' using %s" [s; Utils.repr_formats].

(** The entries of the [windows] mapping that are kept. *)
Definition kept_window_entries (ws : dict) : dict :=
  filter (fun kv => negb (eq_str (snd kv) "INVALID")) ws.

(** The guard of [backend_parameter] lets the access through. *)
Definition guard_passes (self : Status.VehicleStatus) : Prop :=
  (is_None (Status.properties self) && truthy (Status.status self))%bool = false.

(** [strptime] refuses the string under every format of the parser. *)
Definition refused_by_all (strptime : string -> string -> outcome datetime)
    (s : string) : Prop :=
  forall f, In f Utils.date_formats ->
            exists e, strptime s f = Raise e /\ is_ValueError e = true.

(** A service entry from which a report can be built: a mapping with a
    recognised status, a type, a [dateTime] that is a string or [None]
    when there is one, and a [distance] with value and units when there
    is one. *)
Definition cbs_entry_ok (x : json) : bool :=
  match x with
  | JDict d =>
      (match lookup "dateTime" d with
       | Some dt => optional_str dt
       | None => true
       end
       && match lookup "status" d with
          | Some st =>
              negb (unrecognized Status.ConditionBasedServiceStatus_members
                                 Status.ConditionBasedServiceStatus_value st)
          | None => false
          end
       && match lookup "type" d with Some _ => true | None => false end
       && match lookup "distance" d with
          | Some dist =>
              match getitem dist "value", getitem dist "units" with
              | Return _, Return _ => true
              | _, _ => false
              end
          | None => true
          end)%bool
  | _ => false
  end.

(** The distance a report is expected to carry. *)
Definition expected_due_distance (x : json) : option (json * json) :=
  match getitem x "distance" with
  | Return dist =>
      match getitem dist "value", getitem dist "units" with
      | Return v, Return u => Some (v, u)
      | _, _ => None
      end
  | Raise _ => None
  end.

(** No string occurs twice in the list. *)
Fixpoint nodupb (xs : list string) : bool :=
  match xs with
  | [] => true
  | x :: xs' => (negb (existsb (String.eqb x) xs') && nodupb xs')%bool
  end.

(** The two formats of the parser that carry the offset directive [%z],
    and the contract of [strptime] for a format with [%z]: the datetime
    it builds has the offset as its [tzinfo]. *)
Definition offset_formats : list string :=
  [ "%Y-%m-%dT%H:%M:%S.%f%z"; "%Y-%m-%dT%H:%M:%S%z" ].

Definition offset_formats_aware
    (strptime : string -> string -> outcome datetime) : Prop :=
  forall s f d, In f offset_formats -> strptime s f = Return d ->
                aware d = true.

(** ** The timestamp parser *)

Section ParseDatetimeFacts.

Variable strptime : string -> string -> outcome datetime.
Variable python_lt_37 : bool.

Let adjust (d : datetime) : datetime :=
  if python_lt_37 then replace_tzinfo d utc else d.

(** While the formats tried raise [ValueError], the loop goes on. *)
Lemma try_formats_skip (s : string) (pre rest : list string) (l : log) :
  (forall g, In g pre ->
     exists e, strptime s g = Raise e /\ is_ValueError e = true) ->
  Utils.try_formats strptime python_lt_37 (JStr s) (pre ++ rest) l
  = Utils.try_formats strptime python_lt_37 (JStr s) rest l.
Proof.
  induction pre as [|g pre IH]; intros Hpre; [reflexivity|].
  destruct (Hpre g (or_introl eq_refl)) as [e [Hg He]].
  cbn [app Utils.try_formats].
  unfold try_except, bind, lift, Utils.strptime_any.
  rewrite Hg, He. apply IH. intros g' Hin. apply Hpre. now right.
Qed.

(** The first format that parses ends the loop. *)
Lemma try_formats_hit (s f : string) (rest : list string) (d : datetime)
    (l : log) :
  strptime s f = Return d ->
  Utils.try_formats strptime python_lt_37 (JStr s) (f :: rest) l
  = (Return (Some (adjust d)), l).
Proof.
  intros Hf. cbn [Utils.try_formats].
  unfold try_except, bind, lift, Utils.strptime_any, ret, adjust.
  now rewrite Hf.
Qed.

(** Under the contract of [strptime] the loop never raises, and keeps
    the log as it was. *)
Lemma try_formats_returns (s : string) (formats : list string) (l : log) :
  only_ValueError strptime ->
  exists r, Utils.try_formats strptime python_lt_37 (JStr s) formats l
            = (Return r, l).
Proof.
  intros Hc. induction formats as [|f rest IH].
  - now exists None.
  - destruct (strptime s f) as [d|e] eqn:Hf.
    + exists (Some (adjust d)). now apply try_formats_hit.
    + cbn [Utils.try_formats].
      unfold try_except, bind, lift, Utils.strptime_any.
      rewrite Hf, (Hc _ _ _ Hf). exact IH.
Qed.

Lemma truthy_str (s : string) : s <> "" -> truthy (JStr s) = true.
Proof.
  intros Hs. cbn. destruct (String.eqb_spec s ""); [contradiction|reflexivity].
Qed.

End ParseDatetimeFacts.

(** C5. Given [None] or any string, [parse_datetime] returns and never
    raises, provided [strptime] honours its contract of failing on a
    string with [ValueError] only. [None] and the empty string give
    [None] and log nothing; a non-empty string that every one of the four
    formats refuses gives [None] after one record at level ERROR. *)
Theorem parse_datetime_never_raises :
  forall (strptime : string -> string -> outcome datetime)
         (python_lt_37 : bool),
    only_ValueError strptime ->
    forall (date_str : json) (l : log),
      optional_str date_str = true ->
      (exists r l',
          Utils.parse_datetime strptime python_lt_37 date_str l
          = (Return r, l'))
      /\ (date_str = JNull \/ date_str = JStr "" ->
          Utils.parse_datetime strptime python_lt_37 date_str l
          = (Return None, l))
      /\ (forall s,
             date_str = JStr s -> s <> "" ->
             (forall f, In f Utils.date_formats ->
                        exists e, strptime s f = Raise e) ->
             Utils.parse_datetime strptime python_lt_37 date_str l
             = (Return None,
                l ++ [mkLog ERROR "unable to parse '%s' using %s"
                            [s; Utils.repr_formats]])).
Proof.
  intros strptime lt37 Hc date_str l Hty.
  split; [|split].
  - destruct date_str as [| | |s| |]; try discriminate Hty.
    + now exists None, l.
    + unfold Utils.parse_datetime.
      destruct (truthy (JStr s)); cbn [negb].
      * destruct (try_formats_returns strptime lt37 s Utils.date_formats l Hc)
          as [r Hr].
        unfold bind. rewrite Hr. destruct r as [d|].
        -- now exists (Some d), l.
        -- eexists None, _. reflexivity.
      * now exists None, l.
  - intros [-> | ->]; reflexivity.
  - intros s -> Hs Hnone.
    unfold Utils.parse_datetime. rewrite (truthy_str s Hs). cbn [negb].
    unfold bind.
    rewrite <- (app_nil_r Utils.date_formats).
    rewrite (try_formats_skip strptime lt37 s Utils.date_formats [] l).
    + reflexivity.
    + intros g Hg. destruct (Hnone g Hg) as [e He].
      exists e. split; [exact He | exact (Hc _ _ _ He)].
Qed.

(** The model of CPython's [strptime] honours the contract. *)
Lemma CPython_strptime_only_ValueError : only_ValueError CPython.strptime.
Proof.
  intros s f e. unfold CPython.strptime.
  destruct (CPython.strptime_opt s f); [discriminate|].
  intros H. injection H as <-. reflexivity.
Qed.

Lemma parse_datetime_never_raises_witness :
  Utils.parse_datetime CPython.strptime false (JStr "yesterday") []
  = (Return None,
     [mkLog ERROR "unable to parse '%s' using %s"
            ["yesterday"; Utils.repr_formats]]).
Proof.
  refine (proj2 (proj2 (parse_datetime_never_raises
                          CPython.strptime false
                          CPython_strptime_only_ValueError
                          (JStr "yesterday") [] eq_refl))
                "yesterday" eq_refl _ _).
  - discriminate.
  - intros f Hf. exists (builtin ValueError).
    cbn in Hf.
    repeat (destruct Hf as [<- | Hf]; [vm_compute; reflexivity|]).
    contradiction.
Defined.

(** C6, as stated, fails: on Python 3.7 or later the string
    ["2021-01-01T00:00:00z"] is refused by the first three formats ([%z]
    takes the UTC marker in upper case only) and accepted by the fourth,
    whose literal [Z] is matched ignoring case; the datetime returned is
    the one [strptime] built, which has no [tzinfo]. *)
Lemma parse_datetime_literal_Z_naive :
  exists d : datetime,
    In "%Y-%m-%dT%H:%M:%SZ" Utils.date_formats
    /\ CPython.strptime "2021-01-01T00:00:00z" "%Y-%m-%dT%H:%M:%SZ" = Return d
    /\ Utils.parse_datetime CPython.strptime false
         (JStr "2021-01-01T00:00:00z") []
       = (Return (Some d), [])
    /\ aware d = false.
Proof.
  exists (mkDatetime 2021 1 1 0 0 0 0 None).
  split; [cbn; tauto|].
  split; [vm_compute; reflexivity|].
  split; vm_compute; reflexivity.
Qed.

(** The first format of a list that parses the string, the formats
    before it having failed. *)
Lemma first_success_split
    (strptime : string -> string -> outcome datetime) (s : string)
    (formats : list string) :
  (exists f d0, In f formats /\ strptime s f = Return d0) ->
  exists pre f post d,
    formats = pre ++ f :: post
    /\ (forall g, In g pre -> exists e, strptime s g = Raise e)
    /\ strptime s f = Return d.
Proof.
  induction formats as [|f0 rest IH]; intros [f [d0 [Hin Hf]]].
  - destruct Hin.
  - destruct (strptime s f0) as [d|e] eqn:H0.
    + exists [], f0, rest, d. repeat split; [intros g []| exact H0].
    + destruct Hin as [-> | Hin]; [congruence|].
      destruct (IH (ex_intro _ f (ex_intro _ d0 (conj Hin Hf))))
        as [pre [f1 [post [d [Hsplit [Hpre Hf1]]]]]].
      exists (f0 :: pre), f1, post, d. repeat split.
      * cbn. now rewrite Hsplit.
      * intros g [<- | Hg]; [now exists e | now apply Hpre].
      * exact Hf1.
Qed.

(** C6, amended. For a non-empty string that at least one of the four
    formats parses, [parse_datetime] returns the result of the first
    format in the fixed order that parses it, its [tzinfo] replaced by
    UTC when the interpreter is older than Python 3.7, and logs nothing.
    That result is timezone-aware whenever the interpreter is older than
    3.7 or one of the two formats with the offset directive [%z] parses
    the string: these two come first in the order, so that the datetime
    returned is then one [strptime] built with an offset. ([strptime]
    fails on strings with [ValueError] only, and builds aware datetimes
    for the formats with [%z].) *)
Theorem parse_datetime_first_match :
  forall (strptime : string -> string -> outcome datetime)
         (python_lt_37 : bool),
    only_ValueError strptime ->
    offset_formats_aware strptime ->
    forall (s : string) (l : log),
      s <> "" ->
      (exists f d0, In f Utils.date_formats /\ strptime s f = Return d0) ->
      exists pre f post d,
        Utils.date_formats = pre ++ f :: post
        /\ (forall g, In g pre -> exists e, strptime s g = Raise e)
        /\ strptime s f = Return d
        /\ Utils.parse_datetime strptime python_lt_37 (JStr s) l
           = (Return (Some (if python_lt_37 then replace_tzinfo d utc else d)),
              l)
        /\ (python_lt_37 = true
            \/ (exists f' d', In f' offset_formats
                              /\ strptime s f' = Return d') ->
            aware (if python_lt_37 then replace_tzinfo d utc else d) = true).
Proof.
  intros strptime lt37 Hc Haware s l Hs Hsome.
  destruct (first_success_split strptime s Utils.date_formats Hsome)
    as [pre [f [post [d [Hsplit [Hpre Hf]]]]]].
  exists pre, f, post, d.
  split; [exact Hsplit|]. split; [exact Hpre|]. split; [exact Hf|]. split.
  - unfold Utils.parse_datetime. rewrite (truthy_str s Hs). cbn [negb].
    unfold bind. rewrite Hsplit.
    rewrite (try_formats_skip strptime lt37 s pre (f :: post) l).
    + rewrite (try_formats_hit strptime lt37 s f post d l Hf). reflexivity.
    + intros g Hg. destruct (Hpre g Hg) as [e He].
      exists e. split; [exact He | exact (Hc _ _ _ He)].
  - intros [-> | [f' [d' [Hin' Hf']]]]; [reflexivity|].
    destruct lt37; [reflexivity|].
    apply (Haware s f d); [|exact Hf].
    assert (Hfail : forall g, In g pre -> g <> f').
    { intros g Hg ->. destruct (Hpre f' Hg) as [e He]. congruence. }
    unfold Utils.date_formats in Hsplit. unfold offset_formats in *.
    destruct pre as [|g1 pre].
    + injection Hsplit as <- _. now left.
    + injection Hsplit as <- Hsplit. destruct pre as [|g2 pre].
      * injection Hsplit as <- _. right. now left.
      * injection Hsplit as <- _. exfalso.
        destruct Hin' as [<- | [<- | []]].
        -- apply (Hfail _ (or_introl eq_refl)). reflexivity.
        -- apply (Hfail _ (or_intror (or_introl eq_refl))). reflexivity.
Qed.

(** The groups of a match name every directive of the format. *)
Lemma match_items_group (its : list CPython.item) (n : ascii) (r : CPython.re) :
  In (CPython.Group n r) its ->
  forall s g rest,
    In (g, rest) (CPython.match_items its s) -> CPython.group n g <> None.
Proof.
  induction its as [|it its IH]; intros Hin s g rest Hm; [destruct Hin|].
  destruct it as [n0 r0|c]; cbn [CPython.match_items] in Hm.
  - apply in_flat_map in Hm as [s' [_ Hm]].
    apply in_map_iff in Hm as [[g' rest'] [Heq Hm]].
    injection Heq as <- <-. cbn [fst CPython.group].
    destruct (Ascii.eqb n n0) eqn:E; [discriminate|].
    destruct Hin as [Hin | Hin].
    + injection Hin as -> _. now rewrite Ascii.eqb_refl in E.
    + exact (IH Hin s' g' rest' Hm).
  - apply in_flat_map in Hm as [s' [_ Hm]].
    destruct Hin as [Hin | Hin]; [discriminate|].
    exact (IH Hin s' g rest Hm).
Qed.

(** In the model of CPython's [strptime], a format with [%z] gives an
    aware datetime. *)
Lemma CPython_offset_formats_aware : offset_formats_aware CPython.strptime.
Proof.
  intros s f d Hin. unfold CPython.strptime, CPython.strptime_opt.
  assert (Hz : exists its,
             CPython.pattern f = Some its
             /\ In (CPython.Group "z"%char CPython.re_z) its).
  { destruct Hin as [<- | [<- | []]]; eexists; split;
      try (vm_compute; reflexivity); cbn; tauto. }
  destruct Hz as [its [-> Hgroup]].
  destruct (CPython.match_items its s) as [|[g rest] tl] eqn:Hm; [discriminate|].
  assert (Hg : CPython.group "z"%char g <> None).
  { apply (match_items_group its "z"%char CPython.re_z Hgroup s g rest).
    rewrite Hm. now left. }
  destruct (negb (String.eqb rest "")); [discriminate|].
  repeat match goal with
         | |- context [match CPython.field ?n ?x g with _ => _ end] =>
             destruct (CPython.field n x g); try discriminate
         end.
  destruct (match CPython.group "f"%char g with
            | Some t => CPython.int (CPython.pad6 t)
            | None => Some 0%Z
            end); [|discriminate].
  destruct (negb (CPython.valid_fields _ _ _ _ _ _ _)); [discriminate|].
  destruct (CPython.group "z"%char g) as [zt|]; [|contradiction].
  destruct (CPython.gmtoff_of zt) as [[gmtoff frac]|]; [|discriminate].
  destruct (CPython.valid_offset _); [|discriminate].
  intros H. injection H as <-. reflexivity.
Qed.

Lemma parse_datetime_first_match_witness :
  exists d,
    Utils.parse_datetime CPython.strptime false
      (JStr "2021-01-01T00:00:00Z") []
    = (Return (Some d), [])
    /\ aware d = true.
Proof.
  destruct (parse_datetime_first_match CPython.strptime false
              CPython_strptime_only_ValueError CPython_offset_formats_aware
              "2021-01-01T00:00:00Z" [])
    as [pre [f [post [d [_ [_ [_ [Hparse Haware]]]]]]]].
  - discriminate.
  - exists "%Y-%m-%dT%H:%M:%S%z", (mkDatetime 2021 1 1 0 0 0 0 (Some 0%Z)).
    split; [cbn; tauto | vm_compute; reflexivity].
  - exists d. split; [exact Hparse|].
    apply Haware. right.
    exists "%Y-%m-%dT%H:%M:%S%z", (mkDatetime 2021 1 1 0 0 0 0 (Some 0%Z)).
    split; [cbn; tauto | vm_compute; reflexivity].
Defined.

(** ** The accessor wrapper and comprehensions *)

Import Status.

(** When the guard of [backend_parameter] lets the access through, the
    wrapper is its [try] statement around the wrapped function. *)
Lemma backend_parameter_entered {A} (func_name : string)
    (func : VehicleStatus -> M (option A)) (self : VehicleStatus) (l : log) :
  (is_None (properties self) && truthy (status self))%bool = false ->
  backend_parameter func_name func self l
  = match func self l with
    | (Return a, l') => (Return a, l')
    | (Raise ex, l') =>
        if is_KeyError ex then
          (Return None,
           l' ++ [mkLog DEBUG "No data available for attribute %s!" [func_name]])
        else (Raise ex, l')
    end.
Proof.
  intros Hg. unfold backend_parameter. rewrite Hg.
  unfold try_except. destruct (func self l) as [[a|ex] l']; [reflexivity|].
  destruct (is_KeyError ex); reflexivity.
Qed.

(** A mapping for [properties] passes the guard. *)
Lemma guard_properties_dict (self : VehicleStatus) (k : string) (v : json) :
  getitem (properties self) k = Return v ->
  (is_None (properties self) && truthy (status self))%bool = false.
Proof.
  destruct (properties self); cbn; try discriminate. reflexivity.
Qed.

(** A comprehension whose condition and body have no effect other than
    raising filters, then builds. *)
Lemma list_comp_pure {A B} (cond : A -> bool) (body : A -> outcome B)
    (xs : list A) (l : log) :
  list_comp (fun x => ret (cond x)) (fun x => lift (body x)) xs l
  = (traverse body (filter cond xs), l).
Proof.
  induction xs as [|x xs IH]; [reflexivity|].
  cbn [list_comp filter]. unfold bind at 1. unfold ret at 1.
  destruct (cond x).
  - cbn [traverse]. unfold bind, lift, ret in *.
    destruct (body x) as [b|e]; [|reflexivity].
    rewrite IH. destruct (traverse body (filter cond xs)); reflexivity.
  - exact IH.
Qed.

Lemma traverse_app {A B} (f : A -> outcome B) (xs ys : list A) :
  traverse f (xs ++ ys)
  = match traverse f xs with
    | Raise e => Raise e
    | Return bs =>
        match traverse f ys with
        | Raise e => Raise e
        | Return cs => Return (bs ++ cs)
        end
    end.
Proof.
  induction xs as [|x xs IH]; cbn [app traverse].
  - destruct (traverse f ys); reflexivity.
  - destruct (f x) as [b|e]; [|reflexivity]. rewrite IH.
    destruct (traverse f xs); [|reflexivity].
    destruct (traverse f ys); reflexivity.
Qed.

(** ** Enumerations *)

Lemma enum_call_unrecognized {E} (members : list E) (value_of : E -> string)
    (value : json) :
  unrecognized members value_of value = true ->
  enum_call members value_of value = Raise (builtin ValueError).
Proof.
  unfold enum_call, unrecognized. intros H.
  induction members as [|m ms IH]; [reflexivity|].
  cbn [forallb find] in *. apply andb_prop in H as [Hm Hms].
  destruct (eq_str value (value_of m)); [discriminate|]. now apply IH.
Qed.

Lemma enum_call_raises_ValueError {E} (members : list E)
    (value_of : E -> string) (value : json) (e : exn) :
  enum_call members value_of value = Raise e -> e = builtin ValueError.
Proof.
  unfold enum_call. destruct (find _ members); [discriminate|].
  intros H. now injection H.
Qed.

Lemma LidState_call_value (v : json) (s : LidState) :
  LidState_call v = Return s -> v = JStr (LidState_value s).
Proof.
  unfold LidState_call, enum_call.
  destruct (find _ LidState_members) as [m|] eqn:Hfind; [|discriminate].
  intros H. injection H as <-.
  apply find_some in Hfind as [_ Heq].
  destruct v; try discriminate. cbn in Heq.
  apply String.eqb_eq in Heq. now subst.
Qed.

Lemma LidState_eqb_eq (a b : LidState) : LidState_eqb a b = true <-> a = b.
Proof.
  split; [|intros ->; destruct b; reflexivity].
  destruct a, b; cbn; intros H; try reflexivity; discriminate.
Qed.

Lemma is_closed_iff (lid : Lid.t) :
  Lid.is_closed lid = if LidState_eq_dec (Lid.state lid) CLOSED then true else false.
Proof.
  unfold Lid.is_closed.
  destruct (LidState_eq_dec (Lid.state lid) CLOSED) as [->|Hne]; [reflexivity|].
  destruct (LidState_eqb (Lid.state lid) CLOSED) eqn:H; [|reflexivity].
  apply LidState_eqb_eq in H. contradiction.
Qed.

(** ** Lids *)

Lemma Lid_init_entry (kv : string * json) (lid : Lid.t) :
  Lid.init (fst kv) (snd kv) = Return lid -> lid_entry lid = kv.
Proof.
  unfold Lid.init. destruct (LidState_call (snd kv)) as [s|e] eqn:Hs; [|discriminate].
  intros H. injection H as <-. apply LidState_call_value in Hs.
  unfold lid_entry. cbn. rewrite <- Hs. now destruct kv.
Qed.

Lemma Lid_init_raises (name : string) (v : json) (e : exn) :
  Lid.init name v = Raise e -> e = builtin ValueError.
Proof.
  unfold Lid.init. destruct (LidState_call v) eqn:Hs; [discriminate|].
  intros H. injection H as <-.
  exact (enum_call_raises_ValueError _ _ _ _ Hs).
Qed.

Lemma traverse_Lid_entries (kvs : dict) (ls : list Lid.t) :
  traverse (fun kv => Lid.init (fst kv) (snd kv)) kvs = Return ls ->
  map lid_entry ls = kvs.
Proof.
  revert ls. induction kvs as [|kv kvs IH]; intros ls; cbn [traverse].
  - intros H. now injection H as <-.
  - destruct (Lid.init (fst kv) (snd kv)) as [lid|] eqn:Hlid; [|discriminate].
    destruct (traverse _ kvs) as [ls'|]; [|discriminate].
    intros H. injection H as <-. cbn [map].
    now rewrite (Lid_init_entry _ _ Hlid), (IH ls' eq_refl).
Qed.

Lemma traverse_Lid_raises (kvs : dict) (e : exn) :
  traverse (fun kv => Lid.init (fst kv) (snd kv)) kvs = Raise e ->
  e = builtin ValueError.
Proof.
  induction kvs as [|kv kvs IH]; cbn [traverse]; [discriminate|].
  destruct (Lid.init (fst kv) (snd kv)) as [lid|e'] eqn:Hlid.
  - destruct (traverse _ kvs) as [ls'|e'']; [discriminate|].
    intros H. injection H as <-. now apply IH.
  - intros H. injection H as <-. exact (Lid_init_raises _ _ _ Hlid).
Qed.

Lemma traverse_Lid_recognized (kvs : dict) :
  (forall kv, In kv kvs ->
     unrecognized LidState_members LidState_value (snd kv) = false) ->
  exists ls, traverse (fun kv => Lid.init (fst kv) (snd kv)) kvs = Return ls.
Proof.
  induction kvs as [|kv kvs IH]; intros Hrec; cbn [traverse].
  - now exists [].
  - destruct (Lid.init (fst kv) (snd kv)) as [lid|e] eqn:Hlid.
    + destruct IH as [ls Hls]; [intros; apply Hrec; now right|].
      rewrite Hls. now eexists.
    + exfalso. specialize (Hrec kv (or_introl eq_refl)).
      unfold Lid.init, LidState_call, enum_call in Hlid.
      destruct (find _ LidState_members) eqn:Hfind; [discriminate|].
      assert (Hall : unrecognized LidState_members LidState_value (snd kv) = true).
      { unfold unrecognized. apply forallb_forall. intros m Hm.
        pose proof (find_none _ _ Hfind m Hm) as Hn. cbn in Hn. now rewrite Hn. }
      congruence.
Qed.

(** The body of [lids] once the two raw sources have been found. *)
Lemma lids_run (self : VehicleStatus) (dw doors : dict) (l : log) :
  getitem (properties self) "doorsAndWindows" = Return (JDict dw) ->
  lookup "doors" dw = Some (JDict doors) ->
  lids self l
  = (match traverse (fun kv => Lid.init (fst kv) (snd kv))
                    (kept_lid_entries dw doors) with
     | Return ls => Return (Some ls)
     | Raise e => Raise e
     end, l).
Proof.
  intros Hdw Hdoors. unfold lids.
  rewrite backend_parameter_entered by exact (guard_properties_dict _ _ _ Hdw).
  unfold kept_lid_entries. rewrite traverse_app.
  unfold bind at 1. unfold lift at 1. rewrite Hdw.
  unfold bind at 1. unfold lift at 1. cbn [items].
  unfold bind at 1.
  rewrite (list_comp_pure
             (fun kv => (in_names (fst kv) ["hood"; "trunk"]
                         && ne_str (snd kv) (LidState_value INVALID))%bool)
             (fun kv => Lid.init (fst kv) (snd kv)) dw l).
  change (fun kv : string * json =>
            (in_names (fst kv) ["hood"; "trunk"]
             && ne_str (snd kv) (LidState_value INVALID))%bool)
    with (fun kv : string * json =>
            (in_names (fst kv) ["hood"; "trunk"]
             && negb (eq_str (snd kv) "INVALID"))%bool).
  destruct (traverse _ (filter _ dw)) as [fixed|e] eqn:Hfixed.
  - unfold bind at 1. unfold lift at 1. cbn [getitem]. rewrite Hdoors.
    unfold bind at 1. unfold lift at 1. cbn [items].
    unfold bind at 1.
    rewrite (list_comp_pure
               (fun kv => ne_str (snd kv) (LidState_value INVALID))
               (fun kv => Lid.init (fst kv) (snd kv)) doors l).
    change (fun kv : string * json => ne_str (snd kv) (LidState_value INVALID))
      with (fun kv : string * json => negb (eq_str (snd kv) "INVALID")).
    destruct (traverse _ (filter _ doors)) as [from_doors|e] eqn:Hd.
    + reflexivity.
    + rewrite (traverse_Lid_raises _ _ Hd). reflexivity.
  - rewrite (traverse_Lid_raises _ _ Hfixed). reflexivity.
Qed.

(** C7. For a snapshot whose properties hold a [doorsAndWindows] mapping
    with a [doors] sub-mapping, [lids] is decided by the kept entries
    alone: the hood and trunk entries of [doorsAndWindows] followed by
    the entries of [doors], without those whose raw state is ["INVALID"].
    Each kept entry is made a [Lid] (an error of that construction is the
    outcome of [lids]); what [lids] returns is, entry for entry, the kept
    entries; and it does return when every kept state is a value of
    [LidState]. *)
Theorem lids_are_kept_entries :
  forall (self : VehicleStatus) (dw doors : dict) (l : log),
    getitem (properties self) "doorsAndWindows" = Return (JDict dw) ->
    lookup "doors" dw = Some (JDict doors) ->
    lids self l
    = (match traverse (fun kv => Lid.init (fst kv) (snd kv))
                      (kept_lid_entries dw doors) with
       | Return ls => Return (Some ls)
       | Raise e => Raise e
       end, l)
    /\ (forall r l', lids self l = (Return r, l') ->
          exists ls, r = Some ls
                     /\ map lid_entry ls = kept_lid_entries dw doors
                     /\ Forall (fun lid => Lid.state lid <> INVALID) ls)
    /\ ((forall kv, In kv (kept_lid_entries dw doors) ->
           unrecognized LidState_members LidState_value (snd kv) = false) ->
        exists ls, lids self l = (Return (Some ls), l)).
Proof.
  intros self dw doors l Hdw Hdoors.
  pose proof (lids_run self dw doors l Hdw Hdoors) as Hrun.
  split; [exact Hrun|]. split.
  - intros r l' Hr. rewrite Hrun in Hr.
    destruct (traverse _ (kept_lid_entries dw doors)) as [ls|e] eqn:Ht;
      [|discriminate].
    injection Hr as <- <-. exists ls.
    pose proof (traverse_Lid_entries _ _ Ht) as Hmap.
    split; [reflexivity|]. split; [exact Hmap|].
    apply Forall_forall. intros lid Hin Hinv.
    assert (Hk : In (lid_entry lid) (kept_lid_entries dw doors)).
    { rewrite <- Hmap. now apply in_map. }
    unfold kept_lid_entries in Hk. apply in_app_or in Hk.
    assert (Hs : eq_str (snd (lid_entry lid)) "INVALID" = false).
    { destruct Hk as [Hk|Hk]; apply filter_In in Hk as [_ Hk].
      - apply andb_prop in Hk as [_ Hk]. now apply negb_true_iff in Hk.
      - now apply negb_true_iff in Hk. }
    unfold lid_entry in Hs. cbn in Hs. rewrite Hinv in Hs. discriminate.
  - intros Hrec. destruct (traverse_Lid_recognized _ Hrec) as [ls Hls].
    exists ls. now rewrite Hrun, Hls.
Qed.

Lemma lids_are_kept_entries_witness :
  lids (mkVehicleStatus
          (JDict [])
          (JDict [("doorsAndWindows",
                   JDict [("doors", JDict [("driverFront", JStr "CLOSED");
                                           ("driverRear", JStr "INVALID");
                                           ("passengerFront", JStr "OPEN")]);
                          ("windows", JDict [("driverFront", JStr "CLOSED")]);
                          ("hood", JStr "INVALID");
                          ("trunk", JStr "CLOSED")])])) []
  = (Return (Some [Lid.mk "trunk" CLOSED; Lid.mk "driverFront" CLOSED;
                   Lid.mk "passengerFront" OPEN]), []).
Proof.
  exact (proj1 (lids_are_kept_entries
                  (mkVehicleStatus
                     (JDict [])
                     (JDict [("doorsAndWindows",
                              JDict [("doors",
                                      JDict [("driverFront", JStr "CLOSED");
                                             ("driverRear", JStr "INVALID");
                                             ("passengerFront", JStr "OPEN")]);
                                     ("windows",
                                      JDict [("driverFront", JStr "CLOSED")]);
                                     ("hood", JStr "INVALID");
                                     ("trunk", JStr "CLOSED")])]))
                  _ _ [] eq_refl eq_refl)).
Defined.

(** C8. For every snapshot, [open_lids] is [lids] filtered by "the state
    is not CLOSED" (and fails where [lids] fails, or gave [None], which
    cannot be iterated), and [all_lids_closed] is the emptiness of
    [open_lids]. *)
Theorem open_lids_filter_all_closed :
  forall (self : VehicleStatus) (l : log),
    open_lids self l
    = match lids self l with
      | (Return (Some ls), l') =>
          (Return (filter (fun lid =>
                             if LidState_eq_dec (Lid.state lid) CLOSED
                             then false else true) ls), l')
      | (Return None, l') => (Raise (builtin TypeError), l')
      | (Raise e, l') => (Raise e, l')
      end
    /\ all_lids_closed self l
       = match open_lids self l with
         | (Return opened, l') =>
             (Return (match opened with [] => true | _ => false end), l')
         | (Raise e, l') => (Raise e, l')
         end
    /\ (forall l', all_lids_closed self l = (Return true, l')
                   <-> open_lids self l = (Return [], l')).
Proof.
  intros self l.
  assert (Hall : all_lids_closed self l
       = match open_lids self l with
         | (Return opened, l') =>
             (Return (match opened with [] => true | _ => false end), l')
         | (Raise e, l') => (Raise e, l')
         end).
  { unfold all_lids_closed, bind, ret.
    destruct (open_lids self l) as [[opened|e] l']; [|reflexivity].
    destruct opened; reflexivity. }
  split; [|split; [exact Hall|]].
  - unfold open_lids, bind, iterate, ret, raise.
    destruct (lids self l) as [[[ls|]|e] l']; try reflexivity.
    f_equal. f_equal. apply filter_ext. intros lid.
    rewrite is_closed_iff. now destruct (LidState_eq_dec _ _).
  - intros l'. rewrite Hall.
    destruct (open_lids self l) as [[opened|e] l'']; split; intros H;
      try discriminate.
    + destruct opened; [|discriminate]. now injection H as <-.
    + injection H as -> <-. reflexivity.
Qed.

Lemma open_lids_filter_all_closed_witness :
  open_lids
    (mkVehicleStatus
       (JDict [])
       (JDict [("doorsAndWindows",
                JDict [("doors", JDict [("driverFront", JStr "CLOSED");
                                        ("passengerFront", JStr "OPEN_TILT")]);
                       ("trunk", JStr "CLOSED")])])) []
  = (Return [Lid.mk "passengerFront" OPEN_TILT], [])
  /\ all_lids_closed
       (mkVehicleStatus
          (JDict [])
          (JDict [("doorsAndWindows",
                   JDict [("doors", JDict [("driverFront", JStr "CLOSED");
                                           ("passengerFront", JStr "OPEN_TILT")]);
                          ("trunk", JStr "CLOSED")])])) []
     = (Return false, []).
Proof.
  pose proof (open_lids_filter_all_closed
                (mkVehicleStatus
                   (JDict [])
                   (JDict [("doorsAndWindows",
                            JDict [("doors",
                                    JDict [("driverFront", JStr "CLOSED");
                                           ("passengerFront",
                                            JStr "OPEN_TILT")]);
                                   ("trunk", JStr "CLOSED")])])) [])
    as [Hopen [Hall _]].
  split; [exact Hopen | exact Hall].
Defined.

(** ** Check-control messages *)

Lemma check_control_comp (ms : list json) (l : log) :
  Forall has_state ms ->
  list_comp
    (fun m => st <- lift (getitem m "state") ;; ret (ne_str st "OK"))
    (fun m => ret (mkCheckControlMessage m)) ms l
  = (Return (map mkCheckControlMessage (filter state_differs_from_OK ms)), l).
Proof.
  induction 1 as [|m ms [st Hst] _ IH]; [reflexivity|].
  cbn [list_comp filter]. unfold state_differs_from_OK at 1.
  unfold bind, lift, ret, ne_str in *. rewrite Hst.
  destruct (negb (eq_str st "OK")).
  - rewrite IH. reflexivity.
  - exact IH.
Qed.

(** C9. For a snapshot that passes the guard of the wrapper and whose
    status holds a list of check-control entries, each with a state (no
    [checkControlMessages] key standing for the empty list),
    [check_control_messages] returns exactly the entries whose raw state
    differs from ["OK"], in their order, and
    [has_check_control_messages] tells whether that list is non-empty. *)
Theorem check_control_messages_filter :
  forall (self : VehicleStatus) (ms : list json) (l : log),
    (is_None (properties self) && truthy (status self))%bool = false ->
    get (status self) "checkControlMessages" (JList []) = Return (JList ms) ->
    Forall has_state ms ->
    check_control_messages self l
    = (Return (Some (map mkCheckControlMessage
                         (filter state_differs_from_OK ms))), l)
    /\ has_check_control_messages self l
       = (Return (Some (match filter state_differs_from_OK ms with
                        | [] => false
                        | _ => true
                        end)), l).
Proof.
  intros self ms l Hg Hget Hms.
  assert (Hccm : check_control_messages self l
    = (Return (Some (map mkCheckControlMessage
                         (filter state_differs_from_OK ms))), l)).
  { unfold check_control_messages. rewrite backend_parameter_entered by exact Hg.
    unfold bind at 1. unfold lift at 1. rewrite Hget.
    unfold bind at 1. unfold lift at 1. cbn [iter].
    unfold bind at 1. rewrite (check_control_comp ms l Hms). reflexivity. }
  split; [exact Hccm|].
  unfold has_check_control_messages. rewrite backend_parameter_entered by exact Hg.
  unfold bind at 1. rewrite Hccm. cbn.
  destruct (filter state_differs_from_OK ms); reflexivity.
Qed.

Lemma check_control_messages_filter_witness :
  check_control_messages
    (mkVehicleStatus
       (JDict [("checkControlMessages",
                JList [JDict [("id", JNum 1); ("state", JStr "OK")];
                       JDict [("id", JNum 2); ("state", JStr "CRITICAL")]])])
       (JDict [])) []
  = (Return (Some [mkCheckControlMessage
                     (JDict [("id", JNum 2); ("state", JStr "CRITICAL")])]), [])
  /\ has_check_control_messages
       (mkVehicleStatus
          (JDict [("checkControlMessages",
                   JList [JDict [("id", JNum 1); ("state", JStr "OK")];
                          JDict [("id", JNum 2); ("state", JStr "CRITICAL")]])])
          (JDict [])) []
     = (Return (Some true), []).
Proof.
  refine (check_control_messages_filter
            (mkVehicleStatus
               (JDict [("checkControlMessages",
                        JList [JDict [("id", JNum 1); ("state", JStr "OK")];
                               JDict [("id", JNum 2);
                                      ("state", JStr "CRITICAL")]])])
               (JDict []))
            [JDict [("id", JNum 1); ("state", JStr "OK")];
             JDict [("id", JNum 2); ("state", JStr "CRITICAL")]]
            [] eq_refl eq_refl _).
  repeat constructor; eexists; reflexivity.
Defined.

(** ** Windows *)

(** C10. When [doorsAndWindows] is a mapping without a [windows] key,
    [.get("windows")] gives [None], whose [.items()] raises
    [AttributeError]; the wrapper lets it through to the caller: no value
    is returned and nothing is logged. *)
Theorem windows_missing_raises_AttributeError :
  forall (self : VehicleStatus) (dw : dict) (l : log),
    getitem (properties self) "doorsAndWindows" = Return (JDict dw) ->
    lookup "windows" dw = None ->
    windows self l = (Raise (builtin AttributeError), l)
    /\ exn_cls (builtin AttributeError) <> KeyError.
Proof.
  intros self dw l Hdw Hw. split; [|discriminate].
  unfold windows.
  rewrite backend_parameter_entered by exact (guard_properties_dict _ _ _ Hdw).
  unfold bind at 1. unfold lift at 1. rewrite Hdw.
  unfold bind at 1. unfold lift at 1. cbn [get]. rewrite Hw.
  reflexivity.
Qed.

Lemma windows_missing_raises_AttributeError_witness :
  windows (mkVehicleStatus
             (JDict [])
             (JDict [("doorsAndWindows",
                      JDict [("doors", JDict [("driverFront", JStr "CLOSED")]);
                             ("hood", JStr "CLOSED")])])) []
  = (Raise (builtin AttributeError), []).
Proof.
  exact (proj1 (windows_missing_raises_AttributeError
                  (mkVehicleStatus
                     (JDict [])
                     (JDict [("doorsAndWindows",
                              JDict [("doors",
                                      JDict [("driverFront", JStr "CLOSED")]);
                                     ("hood", JStr "CLOSED")])]))
                  _ [] eq_refl eq_refl)).
Defined.

(** By contrast, a missing [doorsAndWindows] key is the routine
    missing-field condition: [None], and a record at level DEBUG. *)
Lemma windows_missing_container_is_None (self : VehicleStatus) (p : dict)
    (l : log) :
  properties self = JDict p ->
  lookup "doorsAndWindows" p = None ->
  windows self l
  = (Return None,
     l ++ [mkLog DEBUG "No data available for attribute %s!" ["windows"]]).
Proof.
  intros Hp Hdw. unfold windows.
  rewrite backend_parameter_entered by (rewrite Hp; reflexivity).
  unfold bind at 1. unfold lift at 1. rewrite Hp. cbn [getitem]. rewrite Hdw.
  reflexivity.
Qed.

(** ** The accessor wrapper *)

(** C3. Once the wrapped function runs, a [KeyError] it raises becomes
    the value [None], with one record at level DEBUG added to what was
    logged so far; any other exception reaches the caller as it was
    raised; and a value is returned as it is. *)
Theorem backend_parameter_KeyError_to_None :
  forall (A : Type) (func_name : string)
         (func : VehicleStatus -> M (option A)) (self : VehicleStatus)
         (l l' : log),
    (is_None (properties self) && truthy (status self))%bool = false ->
    (forall ex, func self l = (Raise ex, l') ->
       exn_cls ex = KeyError ->
       backend_parameter func_name func self l
       = (Return None,
          l' ++ [mkLog DEBUG "No data available for attribute %s!"
                       [func_name]]))
    /\ (forall ex, func self l = (Raise ex, l') ->
          exn_cls ex <> KeyError ->
          backend_parameter func_name func self l = (Raise ex, l'))
    /\ (forall a, func self l = (Return a, l') ->
          backend_parameter func_name func self l = (Return a, l')).
Proof.
  intros A func_name func self l l' Hg.
  rewrite (backend_parameter_entered func_name func self l Hg).
  repeat split.
  - intros ex -> Hk. unfold is_KeyError. now rewrite Hk.
  - intros ex -> Hk. unfold is_KeyError.
    destruct (exn_cls ex); try reflexivity. contradiction.
  - now intros a ->.
Qed.

Lemma backend_parameter_KeyError_to_None_witness :
  last_update_reason (mkVehicleStatus (JDict []) (JDict [])) []
  = (Return None,
     [mkLog DEBUG "No data available for attribute %s!" ["last_update_reason"]])
  /\ door_lock_state
       (mkVehicleStatus (JDict [("doorsGeneralState", JNum 3)]) (JDict [])) []
     = (Raise (builtin AttributeError), []).
Proof.
  split.
  - refine (proj1 (backend_parameter_KeyError_to_None
                     json "last_update_reason" _
                     (mkVehicleStatus (JDict []) (JDict [])) [] [] eq_refl)
                  (mkExn KeyError "timestampMessage") eq_refl eq_refl).
  - refine (proj1 (proj2 (backend_parameter_KeyError_to_None
                            LockState "door_lock_state" _
                            (mkVehicleStatus
                               (JDict [("doorsGeneralState", JNum 3)])
                               (JDict [])) [] [] eq_refl))
                  (builtin AttributeError) eq_refl _).
    discriminate.
Defined.

(** ** Construction from a raw state code *)

(** On [None] or a string, [parse_datetime] returns, whatever it logs. *)
Lemma parse_datetime_returns
    (strptime : string -> string -> outcome datetime) (python_lt_37 : bool)
    (date_str : json) (l : log) :
  only_ValueError strptime ->
  optional_str date_str = true ->
  exists r l',
    Utils.parse_datetime strptime python_lt_37 date_str l = (Return r, l').
Proof.
  intros Hc Hty. destruct date_str as [| | |s| |]; try discriminate Hty.
  - now exists None, l.
  - unfold Utils.parse_datetime. destruct (truthy (JStr s)); cbn [negb].
    + destruct (try_formats_returns strptime python_lt_37 s
                  Utils.date_formats l Hc) as [r Hr].
      unfold bind. rewrite Hr. destruct r as [d|].
      * now exists (Some d), l.
      * eexists None, _. reflexivity.
    + now exists None, l.
Qed.

(** C4. A raw state code outside the enumeration makes the construction
    fail with [ValueError]: for a [Lid] and a [Window], for a
    condition-based-service report (whose [dateTime] field, when there is
    one, is a string or [None], so that the timestamp parser returns),
    and for the door-lock state, whose code is upper-cased first and
    whose [ValueError] the wrapper lets through. *)
Theorem unrecognized_code_raises :
  forall (strptime : string -> string -> outcome datetime)
         (python_lt_37 : bool)
         (name : string) (lid_code : json)
         (cbs_data date_time cbs_code : json)
         (self : VehicleStatus) (lock_code : string) (l : log),
    unrecognized LidState_members LidState_value lid_code = true ->
    only_ValueError strptime ->
    get cbs_data "dateTime" JNull = Return date_time ->
    optional_str date_time = true ->
    getitem cbs_data "status" = Return cbs_code ->
    unrecognized ConditionBasedServiceStatus_members
                 ConditionBasedServiceStatus_value cbs_code = true ->
    is_None (properties self) = false ->
    getitem (status self) "doorsGeneralState" = Return (JStr lock_code) ->
    unrecognized LockState_members LockState_value
                 (JStr (upper_string lock_code)) = true ->
    Lid.init name lid_code = Raise (builtin ValueError)
    /\ Window.init name lid_code = Raise (builtin ValueError)
    /\ (exists l',
           ConditionBasedServiceReport.init strptime python_lt_37 cbs_data l
           = (Raise (builtin ValueError), l'))
    /\ door_lock_state self l = (Raise (builtin ValueError), l).
Proof.
  intros strptime lt37 name lid_code cbs_data date_time cbs_code self
         lock_code l Hlid Hc Hdt Hty Hst Hcbs Hprops Hlock Hlk.
  assert (HL : Lid.init name lid_code = Raise (builtin ValueError)).
  { unfold Lid.init, LidState_call.
    now rewrite (enum_call_unrecognized _ _ _ Hlid). }
  split; [exact HL|]. split; [exact HL|]. split.
  - destruct (parse_datetime_returns strptime lt37 date_time l Hc Hty)
      as [r [l' Hr]].
    exists l'. unfold ConditionBasedServiceReport.init.
    unfold bind at 1. unfold lift at 1. rewrite Hdt.
    unfold bind at 1. rewrite Hr.
    unfold bind at 1. unfold lift at 1. rewrite Hst.
    unfold bind at 1. unfold lift at 1.
    unfold ConditionBasedServiceStatus_call.
    now rewrite (enum_call_unrecognized _ _ _ Hcbs).
  - unfold door_lock_state. rewrite backend_parameter_entered.
    + unfold bind at 1. unfold lift at 1. rewrite Hlock.
      unfold bind at 1. unfold lift at 1. cbn [upper].
      unfold bind at 1. unfold lift at 1. unfold LockState_call.
      now rewrite (enum_call_unrecognized _ _ _ Hlk).
    + now rewrite Hprops.
Qed.

Lemma unrecognized_code_raises_witness :
  Lid.init "hood" (JStr "AJAR") = Raise (builtin ValueError)
  /\ Window.init "hood" (JStr "AJAR") = Raise (builtin ValueError)
  /\ (exists l',
         ConditionBasedServiceReport.init CPython.strptime false
           (JDict [("dateTime", JStr "2022-05-01T00:00:00.000Z");
                   ("status", JStr "SOON"); ("type", JStr "OIL")]) []
         = (Raise (builtin ValueError), l'))
  /\ door_lock_state
       (mkVehicleStatus (JDict [("doorsGeneralState", JStr "ajar")])
                        (JDict [])) []
     = (Raise (builtin ValueError), []).
Proof.
  exact (unrecognized_code_raises
           CPython.strptime false "hood" (JStr "AJAR")
           (JDict [("dateTime", JStr "2022-05-01T00:00:00.000Z");
                   ("status", JStr "SOON"); ("type", JStr "OIL")])
           (JStr "2022-05-01T00:00:00.000Z") (JStr "SOON")
           (mkVehicleStatus (JDict [("doorsGeneralState", JStr "ajar")])
                            (JDict []))
           "ajar" []
           eq_refl CPython_strptime_only_ValueError eq_refl eq_refl eq_refl
           eq_refl eq_refl eq_refl eq_refl).
Defined.

(** ** Range aggregation *)

Lemma remaining_range_fuel_absent (self : VehicleStatus) (p : dict) (l : log) :
  properties self = JDict p ->
  lookup "combustionRange" p = None ->
  remaining_range_fuel self l = (Return (Some (JNull, JNull)), l).
Proof.
  intros Hp Hk. unfold remaining_range_fuel.
  rewrite backend_parameter_entered by (rewrite Hp; reflexivity).
  unfold bind, lift. rewrite Hp. cbn [contains]. rewrite Hk. reflexivity.
Qed.

Lemma remaining_range_electric_absent (self : VehicleStatus) (p : dict)
    (l : log) :
  properties self = JDict p ->
  lookup "electricRange" p = None ->
  remaining_range_electric self l = (Return (Some (JNull, JNull)), l).
Proof.
  intros Hp Hk. unfold remaining_range_electric.
  rewrite backend_parameter_entered by (rewrite Hp; reflexivity).
  unfold bind, lift. rewrite Hp. cbn [contains]. rewrite Hk. reflexivity.
Qed.

Lemma remaining_range_fuel_present (self : VehicleStatus) (p r d : dict)
    (value units : json) (l : log) :
  properties self = JDict p ->
  lookup "combustionRange" p = Some (JDict r) ->
  lookup "distance" r = Some (JDict d) ->
  lookup "value" d = Some value ->
  lookup "units" d = Some units ->
  remaining_range_fuel self l = (Return (Some (value, units)), l).
Proof.
  intros Hp Hr Hd Hv Hu. unfold remaining_range_fuel.
  rewrite backend_parameter_entered by (rewrite Hp; reflexivity).
  unfold bind, lift. rewrite Hp. cbn [contains getitem]. rewrite Hr.
  cbn [negb getitem]. rewrite Hd. cbn [getitem]. rewrite Hv, Hu. reflexivity.
Qed.

Lemma remaining_range_electric_present (self : VehicleStatus) (p r d : dict)
    (value units : json) (l : log) :
  properties self = JDict p ->
  lookup "electricRange" p = Some (JDict r) ->
  lookup "distance" r = Some (JDict d) ->
  lookup "value" d = Some value ->
  lookup "units" d = Some units ->
  remaining_range_electric self l = (Return (Some (value, units)), l).
Proof.
  intros Hp Hr Hd Hv Hu. unfold remaining_range_electric.
  rewrite backend_parameter_entered by (rewrite Hp; reflexivity).
  unfold bind, lift. rewrite Hp. cbn [contains getitem]. rewrite Hr.
  cbn [negb getitem]. rewrite Hd. cbn [getitem]. rewrite Hv, Hu. reflexivity.
Qed.

(** The total once both accessors gave a pair (which they also do for an
    absent sub-object): the sum of the two values, [None] and [0]
    counting as [0], and the unit of the fuel pair. *)
Lemma remaining_range_total_of_pairs (self : VehicleStatus)
    (fuel electric : value_unit) (total : json) (l : log) :
  (is_None (properties self) && truthy (status self))%bool = false ->
  (forall l0, remaining_range_fuel self l0 = (Return (Some fuel), l0)) ->
  (forall l0, remaining_range_electric self l0 = (Return (Some electric), l0)) ->
  add (or_zero (fst fuel)) (or_zero (fst electric)) = Return total ->
  remaining_range_total self l = (Return (Some (total, snd fuel)), l).
Proof.
  intros Hg Hf He Hadd. unfold remaining_range_total.
  rewrite backend_parameter_entered by exact Hg.
  destruct fuel as [vf uf], electric as [ve ue]. cbn [fst snd] in *.
  unfold bind, ret, lift.
  rewrite Hf. cbn [truthy_tuple negb]. rewrite Hf, He.
  cbn [first_or_zero]. rewrite Hadd, Hf. reflexivity.
Qed.

(** Whatever else the properties hold, a snapshot with neither
    sub-object gets the pair [(0, None)]. *)
Lemma remaining_range_total_both_absent (self : VehicleStatus) (p : dict)
    (l : log) :
  properties self = JDict p ->
  lookup "combustionRange" p = None ->
  lookup "electricRange" p = None ->
  remaining_range_total self l = (Return (Some (JNum 0, JNull)), l).
Proof.
  intros Hp Hf He.
  apply (remaining_range_total_of_pairs self (JNull, JNull) (JNull, JNull)).
  - rewrite Hp. reflexivity.
  - intros l0. exact (remaining_range_fuel_absent self p l0 Hp Hf).
  - intros l0. exact (remaining_range_electric_absent self p l0 Hp He).
  - reflexivity.
Qed.

(** With both sub-objects present and integral values, the total is
    their sum and carries the fuel unit. *)
Lemma remaining_range_total_both_present (self : VehicleStatus)
    (p rf df re de : dict) (vf ve : Z) (uf ue : json) (l : log) :
  properties self = JDict p ->
  lookup "combustionRange" p = Some (JDict rf) ->
  lookup "distance" rf = Some (JDict df) ->
  lookup "value" df = Some (JNum vf) ->
  lookup "units" df = Some uf ->
  lookup "electricRange" p = Some (JDict re) ->
  lookup "distance" re = Some (JDict de) ->
  lookup "value" de = Some (JNum ve) ->
  lookup "units" de = Some ue ->
  remaining_range_total self l = (Return (Some (JNum (vf + ve), uf)), l).
Proof.
  intros Hp Hrf Hdf Hvf Huf Hre Hde Hve Hue.
  apply (remaining_range_total_of_pairs self (JNum vf, uf) (JNum ve, ue)).
  - rewrite Hp. reflexivity.
  - intros l0.
    exact (remaining_range_fuel_present self p rf df _ _ l0 Hp Hrf Hdf Hvf Huf).
  - intros l0.
    exact (remaining_range_electric_present self p re de _ _ l0
             Hp Hre Hde Hve Hue).
  - cbn [fst or_zero truthy]. unfold or_zero. cbn [truthy].
    destruct (Z.eqb_spec vf 0) as [->|_], (Z.eqb_spec ve 0) as [->|_];
      cbn; f_equal; f_equal; lia.
Qed.

(** C1, where the code departs from it. With both sub-objects absent the
    two accessors give the pair [(None, None)], which is true in a
    condition, so the guard for "nothing available" is not taken and the
    total is the pair [(0, None)]; with the electric range alone the unit
    is read from the fuel pair and is [None]. With both present the
    total is the sum with the fuel unit. *)
Theorem remaining_range_total_absent_components :
  remaining_range_total (mkVehicleStatus (JDict []) (JDict [])) []
  = (Return (Some (JNum 0, JNull)), [])
  /\ remaining_range_total
       (mkVehicleStatus
          (JDict [])
          (JDict [("electricRange",
                   JDict [("distance",
                           JDict [("value", JNum 30);
                                  ("units", JStr "km")])])])) []
     = (Return (Some (JNum 30, JNull)), [])
  /\ remaining_range_total
       (mkVehicleStatus
          (JDict [])
          (JDict [("combustionRange",
                   JDict [("distance",
                           JDict [("value", JNum 50);
                                  ("units", JStr "km")])]);
                  ("electricRange",
                   JDict [("distance",
                           JDict [("value", JNum 30);
                                  ("units", JStr "mi")])])])) []
     = (Return (Some (JNum 80, JStr "km")), []).
Proof.
  repeat split; vm_compute; reflexivity.
Qed.

(** ** The guard of the wrapper *)

(** What the guard tests: the no-data error is raised exactly when
    [properties] is [None] and [status] is true in a condition. *)
Lemma backend_parameter_guard {A} (func_name : string)
    (func : VehicleStatus -> M (option A)) (self : VehicleStatus) (l : log) :
  (is_None (properties self) && truthy (status self))%bool = true ->
  backend_parameter func_name func self l
  = (Raise (mkExn ValueError "No data available for vehicle status!"), l).
Proof.
  intros Hg. unfold backend_parameter. now rewrite Hg.
Qed.

(** C2, where the code departs from it. With both raw containers [None]
    the guard is not taken ([status] is false in a condition): the
    wrapped function runs, and the access returns [None] or fails with
    the [TypeError] of subscripting [None], not with the no-data
    [ValueError]. *)
Theorem no_data_guard_skipped_when_both_absent :
  parking_lights (mkVehicleStatus JNull JNull) [] = (Return None, [])
  /\ last_update_reason (mkVehicleStatus JNull JNull) []
     = (Raise (builtin TypeError), [])
  /\ remaining_range_total (mkVehicleStatus JNull JNull) []
     = (Raise (builtin TypeError), [])
  /\ parking_lights (mkVehicleStatus (JDict [("lastUpdatedAt", JNull)]) JNull) []
     = (Raise (mkExn ValueError "No data available for vehicle status!"), []).
Proof.
  repeat split; vm_compute; reflexivity.
Qed.

(** * Further properties of the layer *)

(** ** Enumerations, read back *)

Lemma enum_call_value {E} (members : list E) (value_of : E -> string)
    (v : json) (m : E) :
  enum_call members value_of v = Return m -> v = JStr (value_of m).
Proof.
  unfold enum_call.
  destruct (find _ members) as [m'|] eqn:Hfind; [|discriminate].
  intros H. injection H as <-.
  apply find_some in Hfind as [_ Heq].
  destruct v; try discriminate. cbn in Heq.
  apply String.eqb_eq in Heq. now subst.
Qed.

(** X1. Each enumeration is read back from its values: calling the
    class on a value gives a member exactly when the value is the
    string of that member, so the value strings identify the members. *)
Theorem enum_call_round_trip :
  (forall v m, LidState_call v = Return m <-> v = JStr (LidState_value m))
  /\ (forall v m, LockState_call v = Return m <-> v = JStr (LockState_value m))
  /\ (forall v m, ConditionBasedServiceStatus_call v = Return m
                  <-> v = JStr (ConditionBasedServiceStatus_value m))
  /\ (forall v m, ChargingState.call v = Return m
                  <-> v = JStr (ChargingState.value m)).
Proof.
  repeat split; try apply enum_call_value;
    intros ->; destruct m; reflexivity.
Qed.

(** X2. The door-lock state is read ignoring the case of the raw code:
    a code whose upper-case form is the value of a member gives that
    member. *)
Theorem door_lock_state_ignores_case :
  forall (self : VehicleStatus) (raw : string) (m : LockState) (l : log),
    guard_passes self ->
    getitem (status self) "doorsGeneralState" = Return (JStr raw) ->
    upper_string raw = LockState_value m ->
    door_lock_state self l = (Return (Some m), l).
Proof.
  intros self raw m l Hg Hraw Hup. unfold door_lock_state.
  rewrite backend_parameter_entered by exact Hg.
  unfold bind, lift, ret. rewrite Hraw. cbn [upper]. rewrite Hup.
  destruct m; reflexivity.
Qed.

Lemma door_lock_state_ignores_case_witness :
  door_lock_state
    (mkVehicleStatus (JDict [("doorsGeneralState", JStr "Selective_Locked")])
                     (JDict [])) []
  = (Return (Some SELECTIVE_LOCKED), []).
Proof.
  exact (door_lock_state_ignores_case
           (mkVehicleStatus
              (JDict [("doorsGeneralState", JStr "Selective_Locked")])
              (JDict []))
           "Selective_Locked" SELECTIVE_LOCKED [] eq_refl eq_refl eq_refl).
Defined.

(** ** Windows *)

Lemma windows_run (self : VehicleStatus) (dw ws : dict) (l : log) :
  getitem (properties self) "doorsAndWindows" = Return (JDict dw) ->
  lookup "windows" dw = Some (JDict ws) ->
  windows self l
  = (match traverse (fun kv => Lid.init (fst kv) (snd kv))
                    (kept_window_entries ws) with
     | Return ls => Return (Some ls)
     | Raise e => Raise e
     end, l).
Proof.
  intros Hdw Hws. unfold windows.
  rewrite backend_parameter_entered by exact (guard_properties_dict _ _ _ Hdw).
  unfold bind at 1. unfold lift at 1. rewrite Hdw.
  unfold bind at 1. unfold lift at 1. cbn [get]. rewrite Hws.
  unfold bind at 1. unfold lift at 1. cbn [items].
  unfold bind at 1.
  rewrite (list_comp_pure
             (fun kv => ne_str (snd kv) (LidState_value INVALID))
             (fun kv => Window.init (fst kv) (snd kv)) ws l).
  change (traverse (fun kv : string * json => Window.init (fst kv) (snd kv))
            (filter (fun kv : string * json =>
                       ne_str (snd kv) (LidState_value INVALID)) ws))
    with (traverse (fun kv => Lid.init (fst kv) (snd kv))
            (kept_window_entries ws)).
  destruct (traverse _ (kept_window_entries ws)) as [r|e] eqn:Ht.
  - reflexivity.
  - rewrite (traverse_Lid_raises _ _ Ht). reflexivity.
Qed.

(** X3. For a snapshot whose [doorsAndWindows] mapping has a [windows]
    mapping, [windows] is decided by the entries of that mapping whose
    raw state is not ["INVALID"]: what it returns is, entry for entry and
    in their order, those entries, none of them in the state INVALID; it
    returns whenever each of their states is a value of [LidState], and
    hood, trunk and doors play no part. *)
Theorem windows_are_kept_entries :
  forall (self : VehicleStatus) (dw ws : dict) (l : log),
    getitem (properties self) "doorsAndWindows" = Return (JDict dw) ->
    lookup "windows" dw = Some (JDict ws) ->
    (forall r l', windows self l = (Return r, l') ->
       exists wl, r = Some wl /\ l' = l
                  /\ map lid_entry wl = kept_window_entries ws
                  /\ Forall (fun w => Lid.state w <> INVALID) wl)
    /\ ((forall kv, In kv (kept_window_entries ws) ->
           unrecognized LidState_members LidState_value (snd kv) = false) ->
        exists wl, windows self l = (Return (Some wl), l))
    /\ (forall e l', windows self l = (Raise e, l') ->
          e = builtin ValueError /\ l' = l).
Proof.
  intros self dw ws l Hdw Hws.
  pose proof (windows_run self dw ws l Hdw Hws) as Hrun.
  split; [|split].
  - intros r l' Hr. rewrite Hrun in Hr.
    destruct (traverse _ (kept_window_entries ws)) as [wl|e] eqn:Ht;
      [|discriminate].
    injection Hr as <- <-. exists wl.
    pose proof (traverse_Lid_entries _ _ Ht) as Hmap.
    repeat split; try exact Hmap.
    apply Forall_forall. intros w Hin Hinv.
    assert (Hk : In (lid_entry w) (kept_window_entries ws)).
    { rewrite <- Hmap. now apply in_map. }
    apply filter_In in Hk as [_ Hk]. apply negb_true_iff in Hk.
    unfold lid_entry in Hk. cbn in Hk. rewrite Hinv in Hk. discriminate.
  - intros Hrec. destruct (traverse_Lid_recognized _ Hrec) as [wl Hwl].
    exists wl. now rewrite Hrun, Hwl.
  - intros e l' He. rewrite Hrun in He.
    destruct (traverse _ (kept_window_entries ws)) as [wl|e'] eqn:Ht;
      [discriminate|].
    injection He as <- <-. split; [|reflexivity].
    exact (traverse_Lid_raises _ _ Ht).
Qed.

Lemma windows_are_kept_entries_witness :
  exists wl,
    windows
      (mkVehicleStatus
         (JDict [])
         (JDict [("doorsAndWindows",
                  JDict [("hood", JStr "OPEN");
                         ("windows", JDict [("driverFront", JStr "INTERMEDIATE");
                                            ("sunroof", JStr "INVALID")])])]))
      []
    = (Return (Some wl), []).
Proof.
  refine (proj1 (proj2 (windows_are_kept_entries
            (mkVehicleStatus
               (JDict [])
               (JDict [("doorsAndWindows",
                        JDict [("hood", JStr "OPEN");
                               ("windows",
                                JDict [("driverFront", JStr "INTERMEDIATE");
                                       ("sunroof", JStr "INVALID")])])]))
            _ [("driverFront", JStr "INTERMEDIATE"); ("sunroof", JStr "INVALID")]
            [] eq_refl eq_refl)) _).
  intros kv [<- | []]. reflexivity.
Defined.

(** X4. [open_windows] is [windows] without the windows whose state is
    CLOSED, in the same order, and [all_windows_closed] is true exactly
    when [open_windows] is empty; both fail where [windows] fails, and
    with [TypeError] where [windows] gave [None]. *)
Theorem open_windows_filter_all_closed :
  forall (self : VehicleStatus) (l : log),
    open_windows self l
    = match windows self l with
      | (Return (Some ws), l') =>
          (Return (filter (fun w =>
                             if LidState_eq_dec (Lid.state w) CLOSED
                             then false else true) ws), l')
      | (Return None, l') => (Raise (builtin TypeError), l')
      | (Raise e, l') => (Raise e, l')
      end
    /\ (forall l', all_windows_closed self l = (Return true, l')
                   <-> open_windows self l = (Return [], l'))
    /\ (forall e l', all_windows_closed self l = (Raise e, l')
                     <-> open_windows self l = (Raise e, l')).
Proof.
  intros self l.
  assert (Hall : all_windows_closed self l
       = match open_windows self l with
         | (Return opened, l') =>
             (Return (match opened with [] => true | _ => false end), l')
         | (Raise e, l') => (Raise e, l')
         end).
  { unfold all_windows_closed, bind, ret.
    destruct (open_windows self l) as [[opened|e] l']; [|reflexivity].
    destruct opened; reflexivity. }
  split; [|split].
  - unfold open_windows, bind, iterate, ret, raise.
    destruct (windows self l) as [[[ws|]|e] l']; try reflexivity.
    f_equal. f_equal. apply filter_ext. intros w.
    unfold Window.is_closed. rewrite is_closed_iff.
    now destruct (LidState_eq_dec _ _).
  - intros l'. rewrite Hall.
    destruct (open_windows self l) as [[opened|e] l'']; split; intros H;
      try discriminate.
    + destruct opened; [|discriminate]. now injection H as <-.
    + injection H as -> <-. reflexivity.
  - intros e l'. rewrite Hall.
    destruct (open_windows self l) as [[opened|e'] l'']; split; intros H;
      try discriminate; injection H as -> ->; reflexivity.
Qed.

(** ** Lids and windows of a snapshot without the raw sources *)

Lemma guard_properties_is_dict (self : VehicleStatus) (p : dict) :
  properties self = JDict p -> guard_passes self.
Proof. intros Hp. unfold guard_passes. now rewrite Hp. Qed.

(** X5. Without a [doorsAndWindows] entry in the properties, [lids] and
    [windows] are [None], each after one DEBUG record, and every
    property derived from them ([open_lids], [all_lids_closed],
    [open_windows], [all_windows_closed]) raises [TypeError] instead of
    giving a value. *)
Theorem lids_and_windows_without_source :
  forall (self : VehicleStatus) (p : dict) (l : log),
    properties self = JDict p ->
    lookup "doorsAndWindows" p = None ->
    lids self l = (Return None, l ++ [debug_record "lids"])
    /\ windows self l = (Return None, l ++ [debug_record "windows"])
    /\ open_lids self l = (Raise (builtin TypeError), l ++ [debug_record "lids"])
    /\ all_lids_closed self l
       = (Raise (builtin TypeError), l ++ [debug_record "lids"])
    /\ open_windows self l
       = (Raise (builtin TypeError), l ++ [debug_record "windows"])
    /\ all_windows_closed self l
       = (Raise (builtin TypeError), l ++ [debug_record "windows"]).
Proof.
  intros self p l Hp Hdw.
  assert (Hl : lids self l = (Return None, l ++ [debug_record "lids"])).
  { unfold lids.
    rewrite backend_parameter_entered by exact (guard_properties_is_dict _ _ Hp).
    unfold bind at 1. unfold lift at 1. rewrite Hp. cbn [getitem].
    rewrite Hdw. reflexivity. }
  assert (Hw : windows self l = (Return None, l ++ [debug_record "windows"])).
  { exact (windows_missing_container_is_None self p l Hp Hdw). }
  repeat split; try assumption.
  - unfold open_lids, bind. now rewrite Hl.
  - unfold all_lids_closed, open_lids, bind. now rewrite Hl.
  - unfold open_windows, bind. now rewrite Hw.
  - unfold all_windows_closed, open_windows, bind. now rewrite Hw.
Qed.

Lemma lids_and_windows_without_source_witness :
  all_lids_closed
    (mkVehicleStatus (JDict []) (JDict [("inMotion", JBool false)])) []
  = (Raise (builtin TypeError), [debug_record "lids"]).
Proof.
  exact (proj1 (proj2 (proj2 (proj2
           (lids_and_windows_without_source
              (mkVehicleStatus (JDict []) (JDict [("inMotion", JBool false)]))
              [("inMotion", JBool false)] [] eq_refl eq_refl))))).
Defined.

(** X6. When [doorsAndWindows] has no [doors] mapping, the hood and
    trunk entries (of recognised state) are lost with it: [lids] is
    [None] after one DEBUG record, and [all_lids_closed] raises
    [TypeError]. *)
Theorem lids_without_doors :
  forall (self : VehicleStatus) (dw : dict) (l : log),
    getitem (properties self) "doorsAndWindows" = Return (JDict dw) ->
    lookup "doors" dw = None ->
    (forall kv,
        In kv (filter (fun kv => (in_names (fst kv) ["hood"; "trunk"]
                                  && negb (eq_str (snd kv) "INVALID"))%bool) dw) ->
        unrecognized LidState_members LidState_value (snd kv) = false) ->
    lids self l = (Return None, l ++ [debug_record "lids"])
    /\ all_lids_closed self l
       = (Raise (builtin TypeError), l ++ [debug_record "lids"]).
Proof.
  intros self dw l Hdw Hdoors Hrec.
  assert (Hl : lids self l = (Return None, l ++ [debug_record "lids"])).
  { unfold lids.
    rewrite backend_parameter_entered by exact (guard_properties_dict _ _ _ Hdw).
    unfold bind at 1. unfold lift at 1. rewrite Hdw.
    unfold bind at 1. unfold lift at 1. cbn [items].
    unfold bind at 1.
    rewrite (list_comp_pure
               (fun kv => (in_names (fst kv) ["hood"; "trunk"]
                           && ne_str (snd kv) (LidState_value INVALID))%bool)
               (fun kv => Lid.init (fst kv) (snd kv)) dw l).
    change (fun kv : string * json =>
              (in_names (fst kv) ["hood"; "trunk"]
               && ne_str (snd kv) (LidState_value INVALID))%bool)
      with (fun kv : string * json =>
              (in_names (fst kv) ["hood"; "trunk"]
               && negb (eq_str (snd kv) "INVALID"))%bool).
    destruct (traverse_Lid_recognized _ Hrec) as [fixed Hfixed].
    rewrite Hfixed.
    unfold bind at 1. unfold lift at 1. cbn [getitem]. rewrite Hdoors.
    reflexivity. }
  split; [exact Hl|].
  unfold all_lids_closed, open_lids, bind. now rewrite Hl.
Qed.

Lemma lids_without_doors_witness :
  lids (mkVehicleStatus
          (JDict [])
          (JDict [("doorsAndWindows",
                   JDict [("hood", JStr "OPEN"); ("trunk", JStr "CLOSED")])]))
       []
  = (Return None, [debug_record "lids"]).
Proof.
  refine (proj1 (lids_without_doors
            (mkVehicleStatus
               (JDict [])
               (JDict [("doorsAndWindows",
                        JDict [("hood", JStr "OPEN");
                               ("trunk", JStr "CLOSED")])]))
            [("hood", JStr "OPEN"); ("trunk", JStr "CLOSED")] []
            eq_refl eq_refl _)).
  intros kv [<- | [<- | []]]; reflexivity.
Defined.

(** ** Check-control entries without a state *)

Lemma check_control_comp_raises (pre post : list json) (d : dict) (l : log) :
  Forall has_state pre ->
  lookup "state" d = None ->
  list_comp
    (fun m => st <- lift (getitem m "state") ;; ret (ne_str st "OK"))
    (fun m => ret (mkCheckControlMessage m)) (pre ++ JDict d :: post) l
  = (Raise (mkExn KeyError "state"), l).
Proof.
  intros Hpre Hd. induction Hpre as [|m ms [st Hst] _ IH].
  - cbn [app list_comp]. unfold bind, lift. cbn [getitem]. now rewrite Hd.
  - cbn [app list_comp]. unfold bind, lift, ret, ne_str in *. rewrite Hst.
    destruct (negb (eq_str st "OK")).
    + now rewrite IH.
    + exact IH.
Qed.

(** X7. One check-control entry without a [state] key voids the whole
    list, whatever the other entries are: [check_control_messages] is
    [None] after one DEBUG record, and [has_check_control_messages]
    raises [TypeError]. *)
Theorem check_control_entry_without_state :
  forall (self : VehicleStatus) (pre post : list json) (d : dict) (l : log),
    guard_passes self ->
    get (status self) "checkControlMessages" (JList [])
    = Return (JList (pre ++ JDict d :: post)) ->
    Forall has_state pre ->
    lookup "state" d = None ->
    check_control_messages self l
    = (Return None, l ++ [debug_record "check_control_messages"])
    /\ has_check_control_messages self l
       = (Raise (builtin TypeError),
          l ++ [debug_record "check_control_messages"]).
Proof.
  intros self pre post d l Hg Hget Hpre Hd.
  assert (Hccm : check_control_messages self l
    = (Return None, l ++ [debug_record "check_control_messages"])).
  { unfold check_control_messages. rewrite backend_parameter_entered by exact Hg.
    unfold bind at 1. unfold lift at 1. rewrite Hget.
    unfold bind at 1. unfold lift at 1. cbn [iter].
    unfold bind at 1.
    rewrite (check_control_comp_raises pre post d l Hpre Hd). reflexivity. }
  split; [exact Hccm|].
  unfold has_check_control_messages. rewrite backend_parameter_entered by exact Hg.
  unfold bind at 1. rewrite Hccm. reflexivity.
Qed.

Lemma check_control_entry_without_state_witness :
  check_control_messages
    (mkVehicleStatus
       (JDict [("checkControlMessages",
                JList [JDict [("state", JStr "CRITICAL")];
                       JDict [("id", JNum 7)]])])
       (JDict [])) []
  = (Return None, [debug_record "check_control_messages"]).
Proof.
  refine (proj1 (check_control_entry_without_state
            (mkVehicleStatus
               (JDict [("checkControlMessages",
                        JList [JDict [("state", JStr "CRITICAL")];
                               JDict [("id", JNum 7)]])])
               (JDict []))
            [JDict [("state", JStr "CRITICAL")]] [] [("id", JNum 7)] []
            eq_refl eq_refl _ eq_refl)).
  repeat constructor. eexists. reflexivity.
Defined.

(** ** Condition-based services *)

Lemma enum_call_recognized {E} (members : list E) (value_of : E -> string)
    (v : json) :
  unrecognized members value_of v = false ->
  exists m, enum_call members value_of v = Return m.
Proof.
  unfold enum_call, unrecognized. intros H.
  destruct (find _ members) as [m|] eqn:Hfind; [now exists m|].
  exfalso. rewrite <- not_true_iff_false in H. apply H.
  apply forallb_forall. intros m Hm.
  pose proof (find_none _ _ Hfind m Hm) as Hn. cbn in Hn. now rewrite Hn.
Qed.

(** What the constructor builds from a well-formed entry. *)
Lemma cbs_init_entry :
  forall (strptime : string -> string -> outcome datetime)
         (python_lt_37 : bool) (x : json) (l : log),
    only_ValueError strptime ->
    cbs_entry_ok x = true ->
    exists r l',
      ConditionBasedServiceReport.init strptime python_lt_37 x l
      = (Return r, l')
      /\ getitem x "status"
         = Return (JStr (ConditionBasedServiceStatus_value
                           (ConditionBasedServiceReport.state r)))
      /\ getitem x "type"
         = Return (ConditionBasedServiceReport.service_type r)
      /\ ConditionBasedServiceReport.due_distance r = expected_due_distance x
      /\ ConditionBasedServiceReport.description r = None
      /\ (exists dt,
             get x "dateTime" JNull = Return dt
             /\ Utils.parse_datetime strptime python_lt_37 dt l
                = (Return (ConditionBasedServiceReport.due_date r), l')).
Proof.
  intros strptime lt37 x l Hc Hok.
  destruct x as [| | | | |d]; try discriminate Hok.
  cbn [cbs_entry_ok] in Hok.
  apply andb_prop in Hok as [Hok Hdist].
  apply andb_prop in Hok as [Hok Htype].
  apply andb_prop in Hok as [Hdt Hst].
  destruct (lookup "status" d) as [st|] eqn:Est; [|discriminate].
  apply negb_true_iff in Hst.
  destruct (enum_call_recognized _ _ _ Hst) as [m Hm].
  destruct (lookup "type" d) as [ty|] eqn:Ety; [|discriminate].
  set (dt := match lookup "dateTime" d with Some v => v | None => JNull end).
  assert (Hget : get (JDict d) "dateTime" JNull = Return dt).
  { unfold dt. cbn [get]. destruct (lookup "dateTime" d); reflexivity. }
  assert (Hty : optional_str dt = true).
  { unfold dt. destruct (lookup "dateTime" d); [exact Hdt|reflexivity]. }
  destruct (parse_datetime_returns strptime lt37 dt l Hc Hty) as [due [l' Hdue]].
  exists (ConditionBasedServiceReport.mk due m ty
            (expected_due_distance (JDict d)) None), l'.
  split.
  - unfold ConditionBasedServiceReport.init.
    unfold bind at 1. unfold lift at 1. rewrite Hget.
    unfold bind at 1. rewrite Hdue.
    unfold bind at 1. unfold lift at 1. cbn [getitem]. rewrite Est.
    unfold bind at 1. unfold lift at 1.
    unfold ConditionBasedServiceStatus_call. rewrite Hm.
    unfold bind at 1. unfold lift at 1. rewrite Ety.
    unfold bind at 1. unfold lift at 1. cbn [contains].
    unfold expected_due_distance. cbn [getitem].
    destruct (lookup "distance" d) as [dist|] eqn:Edist.
    + unfold bind, lift, ret.
      destruct (getitem dist "value") as [v|]; [|discriminate].
      destruct (getitem dist "units") as [u|]; [|discriminate].
      reflexivity.
    + reflexivity.
  - cbn [ConditionBasedServiceReport.state
           ConditionBasedServiceReport.service_type
           ConditionBasedServiceReport.due_distance
           ConditionBasedServiceReport.description
           ConditionBasedServiceReport.due_date].
    repeat split.
    + cbn [getitem]. rewrite Est. f_equal.
      exact (enum_call_value _ _ _ _ Hm).
    + cbn [getitem]. now rewrite Ety.
    + exists dt. split; [exact Hget | exact Hdue].
Qed.

(** X8. From a well-formed service entry the constructor builds a
    report (given that [strptime] fails on strings with [ValueError]
    only): its state is the member whose value is the entry's status,
    its type is the entry's type, its due date is what the timestamp
    parser makes of the [dateTime] field ([None] when there is none), its
    due distance is the pair of value and units of the [distance] field,
    and [None] without that field, and its description is [None]. *)
Theorem cbs_report_of_entry :
  forall (strptime : string -> string -> outcome datetime)
         (python_lt_37 : bool) (x : json) (l : log),
    only_ValueError strptime ->
    cbs_entry_ok x = true ->
    exists r l',
      ConditionBasedServiceReport.init strptime python_lt_37 x l
      = (Return r, l')
      /\ getitem x "status"
         = Return (JStr (ConditionBasedServiceStatus_value
                           (ConditionBasedServiceReport.state r)))
      /\ getitem x "type"
         = Return (ConditionBasedServiceReport.service_type r)
      /\ ConditionBasedServiceReport.due_distance r = expected_due_distance x
      /\ ConditionBasedServiceReport.description r = None
      /\ (exists dt,
             get x "dateTime" JNull = Return dt
             /\ Utils.parse_datetime strptime python_lt_37 dt l
                = (Return (ConditionBasedServiceReport.due_date r), l')).
Proof.
  intros strptime lt37 x l Hc Hok.
  exact (cbs_init_entry strptime lt37 x l Hc Hok).
Qed.

Lemma cbs_report_of_entry_witness :
  exists r l',
    ConditionBasedServiceReport.init CPython.strptime false
      (JDict [("dateTime", JStr "2023-04-01T00:00:00.000Z");
              ("status", JStr "PENDING"); ("type", JStr "BRAKE_FLUID");
              ("distance", JDict [("value", JNum 12000);
                                  ("units", JStr "km")])]) []
    = (Return r, l')
    /\ ConditionBasedServiceReport.due_distance r
       = Some (JNum 12000, JStr "km").
Proof.
  destruct (cbs_report_of_entry CPython.strptime false
              (JDict [("dateTime", JStr "2023-04-01T00:00:00.000Z");
                      ("status", JStr "PENDING"); ("type", JStr "BRAKE_FLUID");
                      ("distance", JDict [("value", JNum 12000);
                                          ("units", JStr "km")])]) []
              CPython_strptime_only_ValueError eq_refl)
    as [r [l' [Hinit [_ [_ [Hdist _]]]]]].
  exists r, l'. split; [exact Hinit | exact Hdist].
Defined.

Lemma list_comp_raises_at {A B} (body : A -> M B) (P : exn -> Prop)
    (pre post : list A) (bad : A) :
  (forall x, In x pre -> forall l, exists b l', body x l = (Return b, l')) ->
  (forall l, exists e l', body bad l = (Raise e, l') /\ P e) ->
  forall l, exists e l',
    list_comp (fun _ => ret true) body (pre ++ bad :: post) l = (Raise e, l')
    /\ P e.
Proof.
  intros Hpre Hbad. induction pre as [|x pre IH]; intros l.
  - destruct (Hbad l) as [e [l' [He HP]]]. exists e, l'. split; [|exact HP].
    cbn [app list_comp]. unfold bind at 1. unfold ret at 1.
    unfold bind at 1. now rewrite He.
  - destruct (Hpre x (or_introl eq_refl) l) as [b [l1 Hb]].
    destruct (IH (fun y Hy => Hpre y (or_intror Hy)) l1) as [e [l' [He HP]]].
    exists e, l'. split; [|exact HP].
    cbn [app list_comp]. unfold bind at 1. unfold ret at 1.
    unfold bind at 1. rewrite Hb. unfold bind at 1. now rewrite He.
Qed.

(** The constructor on an entry without [status], or without [type]. *)
Lemma cbs_init_missing_key
    (strptime : string -> string -> outcome datetime) (python_lt_37 : bool)
    (d : dict) (l : log) :
  only_ValueError strptime ->
  match lookup "dateTime" d with
  | Some dt => optional_str dt = true
  | None => True
  end ->
  lookup "status" d = None
  \/ (exists st, lookup "status" d = Some st
                 /\ unrecognized ConditionBasedServiceStatus_members
                                 ConditionBasedServiceStatus_value st = false
                 /\ lookup "type" d = None) ->
  exists e l',
    ConditionBasedServiceReport.init strptime python_lt_37 (JDict d) l
    = (Raise e, l')
    /\ is_KeyError e = true.
Proof.
  intros Hc Hdt Hmiss.
  set (dt := match lookup "dateTime" d with Some v => v | None => JNull end).
  assert (Hget : get (JDict d) "dateTime" JNull = Return dt).
  { unfold dt. cbn [get]. destruct (lookup "dateTime" d); reflexivity. }
  assert (Hty : optional_str dt = true).
  { unfold dt. destruct (lookup "dateTime" d); [exact Hdt|reflexivity]. }
  destruct (parse_datetime_returns strptime python_lt_37 dt l Hc Hty)
    as [due [l' Hdue]].
  unfold ConditionBasedServiceReport.init.
  unfold bind at 1. unfold lift at 1. rewrite Hget.
  unfold bind at 1. rewrite Hdue.
  unfold bind at 1. unfold lift at 1. cbn [getitem].
  destruct Hmiss as [Hst | [st [Hst [Hrec Htype]]]]; rewrite Hst.
  - now exists (mkExn KeyError "status"), l'.
  - destruct (enum_call_recognized _ _ _ Hrec) as [m Hm].
    unfold bind at 1. unfold lift at 1.
    unfold ConditionBasedServiceStatus_call. rewrite Hm.
    unfold bind at 1. unfold lift at 1. rewrite Htype.
    now exists (mkExn KeyError "type"), l'.
Qed.

(** X9. One service entry without a [status] key, or with a recognised
    status and no [type] key, voids the whole list of condition-based
    services: when the entries before it are well-formed, the property
    is [None], with a DEBUG record as the last thing logged, whatever
    the entries after it are. *)
Theorem cbs_entry_without_key_voids_list :
  forall (strptime : string -> string -> outcome datetime)
         (python_lt_37 : bool) (self : VehicleStatus)
         (pre post : list json) (d : dict) (l : log),
    only_ValueError strptime ->
    guard_passes self ->
    getitem (properties self) "serviceRequired"
    = Return (JList (pre ++ JDict d :: post)) ->
    forallb cbs_entry_ok pre = true ->
    match lookup "dateTime" d with
    | Some dt => optional_str dt = true
    | None => True
    end ->
    lookup "status" d = None
    \/ (exists st, lookup "status" d = Some st
                   /\ unrecognized ConditionBasedServiceStatus_members
                                   ConditionBasedServiceStatus_value st = false
                   /\ lookup "type" d = None) ->
    exists l',
      condition_based_services strptime python_lt_37 self l
      = (Return None, l' ++ [debug_record "condition_based_services"]).
Proof.
  intros strptime lt37 self pre post d l Hc Hg Hget Hpre Hdt Hmiss.
  unfold condition_based_services.
  rewrite backend_parameter_entered by exact Hg.
  unfold bind at 1. unfold lift at 1. rewrite Hget.
  unfold bind at 1. unfold lift at 1. cbn [iter].
  destruct (list_comp_raises_at
              (ConditionBasedServiceReport.init strptime lt37)
              (fun e => is_KeyError e = true) pre post (JDict d)) with (l := l)
    as [e [l' [He Hk]]].
  - intros x Hx l0. rewrite forallb_forall in Hpre.
    destruct (cbs_init_entry strptime lt37 x l0 Hc (Hpre x Hx))
      as [r [l1 [Hr _]]].
    now exists r, l1.
  - intros l0. exact (cbs_init_missing_key strptime lt37 d l0 Hc Hdt Hmiss).
  - exists l'. unfold bind at 1. rewrite He, Hk. reflexivity.
Qed.

Lemma cbs_entry_without_key_voids_list_witness :
  exists l',
    condition_based_services CPython.strptime false
      (mkVehicleStatus
         (JDict [])
         (JDict [("serviceRequired",
                  JList [JDict [("status", JStr "OK"); ("type", JStr "OIL")];
                         JDict [("status", JStr "OVERDUE")]])])) []
    = (Return None, l' ++ [debug_record "condition_based_services"]).
Proof.
  refine (cbs_entry_without_key_voids_list CPython.strptime false
            (mkVehicleStatus
               (JDict [])
               (JDict [("serviceRequired",
                        JList [JDict [("status", JStr "OK");
                                      ("type", JStr "OIL")];
                               JDict [("status", JStr "OVERDUE")]])]))
            [JDict [("status", JStr "OK"); ("type", JStr "OIL")]] []
            [("status", JStr "OVERDUE")] []
            CPython_strptime_only_ValueError eq_refl eq_refl eq_refl I _).
  right. exists (JStr "OVERDUE"). repeat split.
Defined.

Lemma ConditionBasedServiceStatus_eqb_eq (a b : ConditionBasedServiceStatus) :
  ConditionBasedServiceStatus_eqb a b = true <-> a = b.
Proof.
  split; [|intros ->; destruct b; reflexivity].
  destruct a, b; cbn; intros H; try reflexivity; discriminate.
Qed.

(** X10. [are_all_cbs_ok] over the reports that
    [condition_based_services] returns is true exactly when the state of
    every report is OK, which holds of the empty list; it raises
    [TypeError] where the reports are [None], as they are when the
    properties have no [serviceRequired] entry. *)
Theorem are_all_cbs_ok_cases :
  forall (strptime : string -> string -> outcome datetime)
         (python_lt_37 : bool) (self : VehicleStatus) (l : log),
    (forall rs l',
        condition_based_services strptime python_lt_37 self l
        = (Return (Some rs), l') ->
        exists b,
          are_all_cbs_ok strptime python_lt_37 self l = (Return b, l')
          /\ (b = true <->
              Forall (fun r => ConditionBasedServiceReport.state r = OK) rs))
    /\ (forall p, properties self = JDict p ->
                  lookup "serviceRequired" p = Some (JList []) ->
                  are_all_cbs_ok strptime python_lt_37 self l = (Return true, l))
    /\ (forall p, properties self = JDict p ->
                  lookup "serviceRequired" p = None ->
                  condition_based_services strptime python_lt_37 self l
                  = (Return None, l ++ [debug_record "condition_based_services"])
                  /\ are_all_cbs_ok strptime python_lt_37 self l
                     = (Raise (builtin TypeError),
                        l ++ [debug_record "condition_based_services"])).
Proof.
  intros strptime lt37 self l. split; [|split].
  - intros rs l' Hrs. eexists. split.
    + unfold are_all_cbs_ok, bind. rewrite Hrs. reflexivity.
    + rewrite forallb_forall, Forall_forall.
      split; intros H r Hr.
      * now apply ConditionBasedServiceStatus_eqb_eq, H.
      * now apply ConditionBasedServiceStatus_eqb_eq, H.
  - intros p Hp Hs.
    unfold are_all_cbs_ok, condition_based_services.
    unfold bind at 1.
    rewrite backend_parameter_entered by exact (guard_properties_is_dict _ _ Hp).
    unfold bind at 1. unfold lift at 1. rewrite Hp. cbn [getitem]. rewrite Hs.
    reflexivity.
  - intros p Hp Hs.
    assert (Hcbs : condition_based_services strptime lt37 self l
                   = (Return None,
                      l ++ [debug_record "condition_based_services"])).
    { unfold condition_based_services.
      rewrite backend_parameter_entered
        by exact (guard_properties_is_dict _ _ Hp).
      unfold bind at 1. unfold lift at 1. rewrite Hp. cbn [getitem].
      rewrite Hs. reflexivity. }
    split; [exact Hcbs|].
    unfold are_all_cbs_ok, bind. rewrite Hcbs. reflexivity.
Qed.

Lemma are_all_cbs_ok_cases_witness :
  are_all_cbs_ok CPython.strptime false
    (mkVehicleStatus (JDict []) (JDict [("serviceRequired", JList [])])) []
  = (Return true, [])
  /\ are_all_cbs_ok CPython.strptime false
       (mkVehicleStatus (JDict []) (JDict [])) []
     = (Raise (builtin TypeError), [debug_record "condition_based_services"]).
Proof.
  split.
  - exact (proj1 (proj2 (are_all_cbs_ok_cases CPython.strptime false
             (mkVehicleStatus (JDict [])
                              (JDict [("serviceRequired", JList [])])) []))
             [("serviceRequired", JList [])] eq_refl eq_refl).
  - exact (proj2 (proj2 (proj2 (are_all_cbs_ok_cases CPython.strptime false
             (mkVehicleStatus (JDict []) (JDict [])) []))
             [] eq_refl eq_refl)).
Defined.

(** ** Ranges *)

Lemma or_zero_as_int (n : Z) : as_int (or_zero (JNum n)) = Some n.
Proof.
  unfold or_zero. cbn [truthy]. destruct (Z.eqb_spec n 0) as [->|_]; reflexivity.
Qed.

(** X11. With a complete combustion range of integral value, the total
    range carries the fuel unit, and its value is the fuel value when
    there is no [electricRange], and the sum of the two values when the
    electric range is complete and integral; nothing is logged. *)
Theorem remaining_range_total_fuel_present :
  forall (self : VehicleStatus) (p rf df : dict) (vf : Z) (uf : json) (l : log),
    properties self = JDict p ->
    lookup "combustionRange" p = Some (JDict rf) ->
    lookup "distance" rf = Some (JDict df) ->
    lookup "value" df = Some (JNum vf) ->
    lookup "units" df = Some uf ->
    (lookup "electricRange" p = None ->
     remaining_range_total self l = (Return (Some (JNum vf, uf)), l))
    /\ (forall (re de : dict) (ve : Z) (ue : json),
           lookup "electricRange" p = Some (JDict re) ->
           lookup "distance" re = Some (JDict de) ->
           lookup "value" de = Some (JNum ve) ->
           lookup "units" de = Some ue ->
           remaining_range_total self l
           = (Return (Some (JNum (vf + ve), uf)), l)).
Proof.
  intros self p rf df vf uf l Hp Hrf Hdf Hvf Huf.
  assert (Hfuel : forall l0,
             remaining_range_fuel self l0 = (Return (Some (JNum vf, uf)), l0)).
  { intros l0.
    exact (remaining_range_fuel_present self p rf df _ _ l0 Hp Hrf Hdf Hvf Huf). }
  split.
  - intros He.
    apply (remaining_range_total_of_pairs self (JNum vf, uf) (JNull, JNull)).
    + exact (guard_properties_is_dict _ _ Hp).
    + exact Hfuel.
    + intros l0. exact (remaining_range_electric_absent self p l0 Hp He).
    + cbn [fst]. unfold add. rewrite or_zero_as_int. cbn.
      now rewrite Z.add_0_r.
  - intros re de ve ue Hre Hde Hve Hue.
    exact (remaining_range_total_both_present self p rf df re de vf ve uf ue l
             Hp Hrf Hdf Hvf Huf Hre Hde Hve Hue).
Qed.

Lemma remaining_range_total_fuel_present_witness :
  remaining_range_total
    (mkVehicleStatus
       (JDict [])
       (JDict [("combustionRange",
                JDict [("distance",
                        JDict [("value", JNum 100); ("units", JStr "km")])])]))
    []
  = (Return (Some (JNum 100, JStr "km")), []).
Proof.
  exact (proj1 (remaining_range_total_fuel_present
                  (mkVehicleStatus
                     (JDict [])
                     (JDict [("combustionRange",
                              JDict [("distance",
                                      JDict [("value", JNum 100);
                                             ("units", JStr "km")])])]))
                  _ _ _ 100%Z (JStr "km") [] eq_refl eq_refl eq_refl eq_refl
                  eq_refl)
               eq_refl).
Defined.

Lemma remaining_range_fuel_incomplete (self : VehicleStatus) (p rf : dict)
    (l : log) :
  properties self = JDict p ->
  lookup "combustionRange" p = Some (JDict rf) ->
  lookup "distance" rf = None ->
  remaining_range_fuel self l
  = (Return None, l ++ [debug_record "remaining_range_fuel"]).
Proof.
  intros Hp Hr Hd. unfold remaining_range_fuel.
  rewrite backend_parameter_entered by exact (guard_properties_is_dict _ _ Hp).
  unfold bind, lift. rewrite Hp. cbn [contains getitem]. rewrite Hr.
  cbn [negb getitem]. rewrite Hd. reflexivity.
Qed.

Lemma remaining_range_electric_incomplete (self : VehicleStatus) (p re : dict)
    (l : log) :
  properties self = JDict p ->
  lookup "electricRange" p = Some (JDict re) ->
  lookup "distance" re = None ->
  remaining_range_electric self l
  = (Return None, l ++ [debug_record "remaining_range_electric"]).
Proof.
  intros Hp Hr Hd. unfold remaining_range_electric.
  rewrite backend_parameter_entered by exact (guard_properties_is_dict _ _ Hp).
  unfold bind, lift. rewrite Hp. cbn [contains getitem]. rewrite Hr.
  cbn [negb getitem]. rewrite Hd. reflexivity.
Qed.

(** X12. When the combustion range is there without its [distance], the
    fuel accessor is [None] each time it is read. The total then falls
    back on a complete electric range, value and unit, after three DEBUG
    records for the three reads of the fuel accessor; and when the
    electric range lacks its [distance] too, the total is the pair
    [(None, None)] after one DEBUG record for each accessor. *)
Theorem remaining_range_total_fuel_incomplete :
  forall (self : VehicleStatus) (p rf : dict) (l : log),
    properties self = JDict p ->
    lookup "combustionRange" p = Some (JDict rf) ->
    lookup "distance" rf = None ->
    (forall (re de : dict) (ve : Z) (ue : json),
        lookup "electricRange" p = Some (JDict re) ->
        lookup "distance" re = Some (JDict de) ->
        lookup "value" de = Some (JNum ve) ->
        lookup "units" de = Some ue ->
        remaining_range_total self l
        = (Return (Some (JNum ve, ue)),
           l ++ [debug_record "remaining_range_fuel";
                 debug_record "remaining_range_fuel";
                 debug_record "remaining_range_fuel"]))
    /\ (forall re : dict,
           lookup "electricRange" p = Some (JDict re) ->
           lookup "distance" re = None ->
           remaining_range_total self l
           = (Return (Some (JNull, JNull)),
              l ++ [debug_record "remaining_range_fuel";
                    debug_record "remaining_range_electric"])).
Proof.
  intros self p rf l Hp Hrf Hdf.
  pose proof (fun l0 => remaining_range_fuel_incomplete self p rf l0 Hp Hrf Hdf)
    as Hfuel.
  split.
  - intros re de ve ue Hre Hde Hve Hue.
    pose proof (fun l0 => remaining_range_electric_present self p re de _ _ l0
                            Hp Hre Hde Hve Hue) as Hel.
    unfold remaining_range_total.
    rewrite backend_parameter_entered by exact (guard_properties_is_dict _ _ Hp).
    unfold bind, ret, lift.
    rewrite Hfuel. cbn [truthy_tuple negb]. rewrite Hel.
    cbn [truthy_tuple negb]. rewrite Hfuel, Hel.
    cbn [first_or_zero]. unfold add. rewrite !or_zero_as_int.
    cbn [Z.add]. rewrite Hfuel.
    cbn [truthy_tuple]. rewrite Hel.
    rewrite <- !app_assoc. cbn [app]. reflexivity.
  - intros re Hre Hde.
    pose proof (fun l0 => remaining_range_electric_incomplete self p re l0
                            Hp Hre Hde) as Hel.
    unfold remaining_range_total.
    rewrite backend_parameter_entered by exact (guard_properties_is_dict _ _ Hp).
    unfold bind, ret, lift.
    rewrite Hfuel. cbn [truthy_tuple negb]. rewrite Hel.
    cbn [truthy_tuple negb].
    rewrite <- !app_assoc. cbn [app]. reflexivity.
Qed.

Lemma remaining_range_total_fuel_incomplete_witness :
  remaining_range_total
    (mkVehicleStatus
       (JDict [])
       (JDict [("combustionRange", JDict []);
               ("electricRange",
                JDict [("distance",
                        JDict [("value", JNum 30); ("units", JStr "km")])])]))
    []
  = (Return (Some (JNum 30, JStr "km")),
     [debug_record "remaining_range_fuel";
      debug_record "remaining_range_fuel";
      debug_record "remaining_range_fuel"]).
Proof.
  exact (proj1 (remaining_range_total_fuel_incomplete
                  (mkVehicleStatus
                     (JDict [])
                     (JDict [("combustionRange", JDict []);
                             ("electricRange",
                              JDict [("distance",
                                      JDict [("value", JNum 30);
                                             ("units", JStr "km")])])]))
                  _ [] [] eq_refl eq_refl eq_refl)
               _ _ 30%Z (JStr "km") eq_refl eq_refl eq_refl eq_refl).
Defined.

(** ** The timestamp of a snapshot *)

Lemma lex_compare_refl (a : list Z) : lex_compare a a = Eq.
Proof.
  induction a as [|x a IH]; [reflexivity|].
  cbn [lex_compare]. now rewrite Z.compare_refl.
Qed.

Lemma lex_compare_antisym (a b : list Z) :
  lex_compare b a = CompOpp (lex_compare a b).
Proof.
  revert b. induction a as [|x a IH]; intros [|y b]; try reflexivity.
  cbn [lex_compare]. rewrite (Z.compare_antisym x y).
  destruct (x ?= y)%Z; cbn; [apply IH | reflexivity | reflexivity].
Qed.

Lemma offset_eqb_refl (a : option Z) : offset_eqb a a = true.
Proof. destruct a; [apply Z.eqb_refl | reflexivity]. Qed.

Lemma offset_eqb_sym (a b : option Z) : offset_eqb a b = offset_eqb b a.
Proof. destruct a, b; try reflexivity. apply Z.eqb_sym. Qed.

Lemma datetime_cmp_refl (x : datetime) : datetime_cmp x x = Return Eq.
Proof.
  unfold datetime_cmp. now rewrite offset_eqb_refl, lex_compare_refl.
Qed.

Lemma datetime_cmp_antisym (x y : datetime) (c : comparison) :
  datetime_cmp x y = Return c -> datetime_cmp y x = Return (CompOpp c).
Proof.
  unfold datetime_cmp. rewrite (offset_eqb_sym (tzinfo y) (tzinfo x)).
  destruct (offset_eqb (tzinfo x) (tzinfo y)).
  - intros H. injection H as <-. now rewrite lex_compare_antisym.
  - destruct (tzinfo x) as [ox|], (tzinfo y) as [oy|]; try discriminate.
    intros H. injection H as <-. f_equal.
    assert (Hopp : (base_difference y x + ox - oy
                    = - (base_difference x y + oy - ox))%Z)
      by (unfold base_difference; ring).
    rewrite Hopp.
    destruct (base_difference x y + oy - ox)%Z; reflexivity.
Qed.

Lemma datetime_cmp_same_awareness (x y : datetime) :
  aware x = aware y -> exists c, datetime_cmp x y = Return c.
Proof.
  unfold aware, datetime_cmp.
  destruct (tzinfo x) as [ox|], (tzinfo y) as [oy|]; try discriminate;
    intros _; cbn [offset_eqb].
  - destruct (Z.eqb ox oy); now eexists.
  - now eexists.
Qed.

Lemma max2_raises (a b : option datetime) (e : exn) :
  max2 a b = Raise e -> e = builtin TypeError.
Proof.
  unfold max2, gt.
  destruct b as [y|], a as [x|]; try (intros H; now injection H).
  unfold datetime_cmp.
  destruct (offset_eqb (tzinfo y) (tzinfo x)).
  - destruct (lex_compare _ _); discriminate.
  - destruct (tzinfo y), (tzinfo x); try (intros H; now injection H).
    destruct (_ ?= 0)%Z; discriminate.
Qed.

(** X13. When both raw containers carry [lastUpdatedAt], the timestamp
    of the snapshot is [max] of the two parsed stamps, after whatever the
    parser logged. If either stamp did not parse (the parser gave
    [None]) the access raises [TypeError] instead of returning [None];
    if both parsed to datetimes that are both aware or both naive, the
    access returns one of the two, and neither of them is later than the
    one returned. *)
Theorem timestamp_of_two_stamps :
  forall (strptime : string -> string -> outcome datetime)
         (python_lt_37 : bool) (self : VehicleStatus) (p s : json)
         (a b : option datetime) (l l1 l2 : log),
    guard_passes self ->
    getitem (properties self) "lastUpdatedAt" = Return p ->
    getitem (status self) "lastUpdatedAt" = Return s ->
    Utils.parse_datetime strptime python_lt_37 p l = (Return a, l1) ->
    Utils.parse_datetime strptime python_lt_37 s l1 = (Return b, l2) ->
    timestamp strptime python_lt_37 self l = (max2 a b, l2)
    /\ (a = None \/ b = None -> max2 a b = Raise (builtin TypeError))
    /\ (forall x y, a = Some x -> b = Some y -> aware x = aware y ->
          exists r, max2 a b = Return (Some r)
                    /\ (r = x \/ r = y)
                    /\ gt (Some x) (Some r) = Return false
                    /\ gt (Some y) (Some r) = Return false).
Proof.
  intros strptime lt37 self p s a b l l1 l2 Hg Hp Hs Ha Hb.
  split; [|split].
  - unfold timestamp. rewrite backend_parameter_entered by exact Hg.
    unfold bind at 1. unfold lift at 1. rewrite Hp.
    unfold bind at 1. rewrite Ha.
    unfold bind at 1. unfold lift at 1. rewrite Hs.
    unfold bind at 1. rewrite Hb. unfold lift.
    destruct (max2 a b) as [r|e] eqn:Hm; [reflexivity|].
    now rewrite (max2_raises _ _ _ Hm).
  - intros [-> | ->]; [destruct b | destruct a]; reflexivity.
  - intros x y -> -> Haw.
    destruct (datetime_cmp_same_awareness y x (eq_sym Haw)) as [c Hc].
    pose proof (datetime_cmp_antisym y x c Hc) as Hc'.
    unfold max2, gt. rewrite Hc.
    destruct c.
    + exists x. rewrite datetime_cmp_refl, Hc. repeat split. now left.
    + exists x. rewrite datetime_cmp_refl, Hc. repeat split. now left.
    + exists y. rewrite datetime_cmp_refl, Hc'. repeat split. now right.
Qed.

Lemma timestamp_of_two_stamps_witness :
  timestamp CPython.strptime false
    (mkVehicleStatus
       (JDict [("lastUpdatedAt", JStr "2022-03-01T10:00:00Z")])
       (JDict [("lastUpdatedAt", JStr "2022-03-01T11:30:00+02:00")])) []
  = (Return (Some (mkDatetime 2022 3 1 10 0 0 0 (Some 0%Z))), []).
Proof.
  exact (proj1 (timestamp_of_two_stamps CPython.strptime false
                  (mkVehicleStatus
                     (JDict [("lastUpdatedAt", JStr "2022-03-01T10:00:00Z")])
                     (JDict [("lastUpdatedAt",
                              JStr "2022-03-01T11:30:00+02:00")]))
                  (JStr "2022-03-01T11:30:00+02:00")
                  (JStr "2022-03-01T10:00:00Z")
                  (Some (mkDatetime 2022 3 1 11 30 0 0 (Some 7200000000%Z)))
                  (Some (mkDatetime 2022 3 1 10 0 0 0 (Some 0%Z)))
                  [] [] [] eq_refl eq_refl eq_refl eq_refl eq_refl)).
Defined.

(** ** Position *)

Lemma is_vehicle_tracking_enabled_value (self : VehicleStatus) (p : dict)
    (l : log) :
  properties self = JDict p ->
  is_vehicle_tracking_enabled self l
  = (Return (Some (match lookup "vehicleLocation" p with
                   | Some _ => true
                   | None => false
                   end)), l).
Proof.
  intros Hp. unfold is_vehicle_tracking_enabled.
  rewrite backend_parameter_entered by exact (guard_properties_is_dict _ _ Hp).
  unfold bind, lift, ret. rewrite Hp. reflexivity.
Qed.

Lemma is_vehicle_active_value (self : VehicleStatus) (p : dict) (l : log) :
  properties self = JDict p ->
  is_vehicle_active self l
  = match lookup "inMotion" p with
    | Some v => (Return (Some v), l)
    | None => (Return None, l ++ [debug_record "is_vehicle_active"])
    end.
Proof.
  intros Hp. unfold is_vehicle_active.
  rewrite backend_parameter_entered by exact (guard_properties_is_dict _ _ Hp).
  unfold bind, lift, ret. rewrite Hp. cbn [getitem].
  destruct (lookup "inMotion" p); reflexivity.
Qed.

(** X14. The position is withheld, without reading it: with no
    [vehicleLocation] in the properties, [gps_position] and
    [gps_heading] return [None] after the warning that tracking is
    disabled; with a location and an [inMotion] value that is true in a
    condition, they return [None] after the warning that the vehicle was
    moving. *)
Theorem gps_withheld :
  forall (float : Type) (py_float : json -> outcome float)
         (py_int : json -> outcome Z)
         (self : VehicleStatus) (p : dict) (l : log),
    properties self = JDict p ->
    (lookup "vehicleLocation" p = None ->
     gps_position float py_float self l
     = (Return None, l ++ [mkLog WARNING "Vehicle tracking is disabled" []])
     /\ gps_heading py_int self l
        = (Return None, l ++ [mkLog WARNING "Vehicle tracking is disabled" []]))
    /\ (forall loc v,
           lookup "vehicleLocation" p = Some loc ->
           lookup "inMotion" p = Some v ->
           truthy v = true ->
           gps_position float py_float self l
           = (Return None,
              l ++ [mkLog WARNING
                      "Vehicle was moving at last update, no position available"
                      []])
           /\ gps_heading py_int self l
              = (Return None,
                 l ++ [mkLog WARNING
                         "Vehicle was moving at last update, no position available"
                         []])).
Proof.
  intros float py_float py_int self p l Hp.
  pose proof (guard_properties_is_dict _ _ Hp) as Hg.
  split.
  - intros Hloc. split.
    + unfold gps_position. rewrite backend_parameter_entered by exact Hg.
      unfold bind at 1.
      rewrite (is_vehicle_tracking_enabled_value self p l Hp), Hloc.
      reflexivity.
    + unfold gps_heading. rewrite backend_parameter_entered by exact Hg.
      unfold bind at 1.
      rewrite (is_vehicle_tracking_enabled_value self p l Hp), Hloc.
      reflexivity.
  - intros loc v Hloc Hv Htrue. split.
    + unfold gps_position. rewrite backend_parameter_entered by exact Hg.
      unfold bind at 1.
      rewrite (is_vehicle_tracking_enabled_value self p l Hp), Hloc.
      cbn [truthy_bool negb]. unfold bind at 1.
      rewrite (is_vehicle_active_value self p l Hp), Hv.
      cbn [truthy_value]. rewrite Htrue. reflexivity.
    + unfold gps_heading. rewrite backend_parameter_entered by exact Hg.
      unfold bind at 1.
      rewrite (is_vehicle_tracking_enabled_value self p l Hp), Hloc.
      cbn [truthy_bool negb]. unfold bind at 1.
      rewrite (is_vehicle_active_value self p l Hp), Hv.
      cbn [truthy_value]. rewrite Htrue. reflexivity.
Qed.

Lemma gps_withheld_witness :
  gps_heading (fun _ => Return 0%Z)
    (mkVehicleStatus (JDict []) (JDict [("inMotion", JBool false)])) []
  = (Return None, [mkLog WARNING "Vehicle tracking is disabled" []]).
Proof.
  exact (proj2 (proj1 (gps_withheld unit (fun _ => Return tt)
                         (fun _ => Return 0%Z)
                         (mkVehicleStatus (JDict [])
                                          (JDict [("inMotion", JBool false)]))
                         [("inMotion", JBool false)] [] eq_refl)
                      eq_refl)).
Defined.

(** X15. A snapshot with a location and no [inMotion] entry counts as
    not moving: the heading is read and converted, and the only trace
    of the missing entry is one DEBUG record. With an [inMotion] value
    that is false in a condition the heading is read the same way and
    nothing is logged. A failure of the conversion reaches the caller. *)
Theorem gps_heading_when_not_moving :
  forall (py_int : json -> outcome Z)
         (self : VehicleStatus) (p : dict) (loc h : json) (l : log),
    properties self = JDict p ->
    lookup "vehicleLocation" p = Some loc ->
    getitem loc "heading" = Return h ->
    (lookup "inMotion" p = None ->
     gps_heading py_int self l
     = match py_int h with
       | Return n => (Return (Some n), l ++ [debug_record "is_vehicle_active"])
       | Raise e =>
           if is_KeyError e
           then (Return None, l ++ [debug_record "is_vehicle_active";
                                    debug_record "gps_heading"])
           else (Raise e, l ++ [debug_record "is_vehicle_active"])
       end)
    /\ (forall v, lookup "inMotion" p = Some v -> truthy v = false ->
          gps_heading py_int self l
          = match py_int h with
            | Return n => (Return (Some n), l)
            | Raise e =>
                if is_KeyError e
                then (Return None, l ++ [debug_record "gps_heading"])
                else (Raise e, l)
            end).
Proof.
  intros py_int self p loc h l Hp Hloc Hh.
  pose proof (guard_properties_is_dict _ _ Hp) as Hg.
  split.
  - intros Hm. unfold gps_heading. rewrite backend_parameter_entered by exact Hg.
    unfold bind at 1.
    rewrite (is_vehicle_tracking_enabled_value self p l Hp), Hloc.
    cbn [truthy_bool negb]. unfold bind at 1.
    rewrite (is_vehicle_active_value self p l Hp), Hm.
    cbn [truthy_value]. unfold bind, lift, ret. rewrite Hp. cbn [getitem].
    rewrite Hloc, Hh.
    destruct (py_int h) as [n|e]; [reflexivity|].
    destruct (is_KeyError e); [|reflexivity].
    rewrite <- app_assoc. reflexivity.
  - intros v Hv Hfalse. unfold gps_heading.
    rewrite backend_parameter_entered by exact Hg.
    unfold bind at 1.
    rewrite (is_vehicle_tracking_enabled_value self p l Hp), Hloc.
    cbn [truthy_bool negb]. unfold bind at 1.
    rewrite (is_vehicle_active_value self p l Hp), Hv.
    cbn [truthy_value]. rewrite Hfalse.
    unfold bind, lift, ret. rewrite Hp. cbn [getitem].
    rewrite Hloc, Hh.
    destruct (py_int h) as [n|e]; reflexivity.
Qed.

Lemma gps_heading_when_not_moving_witness :
  gps_heading (fun v => match v with
                        | JNum n => Return n
                        | _ => Raise (builtin TypeError)
                        end)
    (mkVehicleStatus
       (JDict [])
       (JDict [("vehicleLocation", JDict [("heading", JNum 270)])])) []
  = (Return (Some 270%Z), [debug_record "is_vehicle_active"]).
Proof.
  exact (proj1 (gps_heading_when_not_moving
                  (fun v => match v with
                            | JNum n => Return n
                            | _ => Raise (builtin TypeError)
                            end)
                  (mkVehicleStatus
                     (JDict [])
                     (JDict [("vehicleLocation",
                              JDict [("heading", JNum 270)])]))
                  _ (JDict [("heading", JNum 270)]) (JNum 270) []
                  eq_refl eq_refl eq_refl)
               eq_refl).
Defined.

(** ** Charging *)

(** X16. [connection_status] gives nothing but ["CONNECTED"],
    ["DISCONNECTED"] or [None]. Without a [chargingState] entry it is
    [None] and nothing is logged; with one, the truth value of
    [isChargerConnected] decides between the two strings. *)
Theorem connection_status_values :
  forall (self : VehicleStatus) (l : log),
    (forall r l', connection_status self l = (Return r, l') ->
       r = None \/ r = Some "CONNECTED" \/ r = Some "DISCONNECTED")
    /\ (forall p, properties self = JDict p ->
                  lookup "chargingState" p = None ->
                  connection_status self l = (Return None, l))
    /\ (forall p c v, properties self = JDict p ->
                      lookup "chargingState" p = Some c ->
                      getitem c "isChargerConnected" = Return v ->
                      connection_status self l
                      = (Return (Some (if truthy v then "CONNECTED"
                                       else "DISCONNECTED")), l)).
Proof.
  intros self l. split; [|split].
  - intros r l'. unfold connection_status, backend_parameter.
    destruct (is_None (properties self) && truthy (status self))%bool;
      [discriminate|].
    unfold try_except, bind, lift, ret, raise.
    destruct (contains "chargingState" (properties self)) as [present|e].
    + destruct present; cbn [negb].
      * destruct (getitem (properties self) "chargingState") as [c|e].
        -- destruct (getitem c "isChargerConnected") as [v|e].
           ++ intros H. injection H as <- _. destruct (truthy v); auto.
           ++ destruct (is_KeyError e); unfold emit; cbn;
                intros H; try discriminate. injection H as <- _. auto.
        -- destruct (is_KeyError e); unfold emit; cbn;
             intros H; try discriminate. injection H as <- _. auto.
      * intros H. injection H as <- _. auto.
    + destruct (is_KeyError e); unfold emit; cbn;
        intros H; try discriminate. injection H as <- _. auto.
  - intros p Hp Hc. unfold connection_status.
    rewrite backend_parameter_entered by exact (guard_properties_is_dict _ _ Hp).
    unfold bind, lift, ret. rewrite Hp. cbn [contains]. rewrite Hc.
    reflexivity.
  - intros p c v Hp Hc Hv. unfold connection_status.
    rewrite backend_parameter_entered by exact (guard_properties_is_dict _ _ Hp).
    unfold bind, lift, ret. rewrite Hp. cbn [contains getitem]. rewrite Hc.
    cbn [negb]. rewrite Hv. reflexivity.
Qed.

Lemma connection_status_values_witness :
  connection_status
    (mkVehicleStatus
       (JDict [])
       (JDict [("chargingState",
                JDict [("isChargerConnected", JStr "no")])])) []
  = (Return (Some "CONNECTED"), []).
Proof.
  exact (proj2 (proj2 (connection_status_values
                         (mkVehicleStatus
                            (JDict [])
                            (JDict [("chargingState",
                                     JDict [("isChargerConnected",
                                             JStr "no")])])) []))
               _ _ (JStr "no") eq_refl eq_refl eq_refl).
Defined.

(** X17. [charging_status] without a [chargingState] entry is [None],
    and nothing is logged; with one, a [state] that is the value of a
    member of [ChargingState] gives that member, and a [state] that is
    the value of none raises [ValueError]. *)
Theorem charging_status_cases :
  forall (self : VehicleStatus) (p : dict) (l : log),
    properties self = JDict p ->
    (lookup "chargingState" p = None ->
     charging_status self l = (Return None, l))
    /\ (forall c m, lookup "chargingState" p = Some c ->
                    getitem c "state" = Return (JStr (ChargingState.value m)) ->
                    charging_status self l = (Return (Some m), l))
    /\ (forall c raw, lookup "chargingState" p = Some c ->
                      getitem c "state" = Return raw ->
                      unrecognized ChargingState.members ChargingState.value raw
                      = true ->
                      charging_status self l = (Raise (builtin ValueError), l)).
Proof.
  intros self p l Hp.
  pose proof (guard_properties_is_dict _ _ Hp) as Hg.
  split; [|split].
  - intros Hc. unfold charging_status.
    rewrite backend_parameter_entered by exact Hg.
    unfold bind, lift, ret. rewrite Hp. cbn [contains]. rewrite Hc.
    reflexivity.
  - intros c m Hc Hs. unfold charging_status.
    rewrite backend_parameter_entered by exact Hg.
    unfold bind, lift, ret. rewrite Hp. cbn [contains getitem]. rewrite Hc.
    cbn [negb]. rewrite Hs. destruct m; reflexivity.
  - intros c raw Hc Hs Hun. unfold charging_status.
    rewrite backend_parameter_entered by exact Hg.
    unfold bind, lift, ret. rewrite Hp. cbn [contains getitem]. rewrite Hc.
    cbn [negb]. rewrite Hs. unfold ChargingState.call.
    rewrite (enum_call_unrecognized _ _ _ Hun). reflexivity.
Qed.

Lemma charging_status_cases_witness :
  charging_status
    (mkVehicleStatus
       (JDict [])
       (JDict [("chargingState", JDict [("state", JStr "PLUGGED_IN")])])) []
  = (Raise (builtin ValueError), []).
Proof.
  exact (proj2 (proj2 (charging_status_cases
                         (mkVehicleStatus
                            (JDict [])
                            (JDict [("chargingState",
                                     JDict [("state", JStr "PLUGGED_IN")])]))
                         _ [] eq_refl))
               _ (JStr "PLUGGED_IN") eq_refl eq_refl eq_refl).
Defined.

(** ** More on the timestamp parser *)

Lemma try_formats_some
    (strptime : string -> string -> outcome datetime) (python_lt_37 : bool)
    (v : json) (formats : list string) (d : datetime) (l l' : log) :
  Utils.try_formats strptime python_lt_37 v formats l = (Return (Some d), l') ->
  exists s f d0,
    v = JStr s /\ In f formats /\ strptime s f = Return d0
    /\ d = (if python_lt_37 then replace_tzinfo d0 utc else d0)
    /\ l' = l.
Proof.
  revert l. induction formats as [|f rest IH]; intros l; cbn [Utils.try_formats].
  - discriminate.
  - unfold try_except, bind, lift, ret, Utils.strptime_any.
    destruct v as [| | |s| |];
      try (cbn; discriminate).
    destruct (strptime s f) as [d0|e] eqn:Hf.
    + intros H. injection H as <- <-.
      exists s, f, d0. repeat split; [now left | exact Hf].
    + destruct (is_ValueError e); [|discriminate].
      intros H. destruct (IH l H) as [s' [f' [d0 [Hs [Hin [Hf' [Hd Hl]]]]]]].
      exists s', f', d0. repeat split; try assumption. now right.
Qed.

(** X18. A datetime returned by [parse_datetime] is never made up: the
    input was a non-empty string, one of the four formats parsed it, and
    the datetime is what [strptime] built for that format, with UTC put
    in place of its [tzinfo] when the interpreter is older than Python
    3.7 (so that every datetime returned there has the UTC [tzinfo],
    whatever offset the string carried); nothing was logged. *)
Theorem parse_datetime_result_provenance :
  forall (strptime : string -> string -> outcome datetime)
         (python_lt_37 : bool) (v : json) (d : datetime) (l l' : log),
    Utils.parse_datetime strptime python_lt_37 v l = (Return (Some d), l') ->
    exists s f d0,
      v = JStr s /\ s <> "" /\ In f Utils.date_formats
      /\ strptime s f = Return d0
      /\ d = (if python_lt_37 then replace_tzinfo d0 utc else d0)
      /\ l' = l
      /\ (python_lt_37 = true -> tzinfo d = Some utc).
Proof.
  intros strptime lt37 v d l l'. unfold Utils.parse_datetime.
  destruct (truthy v) eqn:Htruthy; cbn [negb]; [|discriminate].
  unfold bind.
  destruct (Utils.try_formats strptime lt37 v Utils.date_formats l)
    as [[[d1|]|e] l1] eqn:Htry; try discriminate.
  intros H. injection H as <- <-.
  destruct (try_formats_some _ _ _ _ _ _ _ Htry)
    as [s [f [d0 [Hs [Hin [Hf [Hd Hl]]]]]]].
  exists s, f, d0. repeat split; try assumption.
  - intros ->. subst v. discriminate.
  - intros ->. subst d1. reflexivity.
Qed.

Lemma parse_datetime_result_provenance_witness :
  exists s f d0,
    JStr "2021-06-01T12:30:00+0200" = JStr s /\ s <> ""
    /\ In f Utils.date_formats
    /\ CPython.strptime s f = Return d0
    /\ replace_tzinfo (mkDatetime 2021 6 1 12 30 0 0 (Some 7200000000%Z)) utc
       = replace_tzinfo d0 utc
    /\ ([] : log) = []
    /\ (true = true ->
        tzinfo (replace_tzinfo
                  (mkDatetime 2021 6 1 12 30 0 0 (Some 7200000000%Z)) utc)
        = Some utc).
Proof.
  refine (parse_datetime_result_provenance CPython.strptime true
            (JStr "2021-06-01T12:30:00+0200")
            (replace_tzinfo (mkDatetime 2021 6 1 12 30 0 0 (Some 7200000000%Z))
                            utc) [] [] _).
  vm_compute. reflexivity.
Defined.

(** X19. What [parse_datetime] logs for a string (given that [strptime]
    fails on strings with [ValueError] only): one ERROR record naming the
    string when it returns [None] for a non-empty string, and nothing in
    every other case. *)
Theorem parse_datetime_log_discipline :
  forall (strptime : string -> string -> outcome datetime)
         (python_lt_37 : bool) (s : string) (l : log),
    only_ValueError strptime ->
    exists r,
      Utils.parse_datetime strptime python_lt_37 (JStr s) l
      = (Return r,
         match r with
         | Some _ => l
         | None => if String.eqb s "" then l else l ++ [parse_error_record s]
         end).
Proof.
  intros strptime lt37 s l Hc. unfold Utils.parse_datetime. cbn [truthy].
  destruct (String.eqb s "") eqn:Hs; cbn [negb].
  - now exists None.
  - destruct (try_formats_returns strptime lt37 s Utils.date_formats l Hc)
      as [r Hr].
    unfold bind. rewrite Hr. destruct r as [d|].
    + now exists (Some d).
    + now exists None.
Qed.

Lemma parse_datetime_log_discipline_witness :
  exists r,
    Utils.parse_datetime CPython.strptime false (JStr "None") []
    = (Return r,
       match r with
       | Some _ => []
       | None => [parse_error_record "None"]
       end).
Proof.
  exact (parse_datetime_log_discipline CPython.strptime false "None" []
           CPython_strptime_only_ValueError).
Defined.

(** X20. On a value that is neither [None] nor a string, [parse_datetime]
    returns [None] without logging when the value is false in a
    condition ([0], [False], an empty list or mapping), and lets the
    [TypeError] of [strptime] out when it is true. *)
Theorem parse_datetime_non_string :
  forall (strptime : string -> string -> outcome datetime)
         (python_lt_37 : bool) (v : json) (l : log),
    optional_str v = false ->
    Utils.parse_datetime strptime python_lt_37 v l
    = if truthy v then (Raise (builtin TypeError), l) else (Return None, l).
Proof.
  intros strptime lt37 v l Hv. unfold Utils.parse_datetime.
  destruct v as [|b|n| |xs|d]; try discriminate Hv;
    destruct (truthy _); reflexivity.
Qed.

Lemma parse_datetime_non_string_witness :
  Utils.parse_datetime CPython.strptime false (JNum 1654041600) []
  = (Raise (builtin TypeError), []).
Proof.
  exact (parse_datetime_non_string CPython.strptime false (JNum 1654041600) []
           eq_refl).
Defined.

(** ** The combined data of a vehicle *)

Lemma lookup_setitem_eq (k : string) (v : Vehicle.value) (d : Vehicle.data) :
  Vehicle.lookup_value k (Vehicle.setitem k v d) = Some v.
Proof.
  induction d as [|[k' v'] d IH]; cbn.
  - now rewrite String.eqb_refl.
  - destruct (String.eqb k k') eqn:E; cbn.
    + now rewrite String.eqb_refl.
    + now rewrite E.
Qed.

Lemma lookup_setitem_neq (k k' : string) (v : Vehicle.value)
    (d : Vehicle.data) :
  k <> k' ->
  Vehicle.lookup_value k (Vehicle.setitem k' v d) = Vehicle.lookup_value k d.
Proof.
  intros Hne. apply String.eqb_neq in Hne.
  induction d as [|[k0 v0] d IH]; cbn.
  - now rewrite Hne.
  - destruct (String.eqb k' k0) eqn:E; cbn.
    + apply String.eqb_eq in E. subst k0. now rewrite Hne.
    + destruct (String.eqb k k0); [reflexivity | exact IH].
Qed.

Lemma lookup_not_in (k : string) (its : dict) :
  ~ In k (map fst its) -> lookup k its = None.
Proof.
  induction its as [|[k0 v0] its IH]; [reflexivity|].
  cbn. intros Hn. destruct (String.eqb_spec k k0) as [->|_].
  - exfalso. apply Hn. now left.
  - apply IH. intros Hin. apply Hn. now right.
Qed.

Lemma lookup_update (k : string) (its : dict) (d : Vehicle.data) :
  NoDup (map fst its) ->
  Vehicle.lookup_value k (Vehicle.update d its)
  = match lookup k its with
    | Some v => Some (Vehicle.VJson v)
    | None => Vehicle.lookup_value k d
    end.
Proof.
  unfold Vehicle.update. revert d.
  induction its as [|[k0 v0] its IH]; intros d Hnd; [reflexivity|].
  cbn [fold_left fst snd map] in *. inversion Hnd as [|? ? Hnotin Hnd']; subst.
  rewrite (IH _ Hnd'). cbn [lookup].
  destruct (String.eqb_spec k k0) as [->|Hne].
  - rewrite (lookup_not_in k0 its Hnotin). apply lookup_setitem_eq.
  - destruct (lookup k its); [reflexivity|].
    now apply lookup_setitem_neq.
Qed.

(** X21. What a key gives in the combined data, the payloads being
    mappings (no key twice): the fetch time under ["fetched_at"] (the
    one passed, else the current time) and the unit system of the
    account under ["is_metric"], whatever the payloads hold under those
    keys; the charging settings (an empty mapping when there are none)
    under their key; and for any other key the value of the state
    payload when it has the key, else the value of the base payload. *)
Theorem combine_data_lookup :
  forall (ATTR_CHARGING_SETTINGS : string) (use_metric_units : bool)
         (now : datetime) (vehicle_base : dict)
         (vehicle_state charging_settings : option dict)
         (fetched_at : option datetime),
    NoDup (map fst vehicle_base) ->
    NoDup (map fst (Vehicle.or_empty vehicle_state)) ->
    let combined :=
      Vehicle.combine_data ATTR_CHARGING_SETTINGS use_metric_units now
        vehicle_base vehicle_state charging_settings fetched_at in
    Vehicle.lookup_value "fetched_at" combined
    = Some (Vehicle.VDatetime
              (match fetched_at with Some t => t | None => now end))
    /\ Vehicle.lookup_value "is_metric" combined
       = Some (Vehicle.VJson (JBool use_metric_units))
    /\ (ATTR_CHARGING_SETTINGS <> "is_metric" ->
        ATTR_CHARGING_SETTINGS <> "fetched_at" ->
        Vehicle.lookup_value ATTR_CHARGING_SETTINGS combined
        = Some (Vehicle.VJson (JDict (Vehicle.or_empty charging_settings))))
    /\ (forall k,
           k <> ATTR_CHARGING_SETTINGS -> k <> "is_metric" ->
           k <> "fetched_at" ->
           Vehicle.lookup_value k combined
           = match lookup k (Vehicle.or_empty vehicle_state) with
             | Some v => Some (Vehicle.VJson v)
             | None =>
                 match lookup k vehicle_base with
                 | Some v => Some (Vehicle.VJson v)
                 | None => None
                 end
             end).
Proof.
  intros cs metric now base state settings fetched Hbase Hstate combined.
  subst combined. unfold Vehicle.combine_data.
  split; [apply lookup_setitem_eq|].
  split; [rewrite lookup_setitem_neq by discriminate; apply lookup_setitem_eq|].
  split.
  - intros H1 H2.
    rewrite lookup_setitem_neq by exact H2.
    rewrite lookup_setitem_neq by exact H1.
    apply lookup_setitem_eq.
  - intros k H1 H2 H3.
    rewrite lookup_setitem_neq by exact H3.
    rewrite lookup_setitem_neq by exact H2.
    rewrite lookup_setitem_neq by exact H1.
    rewrite (lookup_update k _ _ Hstate).
    destruct (lookup k (Vehicle.or_empty state)); [reflexivity|].
    rewrite (lookup_update k _ _ Hbase).
    destruct (lookup k base); reflexivity.
Qed.

Lemma combine_data_lookup_witness :
  Vehicle.lookup_value "is_metric"
    (Vehicle.combine_data "charging_settings" false
       (mkDatetime 2024 1 1 0 0 0 0 (Some 0%Z))
       [("vin", JStr "WBA0"); ("is_metric", JStr "yes")]
       (Some [("state", JDict [])]) None None)
  = Some (Vehicle.VJson (JBool false)).
Proof.
  refine (proj1 (proj2 (combine_data_lookup "charging_settings" false
                          (mkDatetime 2024 1 1 0 0 0 0 (Some 0%Z))
                          [("vin", JStr "WBA0"); ("is_metric", JStr "yes")]
                          (Some [("state", JDict [])]) None None _ _))).
  - repeat constructor; cbn; intuition discriminate.
  - repeat constructor; cbn; intuition discriminate.
Defined.

(** X23. The mileage read from combined data carries the unit of the
    account, ["km"] for metric units and ["mi"] otherwise, whatever the
    payloads say under ["is_metric"]; its value is the [currentMileage]
    of the state mapping, and [0] when the mapping has none. *)
Theorem mileage_of_combined_data :
  forall (ATTR_CHARGING_SETTINGS ATTR_STATE : string)
         (use_metric_units : bool) (now : datetime) (vehicle_base : dict)
         (vehicle_state charging_settings : option dict)
         (fetched_at : option datetime) (st : dict),
    Vehicle.lookup_value ATTR_STATE
      (Vehicle.combine_data ATTR_CHARGING_SETTINGS use_metric_units now
         vehicle_base vehicle_state charging_settings fetched_at)
    = Some (Vehicle.VJson (JDict st)) ->
    Vehicle.mileage ATTR_STATE
      (Vehicle.combine_data ATTR_CHARGING_SETTINGS use_metric_units now
         vehicle_base vehicle_state charging_settings fetched_at)
    = Return (match lookup "currentMileage" st with
              | Some m => m
              | None => JNum 0
              end,
              if use_metric_units then "km" else "mi").
Proof.
  intros cs state_key metric now base state settings fetched st Hst.
  unfold Vehicle.mileage, Vehicle.data_getitem. rewrite Hst.
  cbn [Vehicle.then_ Vehicle.value_get get].
  assert (Hm : Vehicle.lookup_value "is_metric"
                 (Vehicle.combine_data cs metric now base state settings fetched)
               = Some (Vehicle.VJson (JBool metric))).
  { unfold Vehicle.combine_data.
    rewrite lookup_setitem_neq by discriminate. apply lookup_setitem_eq. }
  destruct (lookup "currentMileage" st); cbn [Vehicle.then_]; rewrite Hm;
    reflexivity.
Qed.

Lemma mileage_of_combined_data_witness :
  Vehicle.mileage "state"
    (Vehicle.combine_data "charging_settings" false
       (mkDatetime 2024 1 1 0 0 0 0 (Some 0%Z))
       [("vin", JStr "WBA0"); ("is_metric", JBool true)]
       (Some [("state", JDict [("currentMileage", JNum 4711)])]) None None)
  = Return (JNum 4711, "mi").
Proof.
  exact (mileage_of_combined_data "charging_settings" "state" false
           (mkDatetime 2024 1 1 0 0 0 0 (Some 0%Z))
           [("vin", JStr "WBA0"); ("is_metric", JBool true)]
           (Some [("state", JDict [("currentMileage", JNum 4711)])]) None None
           [("currentMileage", JNum 4711)] eq_refl).
Defined.

(** ** Capabilities and attribute lists of a vehicle *)

(** X24. Asking whether charging can be started or stopped never fails
    on a capabilities mapping that lacks a nesting level: without
    [remoteChargingCommands], or without [chargingControl] under it, the
    answer is [False] for both; with a list of commands the answer is
    whether ["START"], respectively ["STOP"], is in the list. *)
Theorem charging_control_defaults :
  forall (ATTR_CAPABILITIES : string) (self : Vehicle.data) (c : dict),
    Vehicle.lookup_value ATTR_CAPABILITIES self
    = Some (Vehicle.VJson (JDict c)) ->
    (lookup "remoteChargingCommands" c = None ->
     Vehicle.is_remote_charge_start_enabled ATTR_CAPABILITIES self
     = Return false
     /\ Vehicle.is_remote_charge_stop_enabled ATTR_CAPABILITIES self
        = Return false)
    /\ (forall r,
           lookup "remoteChargingCommands" c = Some (JDict r) ->
           lookup "chargingControl" r = None ->
           Vehicle.is_remote_charge_start_enabled ATTR_CAPABILITIES self
           = Return false
           /\ Vehicle.is_remote_charge_stop_enabled ATTR_CAPABILITIES self
              = Return false)
    /\ (forall r cmds,
           lookup "remoteChargingCommands" c = Some (JDict r) ->
           lookup "chargingControl" r = Some (JList cmds) ->
           Vehicle.is_remote_charge_start_enabled ATTR_CAPABILITIES self
           = Return (existsb (fun x => eq_str x "START") cmds)
           /\ Vehicle.is_remote_charge_stop_enabled ATTR_CAPABILITIES self
              = Return (existsb (fun x => eq_str x "STOP") cmds)).
Proof.
  intros caps self c Hc.
  unfold Vehicle.is_remote_charge_start_enabled,
    Vehicle.is_remote_charge_stop_enabled, Vehicle.charging_control,
    Vehicle.data_getitem.
  rewrite Hc. cbn [Vehicle.then_ Vehicle.value_get get].
  split; [|split].
  - intros ->. split; reflexivity.
  - intros r -> Hr. cbn [Vehicle.then_ get]. rewrite Hr. split; reflexivity.
  - intros r cmds -> Hr. cbn [Vehicle.then_ get]. rewrite Hr.
    split; reflexivity.
Qed.

Lemma charging_control_defaults_witness :
  Vehicle.is_remote_charge_start_enabled "capabilities"
    [("capabilities",
      Vehicle.VJson
        (JDict [("remoteChargingCommands",
                 JDict [("chargingControl",
                         JList [JStr "START"; JStr "STOP"])])]))]
  = Return true.
Proof.
  exact (proj1 (proj2 (proj2 (charging_control_defaults "capabilities"
                                [("capabilities",
                                  Vehicle.VJson
                                    (JDict [("remoteChargingCommands",
                                             JDict [("chargingControl",
                                                     JList [JStr "START";
                                                            JStr "STOP"])])]))]
                                _ eq_refl))
                      _ [JStr "START"; JStr "STOP"] eq_refl eq_refl)).
Defined.

Lemma nodupb_sound (xs : list string) : nodupb xs = true -> NoDup xs.
Proof.
  induction xs as [|x xs IH]; cbn [nodupb]; intros H; constructor.
  - apply andb_prop in H as [H _]. apply negb_true_iff in H.
    intros Hin.
    assert (existsb (String.eqb x) xs = true); [|congruence].
    apply existsb_exists. exists x. split; [exact Hin | apply String.eqb_refl].
  - apply andb_prop in H as [_ H]. now apply IH.
Qed.

(** X25. Whatever the drive train, a list of available attributes that
    is returned names no attribute twice and starts with
    ["gps_position"] and ["vin"]; it is just these two when
    [isLscSupported] is false in a condition, and otherwise they are
    followed by the drive-train attributes and the six attributes of the
    state. *)
Theorem available_attributes_shape :
  forall (ATTR_ATTRIBUTES ATTR_STATE : string) (DriveTrainType : Type)
         (DriveTrainType_call : json -> outcome DriveTrainType)
         (HV_BATTERY_DRIVE_TRAINS COMBUSTION_ENGINE_DRIVE_TRAINS
          : DriveTrainType -> bool)
         (self : Vehicle.data) (r : list string),
    Vehicle.available_attributes ATTR_ATTRIBUTES ATTR_STATE DriveTrainType
      DriveTrainType_call HV_BATTERY_DRIVE_TRAINS
      COMBUSTION_ENGINE_DRIVE_TRAINS self = Return r ->
    NoDup r
    /\ (exists rest, r = "gps_position" :: "vin" :: rest)
    /\ exists lsc,
        Vehicle.is_lsc_enabled ATTR_STATE self = Return lsc
        /\ if truthy lsc then
             exists dta,
               Vehicle.drive_train_attributes ATTR_ATTRIBUTES DriveTrainType
                 DriveTrainType_call HV_BATTERY_DRIVE_TRAINS
                 COMBUSTION_ENGINE_DRIVE_TRAINS self = Return dta
               /\ r = ["gps_position"; "vin"] ++ dta
                      ++ ["condition_based_services"; "check_control_messages";
                          "door_lock_state"; "timestamp"; "lids"; "windows"]
           else r = ["gps_position"; "vin"].
Proof.
  intros aa st DT call HV COMB self r.
  unfold Vehicle.available_attributes.
  destruct (Vehicle.is_lsc_enabled st self) as [lsc|e]; cbn [Vehicle.then_];
    [|discriminate].
  destruct (truthy lsc) eqn:Hlsc.
  - unfold Vehicle.drive_train_attributes.
    destruct (Vehicle.has_electric_drivetrain aa DT call HV self)
      as [electric|e]; cbn [Vehicle.then_]; [|discriminate].
    destruct (Vehicle.has_combustion_drivetrain aa DT call COMB self)
      as [combustion|e]; cbn [Vehicle.then_]; [|discriminate].
    intros H. injection H as <-.
    split; [|split].
    + apply nodupb_sound. destruct electric, combustion; reflexivity.
    + eexists. reflexivity.
    + exists lsc. split; [reflexivity|]. rewrite Hlsc.
      eexists. split; reflexivity.
  - intros H. injection H as <-.
    split; [|split].
    + apply nodupb_sound. reflexivity.
    + eexists. reflexivity.
    + exists lsc. split; [reflexivity|]. now rewrite Hlsc.
Qed.

Lemma available_attributes_shape_witness :
  NoDup ["gps_position"; "vin"; "remaining_range_total"; "mileage";
         "remaining_fuel"; "remaining_range_fuel"; "remaining_fuel_percent";
         "condition_based_services"; "check_control_messages";
         "door_lock_state"; "timestamp"; "lids"; "windows"].
Proof.
  exact (proj1 (available_attributes_shape "attributes" "state" string
                  (fun v => match v with
                            | JStr s => Return s
                            | _ => Raise (builtin ValueError)
                            end)
                  (fun t => String.eqb t "ELECTRIC")
                  (fun t => String.eqb t "COMBUSTION")
                  [("attributes",
                    Vehicle.VJson (JDict [("driveTrain", JStr "COMBUSTION")]));
                   ("state",
                    Vehicle.VJson (JDict [("isLscSupported", JBool true)]))]
                  _ eq_refl)).
Defined.

(** ** The timestamp of a vehicle *)

Lemma parse_datetime_refused
    (strptime : string -> string -> outcome datetime) (python_lt_37 : bool)
    (s : string) (l : log) :
  s <> "" ->
  refused_by_all strptime s ->
  Utils.parse_datetime strptime python_lt_37 (JStr s) l
  = (Return None, l ++ [parse_error_record s]).
Proof.
  intros Hs Hnone.
  unfold Utils.parse_datetime. rewrite (truthy_str s Hs). cbn [negb].
  unfold bind.
  rewrite <- (app_nil_r Utils.date_formats).
  rewrite (try_formats_skip strptime python_lt_37 s Utils.date_formats [] l Hnone).
  reflexivity.
Qed.

(** X26. A [lastFetched] that is missing is parsed as the string
    ["None"]: when no format parses that string, a vehicle whose
    attributes and state both lack [lastFetched] has the timestamp
    [None], after two ERROR records about ["None"]; and when the
    attributes carry a [lastFetched] string that parses, and the state
    has none, the timestamp is the parsed datetime, after one such
    record. *)
Theorem vehicle_timestamp_without_lastFetched :
  forall (ATTR_ATTRIBUTES ATTR_STATE : string) (repr_str : string -> string)
         (strptime : string -> string -> outcome datetime)
         (python_lt_37 : bool) (self : Vehicle.data) (a s : dict) (l : log),
    Vehicle.lookup_value ATTR_ATTRIBUTES self = Some (Vehicle.VJson (JDict a)) ->
    Vehicle.lookup_value ATTR_STATE self = Some (Vehicle.VJson (JDict s)) ->
    lookup "lastFetched" s = None ->
    refused_by_all strptime "None" ->
    (lookup "lastFetched" a = None ->
     Vehicle.timestamp ATTR_ATTRIBUTES ATTR_STATE repr_str strptime
       python_lt_37 self l
     = (Return None,
        l ++ [parse_error_record "None"; parse_error_record "None"]))
    /\ (forall t d,
           lookup "lastFetched" a = Some (JStr t) ->
           Utils.parse_datetime strptime python_lt_37 (JStr t) l
           = (Return (Some d), l) ->
           Vehicle.timestamp ATTR_ATTRIBUTES ATTR_STATE repr_str strptime
             python_lt_37 self l
           = (Return (Some d), l ++ [parse_error_record "None"])).
Proof.
  intros aa st repr_str strptime lt37 self a s l Ha Hs Hsf Href.
  assert (Hnone : forall l0,
             Utils.parse_datetime strptime lt37 (JStr "None") l0
             = (Return None, l0 ++ [parse_error_record "None"])).
  { intros l0. apply parse_datetime_refused; [discriminate | exact Href]. }
  split.
  - intros Haf. unfold Vehicle.timestamp, Vehicle.data_getitem.
    unfold bind at 1. unfold lift at 1. rewrite Ha.
    unfold bind at 1. unfold lift at 1. cbn [Vehicle.value_get get].
    rewrite Haf. unfold bind at 1.
    change (Vehicle.str repr_str JNull) with "None". rewrite Hnone.
    unfold bind at 1. unfold lift at 1. rewrite Hs.
    unfold bind at 1. unfold lift at 1. cbn [Vehicle.value_get get].
    rewrite Hsf. unfold bind at 1.
    change (Vehicle.str repr_str JNull) with "None". rewrite Hnone.
    cbn. rewrite <- app_assoc. reflexivity.
  - intros t d Haf Ht. unfold Vehicle.timestamp, Vehicle.data_getitem.
    unfold bind at 1. unfold lift at 1. rewrite Ha.
    unfold bind at 1. unfold lift at 1. cbn [Vehicle.value_get get].
    rewrite Haf. unfold bind at 1.
    change (Vehicle.str repr_str (JStr t)) with t. rewrite Ht.
    unfold bind at 1. unfold lift at 1. rewrite Hs.
    unfold bind at 1. unfold lift at 1. cbn [Vehicle.value_get get].
    rewrite Hsf. unfold bind at 1.
    change (Vehicle.str repr_str JNull) with "None". rewrite Hnone.
    reflexivity.
Qed.

Lemma vehicle_timestamp_without_lastFetched_witness :
  Vehicle.timestamp "attributes" "state" (fun s => s) CPython.strptime false
    [("attributes", Vehicle.VJson (JDict [("model", JStr "i3")]));
     ("state", Vehicle.VJson (JDict []))] []
  = (Return None, [parse_error_record "None"; parse_error_record "None"]).
Proof.
  refine (proj1 (vehicle_timestamp_without_lastFetched
                   "attributes" "state" (fun s => s) CPython.strptime false
                   [("attributes", Vehicle.VJson (JDict [("model", JStr "i3")]));
                    ("state", Vehicle.VJson (JDict []))]
                   [("model", JStr "i3")] [] [] eq_refl eq_refl eq_refl _)
                eq_refl).
  intros f Hf. exists (builtin ValueError). cbn in Hf.
  repeat (destruct Hf as [<- | Hf]; [split; vm_compute; reflexivity|]).
  contradiction.
Defined.
